(** * notion_google_sync: one-way sync of Notion tasks to Google Calendar

    A shallow embedding of [src/notion_google_sync.py] and the properties
    its specification states about it.

    - Python values coming from the two client libraries are JSON-shaped:
      they are modelled by the inductive [json] (Python [dict]s as
      association lists in insertion order, [None] as [JNull]).  Numbers
      are integers: the script does nothing with a number but test it for
      truth.
    - Python exceptions are modelled by the error monad [result]; every
      exception class used here derives from [Exception], which is what the
      script's [except Exception] clauses catch.
    - [datetime] is modelled by a record, with [datetime.fromisoformat] on
      the grammar its documentation gives for Python 3.7 to 3.10,
      [YYYY-MM-DD[*HH[:MM[:SS[.fff[fff]]]][+HH:MM[:SS[.ffffff]]]]] (later
      versions read more ISO 8601 forms and agree on these), together with
      [isoformat], the range checks of the constructor, and the addition
      of [timedelta(days=1)].
    - The two remote services are opaque: the driver is a program in a
      monad [M] over an arbitrary world type and an arbitrary handler that
      answers each remote call (possibly by raising).  Every remote call is
      recorded, with its answer, in the trace of the run.
    - The output stream is opaque too: [print] hands a line to an arbitrary
      [stdout], which may raise (a character the stream's encoding does not
      have, a closed pipe).  Every line given to [print] is recorded. *)

From Stdlib Require Import ZArith String Ascii List Bool Lia.
From stdpp Require Import base option list strings gmap pretty.
Import ListNotations.

Local Open Scope string_scope.
Local Open Scope Z_scope.

(* ===================================================================== *)
(** ** Exceptions and the error monad *)
(* ===================================================================== *)

Inductive exn_class :=
| AttributeError | TypeError | KeyError | IndexError | ValueError
| OverflowError
| UnicodeEncodeError   (* raised by [print] on a line [stdout] cannot encode *)
| OSError   (* [BrokenPipeError] and the like, raised by [print] on a closed stream *)
| RemoteError.   (* any [Exception] raised by a client library *)

Record exn := Exn { exn_cls : exn_class; exn_msg : string }.

Inductive result (A : Type) :=
| Ok (a : A)
| Raise (e : exn).
Arguments Ok {A} a.
Arguments Raise {A} e.

Definition rbind {A B} (m : result A) (f : A -> result B) : result B :=
  match m with
  | Ok a => f a
  | Raise e => Raise e
  end.

Declare Scope result_scope.
Delimit Scope result_scope with res.
Notation "'let*' x ':=' m 'in' k" := (rbind m (fun x => k))
  (at level 10, x name, m at level 100, k at level 200) : result_scope.

Definition is_ok {A} (r : result A) : bool :=
  match r with Ok _ => true | Raise _ => false end.

Definition raise {A} (c : exn_class) (msg : string) : result A :=
  Raise (Exn c msg).

(* ===================================================================== *)
(** ** JSON-shaped Python values *)
(* ===================================================================== *)

#[warnings="-register-all"]
Inductive json :=
| JNull
| JBool (b : bool)
| JNum (n : Z)
| JStr (s : string)
| JList (l : list json)
| JDict (kv : list (string * json)).

Module Py.

(** [bool(x)]. *)
Definition truthy (j : json) : bool :=
  match j with
  | JNull => false
  | JBool b => b
  | JNum n => negb (n =? 0)
  | JStr s => negb (String.eqb s "")
  | JList l => match l with [] => false | _ => true end
  | JDict kv => match kv with [] => false | _ => true end
  end.

(** [x is None]. *)
Definition is_none (j : json) : bool :=
  match j with JNull => true | _ => false end.

(** [x == "lit"] for a string literal: only a [str] can be equal to it. *)
Definition eq_str (j : json) (lit : string) : bool :=
  match j with JStr s => String.eqb s lit | _ => false end.

Definition type_name (j : json) : string :=
  match j with
  | JNull => "NoneType" | JBool _ => "bool" | JNum _ => "int"
  | JStr _ => "str" | JList _ => "list" | JDict _ => "dict"
  end.

Fixpoint assoc (k : string) (kv : list (string * json)) : option json :=
  match kv with
  | [] => None
  | (k', v) :: kv' => if String.eqb k k' then Some v else assoc k kv'
  end.

(** [d[k] = v] on a dict: replaces in place, or appends. *)
Fixpoint assoc_set (k : string) (v : json) (kv : list (string * json))
  : list (string * json) :=
  match kv with
  | [] => [(k, v)]
  | (k', v') :: kv' =>
      if String.eqb k k' then (k, v) :: kv' else (k', v') :: assoc_set k v kv'
  end.

Definition no_attr {A} (j : json) (attr : string) : result A :=
  raise AttributeError
    ("'" ++ type_name j ++ "' object has no attribute '" ++ attr ++ "'").

(** [d.get(k, dflt)]; only a [dict] has the method. *)
Definition get_default (d : json) (k : string) (dflt : json) : result json :=
  match d with
  | JDict kv => Ok (default dflt (assoc k kv))
  | _ => no_attr d "get"
  end.

(** [d.get(k)]. *)
Definition get (d : json) (k : string) : result json :=
  get_default d k JNull.

(** [d.get(key, dflt)] where the key is itself a Python value: a key that
    is not a [str] is never found (all keys are strings), and an unhashable
    one raises. *)
Definition get_default_j (d : json) (key : json) (dflt : json) : result json :=
  match d with
  | JDict kv =>
      match key with
      | JStr k => Ok (default dflt (assoc k kv))
      | JList _ | JDict _ =>
          raise TypeError ("unhashable type: '" ++ type_name key ++ "'")
      | _ => Ok dflt
      end
  | _ => no_attr d "get"
  end.

(** [d[k]] for a string key. *)
Definition getitem (d : json) (k : string) : result json :=
  match d with
  | JDict kv =>
      match assoc k kv with
      | Some v => Ok v
      | None => raise KeyError ("'" ++ k ++ "'")
      end
  | JNull | JBool _ | JNum _ =>
      raise TypeError ("'" ++ type_name d ++ "' object is not subscriptable")
  | JStr _ => raise TypeError "string indices must be integers"
  | JList _ => raise TypeError "list indices must be integers or slices, not str"
  end.

(** [x[0]]. *)
Definition getitem0 (x : json) : result json :=
  match x with
  | JList (y :: _) => Ok y
  | JList [] => raise IndexError "list index out of range"
  | JStr (String c _) => Ok (JStr (String c ""))
  | JStr "" => raise IndexError "string index out of range"
  | JDict _ => raise KeyError "0"
  | _ => raise TypeError ("'" ++ type_name x ++ "' object is not subscriptable")
  end.

(** [x in {"a", "b", ...}] for a set of string literals: hashes [x]. *)
Definition in_str_set (x : json) (lits : list string) : result bool :=
  match x with
  | JStr s => Ok (existsb (String.eqb s) lits)
  | JList _ | JDict _ =>
      raise TypeError ("unhashable type: '" ++ type_name x ++ "'")
  | _ => Ok false
  end.

Fixpoint chars (s : string) : list json :=
  match s with
  | EmptyString => []
  | String c s' => JStr (String c "") :: chars s'
  end.

(** The items a [for] loop or a generator draws from [x]. *)
Definition iter (x : json) : result (list json) :=
  match x with
  | JList l => Ok l
  | JDict kv => Ok (map (fun p => JStr (fst p)) kv)
  | JStr s => Ok (chars s)
  | _ => raise TypeError ("'" ++ type_name x ++ "' object is not iterable")
  end.

Fixpoint mapM {A B} (f : A -> result B) (l : list A) : result (list B) :=
  match l with
  | [] => Ok []
  | a :: l' => (let* b := f a in let* bs := mapM f l' in Ok (b :: bs))%res
  end.

Definition as_str (j : json) : result string :=
  match j with
  | JStr s => Ok s
  | _ => raise TypeError
           ("sequence item: expected str instance, " ++ type_name j ++ " found")
  end.

(** ["".join(part.get("plain_text", "") for part in parts)]: the generator
    is drained first (each [part.get] may raise), then every item must be a
    [str]. *)
Definition join_plain_text (parts : json) : result json :=
  (let* items := iter parts in
   let* texts := mapM (fun part => get_default part "plain_text" (JStr "")) items in
   let* strs := mapM as_str texts in
   Ok (JStr (String.concat "" strs)))%res.

Fixpoint contains (needle hay : string) : bool :=
  String.prefix needle hay ||
  match hay with
  | EmptyString => false
  | String _ hay' => contains needle hay'
  end.

(** ["lit" in x]: substring test on a [str], membership on a [list], key
    membership on a [dict]. *)
Definition str_in (lit : string) (x : json) : result bool :=
  match x with
  | JStr s => Ok (contains lit s)
  | JList l => Ok (existsb (fun y => eq_str y lit) l)
  | JDict kv => Ok (existsb (fun p => String.eqb (fst p) lit) kv)
  | _ => raise TypeError
           ("argument of type '" ++ type_name x ++ "' is not iterable")
  end.

(** [x + "lit"]: only [str + str] is defined for a string right operand. *)
Definition add_str (x : json) (lit : string) : result json :=
  match x with
  | JStr s => Ok (JStr (s ++ lit))
  | _ => raise TypeError
           ("unsupported operand type(s) for +: '" ++ type_name x ++ "' and 'str'")
  end.

End Py.

Local Open Scope result_scope.

(* ===================================================================== *)
(** ** Task Extractor: [_get_task_properties] *)
(* ===================================================================== *)

(** [a or b]. *)
Definition py_or (a b : result json) : result json :=
  let* x := a in if Py.truthy x then Ok x else b.

(** [p and p.get("type") == ty]. *)
Definition has_type (p : json) (ty : string) : result bool :=
  if Py.truthy p then
    let* t := Py.get p "type" in Ok (Py.eq_str t ty)
  else Ok false.

(** The [result] dict is built key by key; it is kept as the association
    list of a [JDict]. *)
Definition _get_task_properties (page : json) : result json :=
  let* props := Py.get_default page "properties" (JDict []) in
  let result := [] in
  (* Task name (title) *)
  let* title_prop := py_or (Py.get props "Name") (Py.get props "Title") in
  let* is_title := has_type title_prop "title" in
  let* result :=
    if is_title then
      let* title_parts := Py.get_default title_prop "title" (JList []) in
      let* name := Py.join_plain_text title_parts in
      Ok (Py.assoc_set "name" name result)
    else Ok (Py.assoc_set "name" (JStr "Untitled") result) in
  (* Due date *)
  let* due :=
    py_or (py_or (Py.get props "Due Date") (Py.get props "Due date"))
          (Py.get props "Due") in
  let* is_date := has_type due "date" in
  let* populated :=
    if is_date then let* d := Py.get due "date" in Ok (Py.truthy d)
    else Ok false in
  let* result :=
    if populated then
      let* d := Py.getitem due "date" in Ok (Py.assoc_set "due" d result)
    else Ok (Py.assoc_set "due" JNull result) in
  (* Status *)
  let* status_prop := Py.get props "Status" in
  let* result :=
    if Py.truthy status_prop then
      let* ty := Py.get status_prop "type" in
      let* sel := Py.in_str_set ty ["select"; "status"] in
      if sel then
        let* key := Py.getitem status_prop "type" in
        let* inner := Py.get_default_j status_prop key (JDict []) in
        let* st := Py.get inner "name" in
        Ok (Py.assoc_set "status" st result)
      else Ok result
    else Ok result in
  (* Domain relation *)
  let* domain_prop := Py.get props "Domain" in
  let* is_rel := has_type domain_prop "relation" in
  let* result :=
    if is_rel then
      let* rels := Py.get_default domain_prop "relation" (JList []) in
      if Py.truthy rels then
        (* only take the first related page *)
        let* first := Py.getitem0 rels in
        let* page_id := Py.get first "id" in
        Ok (Py.assoc_set "domain_id" page_id result)
      else Ok result
    else Ok result in
  (* GCal Event ID *)
  let* gcal_id_prop :=
    py_or (Py.get props "GCal Event ID")
          (Py.get props "Google Calendar Event ID") in
  let* is_text := has_type gcal_id_prop "rich_text" in
  let* result :=
    if is_text then
      let* texts := Py.get_default gcal_id_prop "rich_text" (JList []) in
      let* gid := Py.join_plain_text texts in
      Ok (Py.assoc_set "gcal_id" gid result)
    else Ok (Py.assoc_set "gcal_id" JNull result) in
  Ok (JDict result).

(** Builders for sample records. *)
Definition rich (s : string) : json := JDict [("plain_text", JStr s)].
Definition title_property (parts : list string) : json :=
  JDict [("type", JStr "title"); ("title", JList (map rich parts))].
Definition text_property (parts : list string) : json :=
  JDict [("type", JStr "rich_text"); ("rich_text", JList (map rich parts))].
Definition date_property (start_ end_ : json) : json :=
  JDict [("type", JStr "date");
         ("date", JDict [("start", start_); ("end", end_)])].
Definition status_property (s : string) : json :=
  JDict [("type", JStr "status"); ("status", JDict [("name", JStr s)])].
Definition relation_property (ids : list string) : json :=
  JDict [("type", JStr "relation");
         ("relation", JList (map (fun i => JDict [("id", JStr i)]) ids))].
Definition make_page (id : string) (props : list (string * json)) : json :=
  JDict [("id", JStr id); ("properties", JDict props)].

(* ===================================================================== *)
(** ** The [datetime] library *)
(* ===================================================================== *)

Module Datetime.

(** A [datetime]; [tzinfo] is the fixed UTC offset in microseconds of an
    aware value, [None] for a naive one. *)
Record datetime := mkDatetime {
  year : Z; month : Z; day : Z;
  hour : Z; minute : Z; second : Z; microsecond : Z;
  tzinfo : option Z
}.

Definition is_leap (y : Z) : bool :=
  (y mod 4 =? 0) && (negb (y mod 100 =? 0) || (y mod 400 =? 0)).

Definition days_in_month (y m : Z) : Z :=
  if m =? 2 then (if is_leap y then 29 else 28)
  else if (m =? 4) || (m =? 6) || (m =? 9) || (m =? 11) then 30
  else 31.

Definition days_before_year (y : Z) : Z :=
  let y1 := y - 1 in y1 * 365 + y1 / 4 - y1 / 100 + y1 / 400.

Definition days_before_month (y m : Z) : Z :=
  nth (Z.to_nat (m - 1)) [0; 31; 59; 90; 120; 151; 181; 212; 243; 273; 304; 334] 0
  + (if (2 <? m) && is_leap y then 1 else 0).

(** [date.toordinal()]: 1 for 0001-01-01. *)
Definition toordinal (d : datetime) : Z :=
  days_before_year (year d) + days_before_month (year d) (month d) + day d.

(** Wall-clock reading in microseconds since 0001-01-01T00:00:00, shifted
    by 86400 seconds (ordinals start at 1). *)
Definition wall_us (d : datetime) : Z :=
  (((toordinal d * 24 + hour d) * 60 + minute d) * 60 + second d) * 1000000
  + microsecond d.

Definition valid_date (y m d : Z) : bool :=
  (1 <=? y) && (y <=? 9999) && (1 <=? m) && (m <=? 12) &&
  (1 <=? d) && (d <=? days_in_month y m).

Definition valid_time (h mi s us : Z) : bool :=
  (0 <=? h) && (h <=? 23) && (0 <=? mi) && (mi <=? 59) &&
  (0 <=? s) && (s <=? 59) && (0 <=? us) && (us <=? 999999).

Definition day_us : Z := 86400 * 1000000.

(** The constructor: range checks of [datetime(...)] and [timezone(...)]. *)
Definition make (y m d h mi s us : Z) (tz : option Z) : result datetime :=
  if negb (valid_date y m d) then raise ValueError "date value out of range"
  else if negb (valid_time h mi s us) then raise ValueError "time value out of range"
  else match tz with
       | Some off =>
           if (- day_us <? off) && (off <? day_us)
           then Ok (mkDatetime y m d h mi s us tz)
           else raise ValueError "offset must be strictly between -24h and 24h"
       | None => Ok (mkDatetime y m d h mi s us None)
       end.

(** *** Parsing *)

Definition digit (c : ascii) : option Z :=
  let n := Z.of_N (N_of_ascii c) in
  if (48 <=? n) && (n <=? 57) then Some (n - 48) else None.

(** Reads exactly [n] decimal digits. *)
Fixpoint parse_digits (n : nat) (acc : Z) (cs : list ascii)
  : option (Z * list ascii) :=
  match n with
  | O => Some (acc, cs)
  | S n' =>
      match cs with
      | c :: cs' =>
          match digit c with
          | Some v => parse_digits n' (acc * 10 + v) cs'
          | None => None
          end
      | [] => None
      end
  end.

Definition expect (c : ascii) (cs : list ascii) : option (list ascii) :=
  match cs with
  | c' :: cs' => if Ascii.eqb c c' then Some cs' else None
  | [] => None
  end.

(** [YYYY-MM-DD], returning the unread rest. *)
Definition parse_isoformat_date (cs : list ascii)
  : option (Z * Z * Z * list ascii) :=
  match parse_digits 4 0 cs with
  | Some (y, r) =>
    match expect "-" r with
    | Some r =>
      match parse_digits 2 0 r with
      | Some (m, r) =>
        match expect "-" r with
        | Some r =>
          match parse_digits 2 0 r with
          | Some (d, r) => Some (y, m, d, r)
          | None => None
          end
        | None => None
        end
      | None => None
      end
    | None => None
    end
  | None => None
  end.

(** [.fff] or [.ffffff], to the end of the input. *)
Definition parse_fraction (cs : list ascii) : option Z :=
  match length cs with
  | 3%nat => match parse_digits 3 0 cs with
             | Some (v, _) => Some (v * 1000) | None => None end
  | 6%nat => match parse_digits 6 0 cs with
             | Some (v, _) => Some v | None => None end
  | _ => None
  end.

(** [HH[:MM[:SS[.fff[fff]]]]], to the end of the input. *)
Definition parse_hh_mm_ss_ff (cs : list ascii) : option (Z * Z * Z * Z) :=
  match parse_digits 2 0 cs with
  | Some (h, []) => Some (h, 0, 0, 0)
  | Some (h, c :: r) =>
    if negb (Ascii.eqb c ":") then None else
    match parse_digits 2 0 r with
    | Some (mi, []) => Some (h, mi, 0, 0)
    | Some (mi, c :: r) =>
      if negb (Ascii.eqb c ":") then None else
      match parse_digits 2 0 r with
      | Some (s, []) => Some (h, mi, s, 0)
      | Some (s, c :: r) =>
        if negb (Ascii.eqb c ".") then None else
        match parse_fraction r with
        | Some us => Some (h, mi, s, us)
        | None => None
        end
      | None => None
      end
    | None => None
    end
  | None => None
  end.

(** Splits a time string at its first sign character. *)
Fixpoint split_tz (cs : list ascii) : list ascii * option (bool * list ascii) :=
  match cs with
  | [] => ([], None)
  | c :: cs' =>
      if Ascii.eqb c "-" then ([], Some (true, cs'))
      else if Ascii.eqb c "+" then ([], Some (false, cs'))
      else let '(t, z) := split_tz cs' in (c :: t, z)
  end.

(** [HH[:MM[:SS[.fff[fff]]]][+HH:MM[:SS[.ffffff]]]]. *)
Definition parse_isoformat_time (cs : list ascii)
  : option (Z * Z * Z * Z * option Z) :=
  let '(t, z) := split_tz cs in
  match parse_hh_mm_ss_ff t with
  | Some (h, mi, s, us) =>
    match z with
    | None => Some (h, mi, s, us, None)
    | Some (neg, zs) =>
      let n := length zs in
      if negb ((n =? 5)%nat || (n =? 8)%nat || (n =? 15)%nat) then None else
      match parse_hh_mm_ss_ff zs with
      | Some (zh, zm, zsec, zus) =>
          let off := ((zh * 60 + zm) * 60 + zsec) * 1000000 + zus in
          Some (h, mi, s, us, Some (if neg then - off else off))
      | None => None
      end
    end
  | None => None
  end.

Definition invalid_isoformat {A} (s : string) : result A :=
  raise ValueError ("Invalid isoformat string: '" ++ s ++ "'").

(** [datetime.fromisoformat(s)] on a [str]. *)
Definition fromisoformat_str (s : string) : result datetime :=
  match parse_isoformat_date (list_ascii_of_string s) with
  | Some (y, m, d, []) => make y m d 0 0 0 0 None
  | Some (y, m, d, _sep :: t) =>
      match parse_isoformat_time t with
      | Some (h, mi, sec, us, tz) => make y m d h mi sec us tz
      | None => invalid_isoformat s
      end
  | None => invalid_isoformat s
  end.

(** [datetime.fromisoformat(x)] on any value. *)
Definition fromisoformat (x : json) : result datetime :=
  match x with
  | JStr s => fromisoformat_str s
  | _ => raise TypeError "fromisoformat: argument must be str"
  end.

(** *** Printing *)

Definition digit_char (v : Z) : ascii := ascii_of_N (Z.to_N (48 + v mod 10)).

(** [n] printed on exactly [w] decimal digits ([%0wd] for [0 <= n < 10^w]). *)
Fixpoint zpad (w : nat) (n : Z) : string :=
  match w with
  | O => ""
  | S w' => zpad w' (n / 10) ++ String (digit_char n) ""
  end.

Definition format_offset (off : Z) : string :=
  let a := Z.abs off in
  let us := a mod 1000000 in
  let secs := a / 1000000 in
  let ss := secs mod 60 in
  let mm := (secs / 60) mod 60 in
  let hh := secs / 3600 in
  (if off <? 0 then "-" else "+") ++ zpad 2 hh ++ ":" ++ zpad 2 mm
  ++ (if (ss =? 0) && (us =? 0) then ""
      else ":" ++ zpad 2 ss ++ (if us =? 0 then "" else "." ++ zpad 6 us)).

(** [d.isoformat()]. *)
Definition isoformat (d : datetime) : string :=
  zpad 4 (year d) ++ "-" ++ zpad 2 (month d) ++ "-" ++ zpad 2 (day d)
  ++ "T" ++ zpad 2 (hour d) ++ ":" ++ zpad 2 (minute d) ++ ":"
  ++ zpad 2 (second d)
  ++ (if microsecond d =? 0 then "" else "." ++ zpad 6 (microsecond d))
  ++ match tzinfo d with Some off => format_offset off | None => "" end.

(** *** Arithmetic and comparison *)

(** [d + timedelta(days=1)]: the same wall-clock time on the next calendar
    day, same [tzinfo]; past 9999-12-31 the date is out of range. *)
Definition add_one_day (d : datetime) : result datetime :=
  let with_date y m dd :=
    mkDatetime y m dd (hour d) (minute d) (second d) (microsecond d) (tzinfo d) in
  if day d + 1 <=? days_in_month (year d) (month d)
  then Ok (with_date (year d) (month d) (day d + 1))
  else if month d + 1 <=? 12 then Ok (with_date (year d) (month d + 1) 1)
  else if year d + 1 <=? 9999 then Ok (with_date (year d + 1) 1 1)
  else raise OverflowError "date value out of range".

(** [a < b]: naive values compare by wall clock, aware ones by instant;
    mixing the two raises. *)
Definition lt (a b : datetime) : result bool :=
  match tzinfo a, tzinfo b with
  | None, None => Ok (wall_us a <? wall_us b)
  | Some oa, Some ob => Ok (wall_us a - oa <? wall_us b - ob)
  | _, _ => raise TypeError "can't compare offset-naive and offset-aware datetimes"
  end.

End Datetime.

Import Datetime.

(* ===================================================================== *)
(** ** Date Normalizer: [_parse_notion_date] *)
(* ===================================================================== *)

(** The timezone argument [tz] is accepted and not used: the two datetimes
    are returned as parsed, and the driver sends [tz] next to them. *)
Definition _parse_notion_date (date_dict : json) (tz : string)
  : result (datetime * datetime) :=
  let* start_str := Py.get date_dict "start" in
  let* end_str := Py.get date_dict "end" in
  (* Parse ISO date/time *)
  if Py.is_none start_str then raise ValueError "start date is missing" else
  let* has_t := Py.str_in "T" start_str in
  let* start_dt :=
    if has_t then fromisoformat start_str
    else let* s := Py.add_str start_str "T00:00:00" in fromisoformat s in
  let* end_dt :=
    if Py.truthy end_str then
      let* has_t := Py.str_in "T" end_str in
      if has_t then fromisoformat end_str
      else
        (* Treat the end date as the same day at 23:59:59. *)
        let* s := Py.add_str end_str "T23:59:59" in fromisoformat s
    else
      (* Single day event, end = start + 1 day *)
      add_one_day start_dt in
  Ok (start_dt, end_dt).

Definition date_range (start_ end_ : json) : json :=
  JDict [("start", start_); ("end", end_)].

(** The pair of [isoformat()] strings of a normalized interval. *)
Definition iso_interval (r : result (datetime * datetime))
  : result (string * string) :=
  let* p := r in Ok (isoformat (fst p), isoformat (snd p)).

(* ===================================================================== *)
(** ** Remote calls and the driver monad *)
(* ===================================================================== *)

(** [str(x)] as used by f-strings.  [repr] of a nested [str] is rendered
    in single quotes without escape processing. *)
Fixpoint py_repr (j : json) : string :=
  match j with
  | JNull => "None"
  | JBool b => if b then "True" else "False"
  | JNum n => pretty n
  | JStr s => "'" ++ s ++ "'"
  | JList l => "[" ++ String.concat ", " (map py_repr l) ++ "]"
  | JDict kv =>
      "{" ++ String.concat ", "
               (map (fun p => "'" ++ fst p ++ "': " ++ py_repr (snd p)) kv)
      ++ "}"
  end.

Definition py_str (j : json) : string :=
  match j with JStr s => s | _ => py_repr j end.

(** The requests the script sends to its two collaborators. *)
Inductive call :=
| DatabasesQuery (database_id : string)
    (* notion.databases.query(database_id=...) *)
| PagesRetrieve (page_id : json)
    (* notion.pages.retrieve(page_id) *)
| PagesUpdate (page_id : json) (properties : json)
    (* notion.pages.update(page_id, properties=...) *)
| EventsUpdate (calendarId : string) (eventId : json) (body : json)
    (* calendar_service.events().update(...).execute() *)
| EventsInsert (calendarId : string) (body : json).
    (* calendar_service.events().insert(...).execute() *)

(** What a run leaves behind: each remote call with its answer, and each
    line given to [print]. *)
Inductive event :=
| Called (c : call) (r : result json)
| Printed (msg : string).

Definition is_calendar_call (ev : event) : bool :=
  match ev with
  | Called (EventsUpdate _ _ _) _ | Called (EventsInsert _ _) _ => true
  | _ => false
  end.

Definition is_write_back (ev : event) : bool :=
  match ev with Called (PagesUpdate _ _) _ => true | _ => false end.

Definition is_create (ev : event) : bool :=
  match ev with Called (EventsInsert _ _) _ => true | _ => false end.

Declare Scope driver_scope.
Delimit Scope driver_scope with M.

Section Driver.

Context {W : Type}.
(** How the outside world answers a call, how the output stream takes a
    line, and what the clock shows. *)
Variable handle : call -> W -> result json * W.
Variable stdout : string -> W -> result unit * W.
Variable utcnow : W -> datetime.

Definition M (A : Type) : Type := W -> result A * W * list event.

Definition ret {A} (a : A) : M A := fun w => (Ok a, w, []).

Definition lift {A} (r : result A) : M A := fun w => (r, w, []).

Definition bind {A B} (m : M A) (f : A -> M B) : M B := fun w =>
  match m w with
  | (Ok a, w1, t1) => let '(r, w2, t2) := f a w1 in (r, w2, (t1 ++ t2)%list)
  | (Raise e, w1, t1) => (Raise e, w1, t1)
  end.

(** [try: m  except Exception as exc: h exc]. *)
Definition try_except {A} (m : M A) (h : exn -> M A) : M A := fun w =>
  match m w with
  | (Ok a, w1, t1) => (Ok a, w1, t1)
  | (Raise e, w1, t1) => let '(r, w2, t2) := h e w1 in (r, w2, (t1 ++ t2)%list)
  end.

Definition remote (c : call) : M json := fun w =>
  let '(r, w') := handle c w in (r, w', [Called c r]).

(** [print(msg)]: the line goes to [stdout], whose exception, if any, is
    the exception of the call. *)
Definition print (msg : string) : M unit := fun w =>
  let '(r, w') := stdout msg w in (r, w', [Printed msg]).

Definition now : M datetime := fun w => (Ok (utcnow w), w, []).

Notation "'let*' x ':=' m 'in' k" := (bind m (fun x => k))
  (at level 10, x name, m at level 100, k at level 200) : driver_scope.

Local Open Scope driver_scope.

(** [for x in l: body x]. *)
Fixpoint for_each (l : list json) (body : json -> M unit) : M unit :=
  match l with
  | [] => ret tt
  | x :: l' => let* _ := body x in for_each l' body
  end.

(* ===================================================================== *)
(** ** Sync Driver: [sync_notion_to_calendar] *)
(* ===================================================================== *)

Variable calendar_map : gmap string string.
Variable tz : string.

(** Lines 183-187: the title of a retrieved domain page; [None] when the
    page has no "title"-typed name property. *)
Definition domain_title (domain_page : json) : result json :=
  (let* dn_props := Py.get_default domain_page "properties" (JDict []) in
   let* title_prop := py_or (Py.get dn_props "Name") (Py.get dn_props "Title") in
   let* is_title := has_type title_prop "title" in
   if is_title then
     let* parts := Py.get_default title_prop "title" (JList []) in
     Py.join_plain_text parts
   else Ok JNull)%res.

(** Lines 179-189: the domain page is fetched and its title read inside
    one [try]; on any exception [domain_name] stays [None]. *)
Definition resolve_domain_name (domain_id : json) : M json :=
  if Py.truthy domain_id then
    try_except
      (let* domain_page := remote (PagesRetrieve domain_id) in
       lift (domain_title domain_page))
      (fun _ => ret JNull)
  else ret JNull.

(** [calendar_map.get(domain_name or "")]. *)
Definition lookup_calendar (domain_name : json) : result (option string) :=
  match (if Py.truthy domain_name then domain_name else JStr "") with
  | JStr k => Ok (calendar_map !! k)
  | JList _ | JDict _ => raise TypeError "unhashable type"
  | _ => Ok None
  end.

Definition time_point (dt : datetime) : json :=
  JDict [("dateTime", JStr (isoformat dt)); ("timeZone", JStr tz)].

Definition event_body (name : json) (start_dt end_dt : datetime) (page_id : json)
  : json :=
  JDict [("summary", name);
         ("start", time_point start_dt);
         ("end", time_point end_dt);
         ("description",
          JStr ("View in Notion: https://www.notion.so/" ++ py_str page_id))].

Definition write_back_properties (gcal_id_new : json) (stamp : datetime) : json :=
  JDict [("GCal Event ID",
          JDict [("rich_text",
                  JList [JDict [("text", JDict [("content", gcal_id_new)])]])]);
         ("Last Synced",
          JDict [("date", JDict [("start", JStr (isoformat stamp))])])].

(** [f"Error syncing task '{name}': {exc}"]. *)
Definition error_line (name : json) (exc : exn) : string :=
  "Error syncing task '" ++ py_str name ++ "': " ++ exn_msg exc.

(** Lines 212-247: the upsert and the write-back, inside one [try].  The
    report is printed in the [except] clause, outside any [try]: an
    exception of [print] leaves the step. *)
Definition upsert (page name gcal_id : json) (calendar_id : string) (body : json)
  : M unit :=
  try_except
    (if Py.truthy gcal_id then
       (* Update existing event *)
       let* _ := remote (EventsUpdate calendar_id gcal_id body) in
       ret tt
     else
       (* Create new event *)
       let* created := remote (EventsInsert calendar_id body) in
       let* gcal_id_new := lift (Py.get created "id") in
       (* Update Notion page with the new event ID and timestamp *)
       let* page_id := lift (Py.getitem page "id") in
       let* stamp := now in
       let* _ :=
         remote (PagesUpdate page_id (write_back_properties gcal_id_new stamp)) in
       ret tt)
    (fun exc => print (error_line name exc)).

(** The body of the [for page in ...] loop; each [continue] ends it with
    [ret tt]. *)
Definition sync_page (page : json) : M unit :=
  let* props := lift (_get_task_properties page) in
  let* name := lift (Py.get props "name") in
  let* due := lift (Py.get props "due") in
  let* status := lift (Py.get props "status") in
  let* gcal_id := lift (Py.get props "gcal_id") in
  let* domain_id := lift (Py.get props "domain_id") in
  (* Skip completed tasks or tasks without a due date *)
  if Py.eq_str status "Completed" || Py.is_none due then ret tt else
  (* Get domain page to look up name *)
  let* domain_name := resolve_domain_name domain_id in
  (* Find calendar id *)
  let* calendar_id := lift (lookup_calendar domain_name) in
  match calendar_id with
  | None => ret tt                            (* not calendar_id: None *)
  | Some cid =>
    if String.eqb cid "" then ret tt else     (* not calendar_id: "" *)
    (* Parse Notion date into start/end times *)
    match _parse_notion_date due tz with
    | Raise _ => ret tt                       (* except Exception: continue *)
    | Ok (start_dt, end_dt) =>
      let* page_id := lift (Py.getitem page "id") in
      upsert page name gcal_id cid (event_body name start_dt end_dt page_id)
    end
  end.

Definition sync_notion_to_calendar (db_id : string) : M unit :=
  (* Fetch tasks *)
  let* tasks := remote (DatabasesQuery db_id) in
  let* results := lift (Py.get_default tasks "results" (JList [])) in
  let* pages := lift (Py.iter results) in
  for_each pages sync_page.

End Driver.

Arguments M : clear implicits.
Arguments ret {W A} a.
Arguments lift {W A} r.
Arguments bind {W A B} m f.
Arguments try_except {W A} m h.
Arguments print {W} stdout msg.

(** The events of a run, and its outcome. *)
Definition trace_of {W A} (out : result A * W * list event) : list event := snd out.
Definition world_of {W A} (out : result A * W * list event) : W := snd (fst out).
Definition outcome_of {W A} (out : result A * W * list event) : result A :=
  fst (fst out).

(* ===================================================================== *)
(** ** A reference model of the two collaborators *)
(* ===================================================================== *)

(** An in-memory stand-in for the task database and the calendar service,
    used to run the driver on concrete data and to state what a second run
    sees after a first one.  The task database answers [query] with its
    pages in order, [retrieve] looks a page up by id, and [update] patches
    the page addressed by a string id; the calendar stores events under
    (calendar id, event id) and refuses to update an event it does not
    hold. *)
Module Ref.

Record world := mkWorld {
  tasks : list json;                         (* the tasks database *)
  pages : list (string * json);              (* every other page, by id *)
  events : list (string * string * json);    (* calendar, event id, body *)
  clock : datetime
}.

Definition has_id (pid : string) (page : json) : bool :=
  match page with
  | JDict kv =>
      match Py.assoc "id" kv with
      | Some (JStr i) => String.eqb i pid
      | _ => false
      end
  | _ => false
  end.

(** The stored form of a property after a patch: the server fills in the
    type and the plain text. *)
Definition stored_text (content : string) : json :=
  JDict [("type", JStr "rich_text");
         ("rich_text",
          JList [JDict [("type", JStr "text");
                        ("text", JDict [("content", JStr content)]);
                        ("plain_text", JStr content)]])].

Definition stored_date (start_ : json) : json :=
  JDict [("type", JStr "date");
         ("date", JDict [("start", start_); ("end", JNull)])].

Definition patch_properties (content : string) (stamp : json) (page : json) : json :=
  match page with
  | JDict kv =>
      let props := match Py.assoc "properties" kv with
                   | Some (JDict ps) => ps
                   | _ => []
                   end in
      JDict (Py.assoc_set "properties"
               (JDict (Py.assoc_set "Last Synced" (stored_date stamp)
                         (Py.assoc_set "GCal Event ID" (stored_text content) props)))
               kv)
  | _ => page
  end.

(** The patch the script sends: a text for "GCal Event ID" and a start for
    "Last Synced". *)
Definition read_patch (properties : json) : option (string * json) :=
  match Py.get properties "GCal Event ID", Py.get properties "Last Synced" with
  | Ok (JDict [("rich_text", JList [JDict [("text", JDict [("content", JStr c)])]])]),
    Ok (JDict [("date", JDict [("start", stamp)])]) => Some (c, stamp)
  | _, _ => None
  end.

Definition http_error {A} (msg : string) : result A := raise RemoteError msg.

Fixpoint find_event (cal ev : string) (l : list (string * string * json))
  : bool :=
  match l with
  | [] => false
  | (c, e, _) :: l' => (String.eqb c cal && String.eqb e ev) || find_event cal ev l'
  end.

Definition replace_event (cal ev : string) (body : json)
  (l : list (string * string * json)) : list (string * string * json) :=
  map (fun x => match x with
                | (c, e, b) =>
                    if String.eqb c cal && String.eqb e ev then (c, e, body) else x
                end) l.

Definition handle (c : call) (w : world) : result json * world :=
  match c with
  | DatabasesQuery _ => (Ok (JDict [("results", JList (tasks w))]), w)
  | PagesRetrieve (JStr i) =>
      match Py.assoc i (pages w) with
      | Some p => (Ok p, w)
      | None => (http_error "Could not find page", w)
      end
  | PagesRetrieve _ => (http_error "page_id should be a string", w)
  | PagesUpdate (JStr i) properties =>
      match read_patch properties with
      | Some (content, stamp) =>
          if existsb (has_id i) (tasks w) then
            (Ok JNull,
             mkWorld (map (fun p => if has_id i p
                                    then patch_properties content stamp p else p)
                          (tasks w))
                     (pages w) (events w) (clock w))
          else (http_error "Could not find page", w)
      | None => (http_error "body failed validation", w)
      end
  | PagesUpdate _ _ => (http_error "page_id should be a string", w)
  | EventsUpdate cal (JStr ev) body =>
      if find_event cal ev (events w) then
        (Ok (JDict [("id", JStr ev)]),
         mkWorld (tasks w) (pages w) (replace_event cal ev body (events w)) (clock w))
      else (http_error "404 Not Found", w)
  | EventsUpdate _ _ _ => (http_error "400 Bad Request", w)
  | EventsInsert cal body =>
      let ev := "evt" ++ pretty (length (events w)) in
      (Ok (JDict [("id", JStr ev)]),
       mkWorld (tasks w) (pages w) (events w ++ [(cal, ev, body)])%list (clock w))
  end.

Definition utcnow (w : world) : datetime := clock w.

(** Two output streams: a terminal that takes every line, and one whose
    encoding is ASCII, which refuses a line holding any other character. *)
Definition stdout (msg : string) (w : world) : result unit * world := (Ok tt, w).

Definition is_ascii (msg : string) : bool :=
  forallb (fun c => (N_of_ascii c <? 128)%N) (list_ascii_of_string msg).

Definition stdout_ascii (msg : string) (w : world) : result unit * world :=
  if is_ascii msg then (Ok tt, w)
  else (raise UnicodeEncodeError
          "'ascii' codec can't encode character: ordinal not in range(128)",
        w).

Definition run (calendar_map : gmap string string) (tz db_id : string) (w : world)
  : result unit * world * list event :=
  sync_notion_to_calendar handle stdout utcnow calendar_map tz db_id w.

End Ref.

(* ===================================================================== *)
(** ** Specification-side vocabulary *)
(* ===================================================================== *)

(** *** Date ranges *)

(** What a date-or-datetime string denotes: a calendar date with no time
    component, or a full datetime (the string carries a ["T"]). *)
Inductive iso_value :=
| DateOnly (y m d : Z)
| DateTime (dt : datetime).

Definition classify (s : string) : option iso_value :=
  match parse_isoformat_date (list_ascii_of_string s) with
  | Some (y, m, d, []) =>
      if valid_date y m d then Some (DateOnly y m d) else None
  | _ =>
      if Py.contains "T" s then
        match fromisoformat_str s with
        | Ok dt => Some (DateTime dt)
        | Raise _ => None
        end
      else None
  end.

(** A start with no time component is midnight of that day. *)
Definition start_of (v : iso_value) : datetime :=
  match v with
  | DateOnly y m d => mkDatetime y m d 0 0 0 0 None
  | DateTime dt => dt
  end.

(** 9999-12-31, the last day [datetime] can represent. *)
Definition last_day (d : datetime) : bool :=
  (year d =? 9999) && (month d =? 12) && (day d =? 31).

Definition valid (d : datetime) : bool :=
  valid_date (year d) (month d) (day d)
  && valid_time (hour d) (minute d) (second d) (microsecond d).

(** *** Task records *)

(** [p[k]] when [p] is an object holding [k], else [dflt]. *)
Definition field (p : json) (k : string) (dflt : json) : json :=
  match p with
  | JDict kv => default dflt (Py.assoc k kv)
  | _ => dflt
  end.

Definition is_dict (j : json) : bool :=
  match j with JDict _ => true | _ => false end.

(** The property stored under key [k] of a property bag ([None] when the
    key is missing). *)
Definition prop_at (ps : list (string * json)) (k : string) : json :=
  default JNull (Py.assoc k ps).

(** The first populated property among the accepted keys, in order. *)
Definition first_populated (ps : list (string * json)) (keys : list string)
  : option json :=
  find Py.truthy (map (prop_at ps) keys).

(** A populated property of the given type. *)
Definition is_typed (p : json) (ty : string) : bool :=
  Py.truthy p && Py.eq_str (field p "type" JNull) ty.

Definition text_of_part (part : json) : option string :=
  match part with
  | JDict kv =>
      match Py.assoc "plain_text" kv with
      | Some (JStr s) => Some s
      | None => Some ""
      | _ => None
      end
  | _ => None
  end.

(** The concatenation of the text parts of a title or rich-text value. *)
Definition plain_text (texts : json) : string :=
  match texts with
  | JList l => String.concat "" (map (fun p => default "" (text_of_part p)) l)
  | _ => ""
  end.

(** The property schema of the task database, as far as the extractor
    relies on it: a property is missing or is an object with a string
    ["type"]; text values are lists of text objects, a select or status
    value is an object, a relation is a list of objects. *)
Definition wf_texts (texts : json) : bool :=
  match texts with
  | JList l =>
      forallb (fun p => match text_of_part p with Some _ => true | None => false end) l
  | _ => false
  end.

Definition wf_relation (rels : json) : bool :=
  match rels with
  | JList l => forallb is_dict l
  | _ => false
  end.

Definition wf_property (p : json) : bool :=
  match p with
  | JNull => true
  | JDict kv =>
      match Py.assoc "type" kv with
      | Some (JStr ty) =>
          (if String.eqb ty "title"
           then wf_texts (field p "title" (JList [])) else true)
          && (if String.eqb ty "rich_text"
              then wf_texts (field p "rich_text" (JList [])) else true)
          && (if String.eqb ty "select" || String.eqb ty "status"
              then is_dict (field p ty (JDict [])) else true)
          && (if String.eqb ty "relation"
              then wf_relation (field p "relation" (JList [])) else true)
      | _ => false
      end
  | _ => false
  end.

Definition name_keys : list string := ["Name"; "Title"].
Definition due_keys : list string := ["Due Date"; "Due date"; "Due"].
Definition id_keys : list string := ["GCal Event ID"; "Google Calendar Event ID"].
Definition read_keys : list string :=
  name_keys ++ due_keys ++ ["Status"; "Domain"] ++ id_keys.

(** The property bag of a record. *)
Definition properties_of (page : json) : option (list (string * json)) :=
  match page with
  | JDict kv =>
      match default (JDict []) (Py.assoc "properties" kv) with
      | JDict ps => Some ps
      | _ => None
      end
  | _ => None
  end.

Definition wf_page (page : json) : bool :=
  match properties_of page with
  | Some ps => forallb (fun k => wf_property (prop_at ps k)) read_keys
  | None => false
  end.

(** What the extractor computes, field by field. *)
Definition name_rule (ps : list (string * json)) : json :=
  match first_populated ps name_keys with
  | Some p =>
      if is_typed p "title"
      then JStr (plain_text (field p "title" (JList [])))
      else JStr "Untitled"
  | None => JStr "Untitled"
  end.

Definition due_rule (ps : list (string * json)) : json :=
  match first_populated ps due_keys with
  | Some p =>
      if is_typed p "date" && Py.truthy (field p "date" JNull)
      then field p "date" JNull else JNull
  | None => JNull
  end.

Definition status_entry (ps : list (string * json)) : list (string * json) :=
  let p := prop_at ps "Status" in
  match field p "type" JNull with
  | JStr ty =>
      if Py.truthy p && (String.eqb ty "select" || String.eqb ty "status")
      then [("status", field (field p ty (JDict [])) "name" JNull)]
      else []
  | _ => []
  end.

Definition domain_entry (ps : list (string * json)) : list (string * json) :=
  let p := prop_at ps "Domain" in
  if is_typed p "relation" then
    match field p "relation" (JList []) with
    | JList (first :: _) => [("domain_id", field first "id" JNull)]
    | _ => []
    end
  else [].

Definition gcal_id_rule (ps : list (string * json)) : json :=
  match first_populated ps id_keys with
  | Some p =>
      if is_typed p "rich_text"
      then JStr (plain_text (field p "rich_text" (JList [])))
      else JNull
  | None => JNull
  end.

Definition extracted (ps : list (string * json)) : json :=
  JDict ([("name", name_rule ps); ("due", due_rule ps)]
         ++ status_entry ps ++ domain_entry ps
         ++ [("gcal_id", gcal_id_rule ps)])%list.

(** The name as the specification words it: the text of the first property
    among the accepted name keys that is populated and "title"-typed. *)
Definition name_as_stated (ps : list (string * json)) : json :=
  match find (fun p => is_typed p "title") (map (prop_at ps) name_keys) with
  | Some p => JStr (plain_text (field p "title" (JList [])))
  | None => JStr "Untitled"
  end.

(** *** Traces and worlds *)

(** A trace with no calendar call and no write-back. *)
Definition quiet (t : list event) : Prop :=
  existsb is_calendar_call t = false /\ existsb is_write_back t = false.

(** In a reference world: the pages are [pages0], the task record [p] is in
    the database, and it is the only record of id [pid]. *)
Definition stable (p : json) (pid : string) (pages0 : list (string * json))
  (w : Ref.world) : Prop :=
  Ref.pages w = pages0 /\
  In p (Ref.tasks w) /\
  (forall q, In q (Ref.tasks w) -> Ref.has_id pid q = true -> q = p).

(* ===================================================================== *)
(** ** Sample data *)
(* ===================================================================== *)

Module Sample.

Definition calendars : gmap string string :=
  {[ "Book" := "book@cal"; "Home" := "home@cal" ]}.

(** A mapping with an entry for the empty name. *)
Definition calendars_with_fallback : gmap string string :=
  {[ "" := "inbox@cal"; "Book" := "book@cal" ]}.

Definition zone : string := "America/New_York".

Definition task (id : string) (due_start due_end : json) (status : string)
  (domains : list string) (event_id : list string) : json :=
  make_page id
    [("Name", title_property ["Task "; id]);
     ("Due Date", date_property due_start due_end);
     ("Status", status_property status);
     ("Domain", relation_property domains);
     ("GCal Event ID", text_property event_id)].

(** Not yet synced. *)
Definition task_new : json :=
  task "p1" (JStr "2024-05-01") JNull "In progress" ["d1"] [].
(** Synced before: has an event id, and the event exists. *)
Definition task_synced : json :=
  task "p2" (JStr "2024-05-01") (JStr "2024-05-03") "In progress" ["d1"] ["evt-old"].
Definition task_completed : json :=
  task "p3" (JStr "2024-05-01") JNull "Completed" ["d1"] [].
(** Its domain, "Garden", has no calendar. *)
Definition task_unmapped : json :=
  task "p4" (JStr "2024-05-01") JNull "In progress" ["d2"] [].
(** No domain at all. *)
Definition task_orphan : json :=
  task "p5" (JStr "2024-05-01") JNull "In progress" [] [].
(** Has an event id, but the calendar no longer holds the event. *)
Definition task_stale : json :=
  task "p6" (JStr "2024-05-01") JNull "In progress" ["d1"] ["evt-gone"].
(** Its domain page cannot be retrieved. *)
Definition task_lost_domain : json :=
  task "p7" (JStr "2024-05-01") JNull "In progress" ["d9"] [].
(** A due date that does not parse. *)
Definition task_bad_date : json :=
  task "p8" (JStr "next week") JNull "In progress" ["d1"] [].

(** Has an event id the calendar no longer holds, and a name with a
    character outside ASCII (code point 233). *)
Definition task_accent : json :=
  make_page "p12"
    [("Name", title_property ["Caf" ++ String (ascii_of_nat 233) ""]);
     ("Due Date", date_property (JStr "2024-05-01") JNull);
     ("Status", status_property "In progress");
     ("Domain", relation_property ["d1"]);
     ("GCal Event ID", text_property ["evt-gone"])].

(** The text sits under "Name" as rich text, the title under "Title". *)
Definition task_title_under_title : json :=
  make_page "p9"
    [("Name", text_property ["Quarterly report"]);
     ("Title", title_property ["Quarterly report"])].

Definition domain_page (id name : string) : json :=
  make_page id [("Name", title_property [name])].

Definition world (tasks : list json) : Ref.world :=
  Ref.mkWorld tasks
    [("d1", domain_page "d1" "Book"); ("d2", domain_page "d2" "Garden")]
    [("book@cal", "evt-old", JNull)]
    (mkDatetime 2024 4 30 12 0 0 0 None).

End Sample.

(* ===================================================================== *)
(** ** Start-up: [_get_env], [_parse_calendar_mapping], [main] *)
(* ===================================================================== *)

(** The exceptions of the start-up code: those of the classes above, and
    the two classes it adds.  [json.JSONDecodeError] is a subclass of
    [ValueError]; an [except json.JSONDecodeError] clause catches it and
    nothing else modelled here. *)
Inductive startup_exn :=
| RuntimeError (msg : string)
| JSONDecodeError (msg : string)
| OfClass (e : exn).

Inductive attempt (A : Type) :=
| Done (a : A)
| Failed (e : startup_exn).
Arguments Done {A} a.
Arguments Failed {A} e.

Definition abind {A B} (m : attempt A) (f : A -> attempt B) : attempt B :=
  match m with
  | Done a => f a
  | Failed e => Failed e
  end.

Definition of_result {A} (r : result A) : attempt A :=
  match r with
  | Ok a => Done a
  | Raise e => Failed (OfClass e)
  end.

Definition is_done {A} (m : attempt A) : bool :=
  match m with Done _ => true | Failed _ => false end.

(** [not value] for an [Optional[str]]. *)
Definition falsy (value : option string) : bool :=
  match value with
  | Some s => String.eqb s ""
  | None => true
  end.

(** [os.getenv(name)] and [os.getenv(name, dflt)]; the process environment
    is a finite map from names to values. *)
Definition getenv (env : gmap string string) (name : string) : option string :=
  env !! name.

Definition getenv_default (env : gmap string string) (name dflt : string)
  : string :=
  default dflt (env !! name).

(** Helper to fetch environment variables with optional enforcement. *)
Definition _get_env (env : gmap string string) (name : string) (required : bool)
  : attempt (option string) :=
  let value := getenv env name in
  if required && falsy value
  then Failed (RuntimeError ("Missing required environment variable: " ++ name))
  else Done value.

(** [{str(k): str(v) for k, v in mapping.items()}]: the items are inserted
    in order; the keys of a JSON object are [str] already.  [str(v)] is
    [py_str], exact on strings, [None], booleans and integers. *)
Definition str_items (kv : list (string * json)) : gmap string string :=
  fold_left (fun m p => <[fst p := py_str (snd p)]> m) kv ∅.

Declare Scope startup_scope.
Delimit Scope startup_scope with S.

Section Startup.

Context {W : Type}.

(** The library functions the start-up code calls.  They are opaque:
    [json.loads]; the constructor of the Notion client; the two steps that
    make the calendar service; and how the world answers a call made
    through a given pair of clients.  Constructing a client is taken to
    make no remote call. *)
Variable json_loads : option string -> attempt json.
Variables (Notion Credentials Service : Type).
Variable NotionClient : option string -> attempt Notion.
Variable from_service_account_info : json -> list string -> attempt Credentials.
Variable build : string -> string -> Credentials -> attempt Service.
Variable answer : Notion -> Service -> call -> W -> result json * W.
Variable stdout : string -> W -> result unit * W.
Variable utcnow : W -> datetime.

(** Parse the JSON mapping of domain names to calendar IDs.  The
    [ValueError] raised in the [try] body for a value that is not a [dict]
    is not a [JSONDecodeError], so the [except] clause lets it through. *)
Definition _parse_calendar_mapping (mapping_str : option string)
  : attempt (gmap string string) :=
  match json_loads mapping_str with
  | Done mapping =>
      match mapping with
      | JDict kv => Done (str_items kv)
      | _ => Failed (OfClass (Exn ValueError "Mapping must be a JSON object"))
      end
  | Failed (JSONDecodeError _) =>
      Failed (OfClass (Exn ValueError "DOMAIN_CALENDAR_MAPPING must be valid JSON"))
  | Failed e => Failed e
  end.

(** Create a Google Calendar service client from a JSON key string. *)
Definition _get_google_service (calendar_credentials : option string)
  : attempt Service :=
  abind (json_loads calendar_credentials) (fun info =>
  abind (from_service_account_info info
           ["https://www.googleapis.com/auth/calendar"]) (fun credentials =>
  build "calendar" "v3" credentials)).

(** A start-up step: its exception ends the program before anything is
    sent. *)
Definition starting {A} (m : attempt A)
  (k : A -> W -> attempt unit * W * list event)
  : W -> attempt unit * W * list event :=
  fun w =>
    match m with
    | Done a => k a w
    | Failed e => (Failed e, w, [])
    end.

Notation "'let*' x ':=' m 'in' k" := (starting m (fun x => k))
  (at level 10, x name, m at level 100, k at level 200) : startup_scope.

Local Open Scope startup_scope.

Definition main (env : gmap string string)
  : W -> attempt unit * W * list event :=
  (* Load configuration from environment *)
  let* notion_token := _get_env env "NOTION_API_TOKEN" true in
  let* notion_db_id := _get_env env "NOTION_TASKS_DB_ID" true in
  let* calendar_mapping_str := _get_env env "DOMAIN_CALENDAR_MAPPING" true in
  let* gcal_creds := _get_env env "GOOGLE_SERVICE_ACCOUNT_JSON" true in
  let timezone := getenv_default env "TIMEZONE" "America/New_York" in
  let* calendar_map := _parse_calendar_mapping calendar_mapping_str in
  let* notion := NotionClient notion_token in
  let* gcal_service := _get_google_service gcal_creds in
  fun w =>
    match notion_db_id with
    | Some db_id =>
        let '(r, w', t) :=
          sync_notion_to_calendar (answer notion gcal_service) stdout utcnow
            calendar_map timezone db_id w in
        (of_result r, w', t)
    | None =>
        (* not reached: a required variable is never [None] *)
        (Failed (OfClass (Exn TypeError "database_id is None")), w, [])
    end.

End Startup.

(** The variables [main] requires, in the order it reads them. *)
Definition required_variables : list string :=
  ["NOTION_API_TOKEN"; "NOTION_TASKS_DB_ID"; "DOMAIN_CALENDAR_MAPPING";
   "GOOGLE_SERVICE_ACCOUNT_JSON"].

(** The name of a domain as read from its page: the rule of the task name,
    with [None] where the task name is "Untitled". *)
Definition domain_name_rule (ps : list (string * json)) : json :=
  match first_populated ps name_keys with
  | Some p =>
      if is_typed p "title"
      then JStr (plain_text (field p "title" (JList [])))
      else JNull
  | None => JNull
  end.

(** *** Traces, continued *)

Definition is_query (ev : event) : bool :=
  match ev with Called (DatabasesQuery _) _ => true | _ => false end.

Definition is_lookup (ev : event) : bool :=
  match ev with Called (PagesRetrieve _) _ => true | _ => false end.

(** The place of an event in one iteration of the loop: the domain lookup,
    the calendar call, the write-back, the printed report. *)
Definition stage (ev : event) : nat :=
  match ev with
  | Called (DatabasesQuery _) _ => 0
  | Called (PagesRetrieve _) _ => 1
  | Called (EventsUpdate _ _ _) _ | Called (EventsInsert _ _) _ => 2
  | Called (PagesUpdate _ _) _ => 3
  | Printed _ => 4
  end.

(** Strictly increasing. *)
Fixpoint ascending (l : list nat) : bool :=
  match l with
  | a :: ((b :: _) as l') => (a <? b)%nat && ascending l'
  | _ => true
  end.

(** The calendar a calendar call is addressed to, and the body it carries. *)
Definition calendar_of (ev : event) : option string :=
  match ev with
  | Called (EventsUpdate c _ _) _ | Called (EventsInsert c _) _ => Some c
  | _ => None
  end.

Definition body_of (ev : event) : option json :=
  match ev with
  | Called (EventsUpdate _ _ b) _ | Called (EventsInsert _ b) _ => Some b
  | _ => None
  end.

(* ===================================================================== *)
(** ** A sample deployment *)
(* ===================================================================== *)

(** A process environment, a stand-in for [json.loads] that knows the few
    texts used here, and clients that talk to the reference model. *)
Module Deployment.

Definition quoted (s : string) : string :=
  String (ascii_of_nat 34) s ++ String (ascii_of_nat 34) "".

Definition mapping_text : string :=
  "{" ++ quoted "Book" ++ ": " ++ quoted "book@cal" ++ ", "
      ++ quoted "Home" ++ ": " ++ quoted "home@cal" ++ "}".

(** The calendar of "Book" is [null]. *)
Definition mapping_text_null : string :=
  "{" ++ quoted "Book" ++ ": null}".

Definition credentials_text : string :=
  "{" ++ quoted "type" ++ ": " ++ quoted "service_account" ++ "}".

Definition loads (s : option string) : attempt json :=
  match s with
  | Some s =>
      if String.eqb s mapping_text then
        Done (JDict [("Book", JStr "book@cal"); ("Home", JStr "home@cal")])
      else if String.eqb s mapping_text_null then
        Done (JDict [("Book", JNull)])
      else if String.eqb s credentials_text then
        Done (JDict [("type", JStr "service_account")])
      else if String.eqb s "[]" then Done (JList [])
      else Failed (JSONDecodeError "Expecting value: line 1 column 1 (char 0)")
  | None =>
      Failed (OfClass (Exn TypeError
        "the JSON object must be str, bytes or bytearray, not NoneType"))
  end.

Definition environment : gmap string string :=
  {[ "NOTION_API_TOKEN" := "secret_token";
     "NOTION_TASKS_DB_ID" := "db";
     "DOMAIN_CALENDAR_MAPPING" := mapping_text;
     "GOOGLE_SERVICE_ACCOUNT_JSON" := credentials_text ]}.

(** The same with no database id, and an empty token. *)
Definition environment_incomplete : gmap string string :=
  {[ "NOTION_API_TOKEN" := "secret_token";
     "DOMAIN_CALENDAR_MAPPING" := mapping_text;
     "GOOGLE_SERVICE_ACCOUNT_JSON" := "" ]}.

(** The mapping is a list; the mapping is cut short; a timezone is set. *)
Definition environment_list_mapping : gmap string string :=
  <["DOMAIN_CALENDAR_MAPPING" := "[]"]> environment.
Definition environment_broken_mapping : gmap string string :=
  <["DOMAIN_CALENDAR_MAPPING" := "{Book"]> environment.
Definition environment_paris : gmap string string :=
  <["TIMEZONE" := "Europe/Paris"]> environment.

(** A task whose status select is empty, and one related to two domains. *)
Definition task_empty_select : json :=
  make_page "p10"
    [("Name", title_property ["Task p10"]);
     ("Due Date", date_property (JStr "2024-05-01") JNull);
     ("Status", JDict [("type", JStr "select"); ("select", JNull)])].
Definition task_two_domains : json :=
  Sample.task "p11" (JStr "2024-05-01") JNull "In progress" ["d2"; "d1"] [].

Definition client (token : option string) : attempt unit := Done tt.
Definition credentials (info : json) (scopes : list string) : attempt json :=
  Done info.
Definition service (name version : string) (creds : json) : attempt unit :=
  Done tt.
Definition answer (notion service : unit) : call -> Ref.world -> result json * Ref.world :=
  Ref.handle.

Definition run (env : gmap string string) (w : Ref.world)
  : attempt unit * Ref.world * list event :=
  main loads unit json unit client credentials service answer Ref.stdout
    Ref.utcnow env w.

End Deployment.


(* ===================================================================== *)
(** ** The embedding at work *)
(* ===================================================================== *)

Example extract_sample :
  _get_task_properties Sample.task_new
  = Ok (JDict [("name", JStr "Task p1");
               ("due", date_range (JStr "2024-05-01") JNull);
               ("status", JStr "In progress");
               ("domain_id", JStr "d1");
               ("gcal_id", JStr "")]).
Proof. reflexivity. Qed.

Example extract_empty_title :
  rbind (_get_task_properties (make_page "p0" [("Name", title_property [])]))
        (fun props => Py.get props "name")
  = Ok (JStr "").
Proof. reflexivity. Qed.

Example extract_empty_select_raises :
  _get_task_properties
    (make_page "p0"
       [("Status", JDict [("type", JStr "select"); ("select", JNull)])])
  = raise AttributeError "'NoneType' object has no attribute 'get'".
Proof. reflexivity. Qed.

Example normalize_offset_start :
  iso_interval
    (_parse_notion_date
       (date_range (JStr "2024-02-28T09:00:00.000-04:00") JNull) Sample.zone)
  = Ok ("2024-02-28T09:00:00-04:00", "2024-02-29T09:00:00-04:00").
Proof. reflexivity. Qed.

Example normalize_missing_start :
  _parse_notion_date (date_range JNull (JStr "2024-05-01")) Sample.zone
  = raise ValueError "start date is missing".
Proof. reflexivity. Qed.

Example normalize_last_day :
  _parse_notion_date (date_range (JStr "9999-12-31") JNull) Sample.zone
  = raise OverflowError "date value out of range".
Proof. reflexivity. Qed.

Example run_sample :
  map (fun ev => match ev with
                 | Called (DatabasesQuery _) _ => "query"
                 | Called (PagesRetrieve _) _ => "retrieve"
                 | Called (PagesUpdate _ _) _ => "write-back"
                 | Called (EventsUpdate _ _ _) _ => "update"
                 | Called (EventsInsert _ _) _ => "create"
                 | Printed _ => "print"
                 end)
      (trace_of (Ref.run Sample.calendars Sample.zone "db"
                   (Sample.world [Sample.task_new; Sample.task_synced;
                                  Sample.task_completed; Sample.task_unmapped;
                                  Sample.task_stale])))
  = ["query"; "retrieve"; "create"; "write-back"; "retrieve"; "update";
     "retrieve"; "retrieve"; "update"; "print"].
Proof. vm_compute. reflexivity. Qed.

(* ===================================================================== *)
(** ** Facts about the [datetime] model *)
(* ===================================================================== *)

Section DatetimeFacts.

Lemma chars_app (s t : string) :
  list_ascii_of_string (s ++ t)
  = (list_ascii_of_string s ++ list_ascii_of_string t)%list.
Proof. induction s as [|c s IH]; simpl; [reflexivity | now rewrite IH]. Qed.

Lemma digit_not_T (c : ascii) (v : Z) : digit c = Some v -> Ascii.eqb "T" c = false.
Proof.
  destruct c as [[] [] [] [] [] [] [] []]; vm_compute; congruence.
Qed.

Lemma contains_T_chars (s : string) :
  Py.contains "T" s = existsb (Ascii.eqb "T") (list_ascii_of_string s).
Proof.
  induction s as [|c s IH]; [reflexivity|].
  cbn [Py.contains list_ascii_of_string existsb String.prefix].
  rewrite IH. destruct (Ascii.eqb_spec "T"%char c) as [<-|Hne].
  - simpl. now destruct s.
  - destruct (ascii_dec "T" c); [contradiction|]. reflexivity.
Qed.

(** A successful [parse_digits] reads [n] digit characters and does not
    look at what follows them. *)
Lemma parse_digits_prefix (n : nat) : forall acc cs v r,
  parse_digits n acc cs = Some (v, r) ->
  exists pre, cs = (pre ++ r)%list /\
    existsb (Ascii.eqb "T") pre = false /\
    forall r', parse_digits n acc (pre ++ r')%list = Some (v, r').
Proof.
  induction n as [|n IH]; intros acc cs v r H; simpl in H.
  - inversion H; subst. exists []. repeat split.
  - destruct cs as [|c cs]; [discriminate|].
    destruct (digit c) as [d|] eqn:Hd; [|discriminate].
    destruct (IH _ _ _ _ H) as (pre & -> & HT & Hpre).
    exists (c :: pre). split; [reflexivity|]. split.
    + cbn [existsb]. now rewrite (digit_not_T _ _ Hd).
    + intros r'. cbn [app parse_digits]. now rewrite Hd.
Qed.

Lemma expect_prefix (c : ascii) cs r :
  expect c cs = Some r -> cs = c :: r.
Proof.
  destruct cs as [|c' cs]; simpl; [discriminate|].
  destruct (Ascii.eqb_spec c c'); [|discriminate]. now intros [= ->]; subst.
Qed.

Lemma parse_isoformat_date_prefix cs y m d r :
  parse_isoformat_date cs = Some (y, m, d, r) ->
  exists pre, cs = (pre ++ r)%list /\
    existsb (Ascii.eqb "T") pre = false /\
    forall r', parse_isoformat_date (pre ++ r')%list = Some (y, m, d, r').
Proof.
  unfold parse_isoformat_date. intros H.
  destruct (parse_digits 4 0 cs) as [[y' r1]|] eqn:H1; [|discriminate].
  destruct (expect "-" r1) as [r2|] eqn:H2; [|discriminate].
  destruct (parse_digits 2 0 r2) as [[m' r3]|] eqn:H3; [|discriminate].
  destruct (expect "-" r3) as [r4|] eqn:H4; [|discriminate].
  destruct (parse_digits 2 0 r4) as [[d' r5]|] eqn:H5; [|discriminate].
  inversion H; subst; clear H.
  apply parse_digits_prefix in H1 as (p1 & -> & T1 & P1).
  apply expect_prefix in H2 as ->.
  apply parse_digits_prefix in H3 as (p3 & -> & T3 & P3).
  apply expect_prefix in H4 as ->.
  apply parse_digits_prefix in H5 as (p5 & -> & T5 & P5).
  exists (p1 ++ "-"%char :: p3 ++ "-"%char :: p5)%list. split; [|split].
  - now rewrite <- !app_assoc; cbn [app]; rewrite <- !app_assoc.
  - rewrite !existsb_app; cbn [existsb]; rewrite !existsb_app; cbn [existsb].
    rewrite T1, T3, T5. reflexivity.
  - intros r'. rewrite <- !app_assoc; cbn [app]; rewrite <- !app_assoc; cbn [app].
    rewrite P1. cbn [expect]. rewrite Ascii.eqb_refl, P3.
    cbn [expect]. rewrite Ascii.eqb_refl, P5. reflexivity.
Qed.

Lemma classify_date_only s y m d :
  classify s = Some (DateOnly y m d) ->
  parse_isoformat_date (list_ascii_of_string s) = Some (y, m, d, [])
  /\ valid_date y m d = true.
Proof.
  unfold classify. intros H.
  destruct (parse_isoformat_date (list_ascii_of_string s))
    as [[[[y' m'] d'] [|c r]]|] eqn:Hp.
  - destruct (valid_date y' m' d') eqn:Hv; [|discriminate].
    now inversion H; subst.
  - destruct (Py.contains "T" s); [|discriminate].
    destruct (fromisoformat_str s); discriminate.
  - destruct (Py.contains "T" s); [|discriminate].
    destruct (fromisoformat_str s); discriminate.
Qed.

Lemma classify_datetime s dt :
  classify s = Some (DateTime dt) ->
  Py.contains "T" s = true /\ fromisoformat_str s = Ok dt.
Proof.
  unfold classify. intros H.
  assert (Hgen : (if Py.contains "T" s
                  then match fromisoformat_str s with
                       | Ok dt => Some (DateTime dt) | Raise _ => None end
                  else None) = Some (DateTime dt) ->
                 Py.contains "T" s = true /\ fromisoformat_str s = Ok dt).
  { destruct (Py.contains "T" s); [|discriminate].
    destruct (fromisoformat_str s); [|discriminate].
    now intros [= ->]. }
  destruct (parse_isoformat_date (list_ascii_of_string s))
    as [[[[y' m'] d'] [|c r]]|]; auto.
  destruct (valid_date y' m' d'); discriminate.
Qed.

(** A date-only string carries no ["T"], and completing it with a time of
    day gives that time on that date. *)
Lemma date_only_completed s y m d (t : string) h mi sec :
  parse_isoformat_date (list_ascii_of_string s) = Some (y, m, d, []) ->
  valid_date y m d = true ->
  parse_isoformat_time (list_ascii_of_string t) = Some (h, mi, sec, 0, None) ->
  valid_time h mi sec 0 = true ->
  Py.contains "T" s = false /\
  fromisoformat_str (s ++ String "T" t) = Ok (mkDatetime y m d h mi sec 0 None).
Proof.
  intros Hp Hv Ht Hvt.
  apply parse_isoformat_date_prefix in Hp as (pre & Hs & HT & Hpre).
  rewrite app_nil_r in Hs. split.
  - now rewrite contains_T_chars, Hs.
  - unfold fromisoformat_str. rewrite chars_app, Hs, Hpre.
    cbn [list_ascii_of_string]. rewrite Ht. unfold make. now rewrite Hv, Hvt.
Qed.

Lemma make_valid y m d h mi s us tz dt :
  make y m d h mi s us tz = Ok dt ->
  dt = mkDatetime y m d h mi s us tz /\ valid dt = true.
Proof.
  unfold make, valid.
  destruct (valid_date y m d) eqn:Hd; [|discriminate].
  destruct (valid_time h mi s us) eqn:Ht; [|discriminate]. cbn [negb].
  destruct tz as [off|].
  - destruct ((- day_us <? off) && (off <? day_us)); [|discriminate].
    intros [= <-]. cbn. now rewrite Hd, Ht.
  - intros [= <-]. cbn. now rewrite Hd, Ht.
Qed.

Lemma fromisoformat_str_valid s dt :
  fromisoformat_str s = Ok dt -> valid dt = true.
Proof.
  unfold fromisoformat_str, invalid_isoformat, raise.
  destruct (parse_isoformat_date (list_ascii_of_string s))
    as [[[[y m] d] [|c r]]|]; [| |discriminate].
  - intros H. now apply make_valid in H.
  - destruct (parse_isoformat_time r) as [[[[[h mi] sec] us] tz]|];
      [|discriminate].
    intros H. now apply make_valid in H.
Qed.

Lemma fromisoformat_valid x dt : fromisoformat x = Ok dt -> valid dt = true.
Proof.
  destruct x; try discriminate. apply fromisoformat_str_valid.
Qed.

Lemma classify_start_valid s v : classify s = Some v -> valid (start_of v) = true.
Proof.
  destruct v as [y m d|dt]; intros H.
  - apply classify_date_only in H as [_ Hv]. unfold valid. cbn. now rewrite Hv.
  - apply classify_datetime in H as [_ H]. now apply fromisoformat_str_valid in H.
Qed.

(** *** The calendar: the day after *)

Lemma days_before_next_year y :
  days_before_year (y + 1) = days_before_year y + 365 + (if is_leap y then 1 else 0).
Proof.
  unfold days_before_year, is_leap.
  replace (y + 1 - 1) with y by lia.
  destruct (Z.eqb_spec (y mod 4) 0), (Z.eqb_spec (y mod 100) 0),
    (Z.eqb_spec (y mod 400) 0); cbn [negb andb orb];
    Z.to_euclidean_division_equations; lia.
Qed.

Lemma days_before_month_step y m :
  1 <= m <= 11 ->
  days_before_month y (m + 1) = days_before_month y m + days_in_month y m.
Proof.
  intros Hm.
  assert (Hc : m = 1 \/ m = 2 \/ m = 3 \/ m = 4 \/ m = 5 \/ m = 6 \/ m = 7 \/
               m = 8 \/ m = 9 \/ m = 10 \/ m = 11) by lia.
  unfold days_before_month, days_in_month.
  repeat (destruct Hc as [-> | Hc]; [destruct (is_leap y); reflexivity|]).
  subst m. destruct (is_leap y); reflexivity.
Qed.

(** [d + timedelta(days=1)] is the next ordinal day at the same time of
    day, whenever it does not leave the calendar. *)
Lemma add_one_day_next d d' :
  valid d = true -> add_one_day d = Ok d' ->
  toordinal d' = toordinal d + 1 /\
  hour d' = hour d /\ minute d' = minute d /\ second d' = second d /\
  microsecond d' = microsecond d /\ tzinfo d' = tzinfo d /\ valid d' = true.
Proof.
  destruct d as [y m dd h mi s us tz].
  unfold valid, valid_date, valid_time, add_one_day, toordinal. cbn.
  intros Hv. repeat (apply andb_prop in Hv as [Hv ?]).
  assert (Hm : m = 1 \/ m = 2 \/ m = 3 \/ m = 4 \/ m = 5 \/ m = 6 \/ m = 7 \/
               m = 8 \/ m = 9 \/ m = 10 \/ m = 11 \/ m = 12) by lia.
  destruct (Z.leb_spec (dd + 1) (days_in_month y m)) as [Hd|Hd].
  { intros [= <-]. cbn. repeat split; lia. }
  assert (Hdd : dd = days_in_month y m) by lia.
  destruct (Z.leb_spec (m + 1) 12) as [Hm12|Hm12].
  { intros [= <-]. cbn.
    assert (Hdim : 1 <= days_in_month y (m + 1)).
    { unfold days_in_month.
      repeat match goal with |- context [if ?b then _ else _] => destruct b end;
        lia. }
    repeat split; try lia.
    subst dd. rewrite days_before_month_step by lia. lia. }
  assert (m = 12) by lia; subst m.
  destruct (Z.leb_spec (y + 1) 9999) as [Hy|Hy]; [|discriminate].
  intros [= <-]. cbn.
  repeat split; try (cbn; lia).
  rewrite days_before_next_year. subst dd.
  unfold days_before_month, days_in_month.
  change (nth (Z.to_nat (12 - 1)) _ 0) with 334.
  change (nth (Z.to_nat (1 - 1)) _ 0) with 0.
  destruct (is_leap y); cbn; lia.
Qed.

Lemma add_one_day_total d :
  valid d = true -> last_day d = false -> exists d', add_one_day d = Ok d'.
Proof.
  destruct d as [y m dd h mi s us tz].
  unfold valid, valid_date, last_day, add_one_day. cbn.
  intros Hv Hl. repeat (apply andb_prop in Hv as [Hv ?]).
  destruct (Z.leb_spec (dd + 1) (days_in_month y m)); [eauto|].
  destruct (Z.leb_spec (m + 1) 12); [eauto|].
  destruct (Z.leb_spec (y + 1) 9999); [eauto|].
  assert (y = 9999) by lia. assert (m = 12) by lia. subst.
  assert (dd = 31) by (cbn in *; lia). subst. discriminate.
Qed.

Lemma wall_us_next d d' :
  toordinal d' = toordinal d + 1 ->
  hour d' = hour d -> minute d' = minute d -> second d' = second d ->
  microsecond d' = microsecond d ->
  wall_us d' = wall_us d + day_us.
Proof.
  unfold wall_us, day_us. intros -> -> -> -> ->. lia.
Qed.

End DatetimeFacts.

(* ===================================================================== *)
(** ** Date Normalizer *)
(* ===================================================================== *)

Section Normalizer.

Local Open Scope result_scope.

Lemma classify_nonempty s v : classify s = Some v -> Py.truthy (JStr s) = true.
Proof. destruct s; [discriminate | reflexivity]. Qed.

(** How the normalizer reads a classified start string. *)
Lemma read_start s v :
  classify s = Some v ->
  (let* has_t := Py.str_in "T" (JStr s) in
   if has_t then fromisoformat (JStr s)
   else let* s' := Py.add_str (JStr s) "T00:00:00" in fromisoformat s')
  = Ok (start_of v).
Proof.
  destruct v as [y m d|dt]; intros H; cbn [Py.str_in rbind].
  - apply classify_date_only in H as [Hp Hv].
    destruct (date_only_completed s y m d "00:00:00" 0 0 0 Hp Hv eq_refl eq_refl)
      as [-> Hf].
    cbn [Py.add_str rbind fromisoformat start_of]. exact Hf.
  - apply classify_datetime in H as [-> Hf]. exact Hf.
Qed.

(** How it reads a classified end string. *)
Lemma read_end_date e y m d :
  classify e = Some (DateOnly y m d) ->
  (let* has_t := Py.str_in "T" (JStr e) in
   if has_t then fromisoformat (JStr e)
   else let* s' := Py.add_str (JStr e) "T23:59:59" in fromisoformat s')
  = Ok (mkDatetime y m d 23 59 59 0 None).
Proof.
  intros H. cbn [Py.str_in rbind].
  apply classify_date_only in H as [Hp Hv].
  destruct (date_only_completed e y m d "23:59:59" 23 59 59 Hp Hv eq_refl eq_refl)
    as [-> Hf].
  cbn [Py.add_str rbind fromisoformat]. exact Hf.
Qed.

Lemma read_end_datetime e dt :
  classify e = Some (DateTime dt) ->
  (let* has_t := Py.str_in "T" (JStr e) in
   if has_t then fromisoformat (JStr e)
   else let* s' := Py.add_str (JStr e) "T23:59:59" in fromisoformat s')
  = Ok dt.
Proof.
  intros H. cbn [Py.str_in rbind].
  apply classify_datetime in H as [-> Hf]. exact Hf.
Qed.

Lemma rbind_assoc {A B C} (m : result A) (f : A -> result B) (g : B -> result C) :
  rbind (rbind m f) g = rbind m (fun x => rbind (f x) g).
Proof. now destruct m. Qed.

Lemma read_start_then {C} s v (K : datetime -> result C) :
  classify s = Some v ->
  (let* has_t := Py.str_in "T" (JStr s) in
   let* start_dt :=
     (if has_t then fromisoformat (JStr s)
      else let* s' := Py.add_str (JStr s) "T00:00:00" in fromisoformat s') in
   K start_dt)
  = K (start_of v).
Proof.
  intros H.
  transitivity
    (rbind (let* has_t := Py.str_in "T" (JStr s) in
            if has_t then fromisoformat (JStr s)
            else let* s' := Py.add_str (JStr s) "T00:00:00" in fromisoformat s') K).
  - symmetry. apply rbind_assoc.
  - now rewrite (read_start s v H).
Qed.

(** Whatever the start is, a returned start datetime is a valid one. *)
Lemma normalizer_inv date_dict tz sd ed :
  _parse_notion_date date_dict tz = Ok (sd, ed) ->
  exists start_str end_str,
    Py.get date_dict "start" = Ok start_str /\
    Py.get date_dict "end" = Ok end_str /\
    valid sd = true /\
    (if Py.truthy end_str then
       (let* has_t := Py.str_in "T" end_str in
        if has_t then fromisoformat end_str
        else let* s' := Py.add_str end_str "T23:59:59" in fromisoformat s') = Ok ed
     else add_one_day sd = Ok ed).
Proof.
  unfold _parse_notion_date. intros H.
  destruct (Py.get date_dict "start") as [start_str|] eqn:Hs; [|discriminate].
  destruct (Py.get date_dict "end") as [end_str|] eqn:He; [|discriminate].
  cbn [rbind] in H.
  destruct (Py.is_none start_str); [discriminate|].
  destruct (Py.str_in "T" start_str) as [has_t|] eqn:Ht; [|discriminate].
  cbn [rbind] in H.
  match type of H with
  | rbind ?rd _ = _ => destruct rd as [sd'|] eqn:Hsd; [|discriminate]
  end.
  cbn [rbind] in H.
  match type of H with
  | rbind ?rd _ = _ => destruct rd as [ed'|] eqn:Hed; [|discriminate]
  end.
  cbn [rbind] in H. inversion H; subst sd' ed'; clear H.
  exists start_str, end_str. repeat split.
  - destruct has_t.
    + now apply fromisoformat_valid in Hsd.
    + destruct (Py.add_str start_str "T00:00:00") as [s'|]; [|discriminate].
      now apply fromisoformat_valid in Hsd.
  - destruct (Py.truthy end_str); exact Hed.
Qed.

End Normalizer.

(* ===================================================================== *)
(** ** Task Extractor *)
(* ===================================================================== *)

Section Extractor.

Local Open Scope result_scope.

Lemma get_prop ps k : Py.get (JDict ps) k = Ok (prop_at ps k).
Proof. reflexivity. Qed.

Lemma py_or_ok a b :
  py_or (Ok a) (Ok b) = Ok (if Py.truthy a then a else b).
Proof. unfold py_or. cbn. now destruct (Py.truthy a). Qed.

Lemma wf_property_inv p :
  wf_property p = true ->
  p = JNull \/
  exists kv ty, p = JDict kv /\ Py.assoc "type" kv = Some (JStr ty)
                /\ Py.truthy p = true.
Proof.
  destruct p as [| | | | |kv]; try discriminate; [now left|].
  intros H. right. cbn in H.
  destruct (Py.assoc "type" kv) as [[| | |ty| |]|] eqn:Hty; try discriminate.
  exists kv, ty. split; [reflexivity|]. split; [exact Hty|].
  destruct kv; [discriminate|reflexivity].
Qed.

Lemma has_type_wf p ty :
  wf_property p = true -> has_type p ty = Ok (is_typed p ty).
Proof.
  intros H. destruct (wf_property_inv p H) as [->|(kv & t & -> & Ht & Htr)].
  - reflexivity.
  - unfold has_type, is_typed. rewrite Htr. cbn. reflexivity.
Qed.

Lemma mapM_plain_text l :
  forallb (fun p => match text_of_part p with Some _ => true | None => false end) l
  = true ->
  (let* texts := Py.mapM (fun part => Py.get_default part "plain_text" (JStr "")) l in
   Py.mapM Py.as_str texts)
  = Ok (map (fun p => default "" (text_of_part p)) l).
Proof.
  induction l as [|p l IH]; [reflexivity|].
  cbn [forallb]. intros H. apply andb_prop in H as [Hp Hl].
  specialize (IH Hl).
  destruct p as [| | | | |kv]; try discriminate.
  cbn [Py.mapM Py.get_default rbind].
  destruct (Py.mapM (fun part => Py.get_default part "plain_text" (JStr "")) l)
    as [texts|]; [|discriminate].
  cbn [rbind] in IH |- *. cbn [Py.mapM rbind]. rewrite IH.
  cbn [text_of_part map] in Hp |- *.
  destruct (Py.assoc "plain_text" kv) as [[| | |s| |]|]; try discriminate;
    reflexivity.
Qed.

Lemma join_wf texts :
  wf_texts texts = true ->
  Py.join_plain_text texts = Ok (JStr (plain_text texts)).
Proof.
  destruct texts as [| | | |l|]; try discriminate. cbn [wf_texts]. intros H.
  unfold Py.join_plain_text. cbn [Py.iter rbind].
  pose proof (mapM_plain_text l H) as Hm.
  destruct (Py.mapM (fun part => Py.get_default part "plain_text" (JStr "")) l)
    as [texts|]; [|discriminate].
  cbn [rbind] in Hm |- *. now rewrite Hm.
Qed.

(** [a or b] picks the first populated of two properties; when neither is
    populated what it picks is not populated either. *)
Lemma or_first_populated ps a b ty :
  is_typed (if Py.truthy (prop_at ps a) then prop_at ps a else prop_at ps b) ty
  = match first_populated ps [a; b] with
    | Some p => is_typed p ty
    | None => false
    end
  /\ (forall p, first_populated ps [a; b] = Some p ->
       p = (if Py.truthy (prop_at ps a) then prop_at ps a else prop_at ps b)).
Proof.
  unfold first_populated. cbn [map find].
  destruct (Py.truthy (prop_at ps a)) eqn:Ha; [split; [reflexivity|congruence]|].
  destruct (Py.truthy (prop_at ps b)) eqn:Hb; [split; [reflexivity|congruence]|].
  split; [|discriminate]. unfold is_typed. now rewrite Hb.
Qed.

Lemma or3_first_populated ps a b c ty :
  let p0 := if Py.truthy (prop_at ps a) then prop_at ps a else prop_at ps b in
  let p1 := if Py.truthy p0 then p0 else prop_at ps c in
  (is_typed p1 ty
   = match first_populated ps [a; b; c] with
     | Some p => is_typed p ty
     | None => false
     end)
  /\ (forall p, first_populated ps [a; b; c] = Some p -> p = p1).
Proof.
  unfold first_populated. cbn [map find].
  destruct (Py.truthy (prop_at ps a)) eqn:Ha; cbn zeta.
  { rewrite Ha. split; [reflexivity|congruence]. }
  destruct (Py.truthy (prop_at ps b)) eqn:Hb.
  { split; [reflexivity|congruence]. }
  destruct (Py.truthy (prop_at ps c)) eqn:Hc; [split; [reflexivity|congruence]|].
  split; [|discriminate]. unfold is_typed. now rewrite Hc.
Qed.

Lemma wf_pick (a b : json) :
  wf_property a = true -> wf_property b = true ->
  wf_property (if Py.truthy a then a else b) = true.
Proof. now destruct (Py.truthy a). Qed.

Lemma is_typed_inv p ty :
  wf_property p = true -> is_typed p ty = true ->
  exists kv, p = JDict kv /\ Py.assoc "type" kv = Some (JStr ty).
Proof.
  intros Hw Ht. destruct (wf_property_inv p Hw) as [->|(kv & t & -> & Hty & _)].
  - discriminate.
  - exists kv. split; [reflexivity|]. unfold is_typed in Ht.
    apply andb_prop in Ht as [_ Ht]. cbn in Ht. rewrite Hty in Ht. cbn in Ht.
    apply String.eqb_eq in Ht. now subst.
Qed.

(** The text of a populated title or rich-text property. *)
Lemma text_value p ty :
  ty = "title" \/ ty = "rich_text" ->
  wf_property p = true -> is_typed p ty = true ->
  Py.get_default p ty (JList []) = Ok (field p ty (JList [])) /\
  Py.join_plain_text (field p ty (JList []))
  = Ok (JStr (plain_text (field p ty (JList [])))).
Proof.
  intros Hty Hw Ht.
  destruct (is_typed_inv p ty Hw Ht) as (kv & -> & Hk).
  split; [reflexivity|].
  apply join_wf. cbn [wf_property] in Hw. rewrite Hk in Hw.
  destruct Hty as [-> | ->]; cbn in Hw;
    repeat (apply andb_prop in Hw as [Hw ?]); assumption.
Qed.

Lemma name_rule_pick ps :
  let p := if Py.truthy (prop_at ps "Name") then prop_at ps "Name"
           else prop_at ps "Title" in
  name_rule ps = if is_typed p "title"
                 then JStr (plain_text (field p "title" (JList [])))
                 else JStr "Untitled".
Proof.
  cbn zeta. unfold name_rule, name_keys.
  destruct (or_first_populated ps "Name" "Title" "title") as [-> Hp].
  destruct (first_populated ps ["Name"; "Title"]) as [p|]; [|reflexivity].
  now rewrite <- (Hp p eq_refl).
Qed.

Lemma gcal_id_rule_pick ps :
  let p := if Py.truthy (prop_at ps "GCal Event ID")
           then prop_at ps "GCal Event ID"
           else prop_at ps "Google Calendar Event ID" in
  gcal_id_rule ps = if is_typed p "rich_text"
                    then JStr (plain_text (field p "rich_text" (JList [])))
                    else JNull.
Proof.
  cbn zeta. unfold gcal_id_rule, id_keys.
  destruct (or_first_populated ps "GCal Event ID" "Google Calendar Event ID"
              "rich_text") as [-> Hp].
  destruct (first_populated ps _) as [p|]; [|reflexivity].
  now rewrite <- (Hp p eq_refl).
Qed.

Lemma due_rule_pick ps :
  let p0 := if Py.truthy (prop_at ps "Due Date") then prop_at ps "Due Date"
            else prop_at ps "Due date" in
  let p := if Py.truthy p0 then p0 else prop_at ps "Due" in
  due_rule ps = if is_typed p "date" && Py.truthy (field p "date" JNull)
                then field p "date" JNull else JNull.
Proof.
  cbn zeta. unfold due_rule, due_keys.
  destruct (or3_first_populated ps "Due Date" "Due date" "Due" "date") as [E Hp].
  cbn zeta in E, Hp. rewrite E.
  destruct (first_populated ps _) as [p|]; [|reflexivity].
  now rewrite <- (Hp p eq_refl).
Qed.

Lemma due_block {C} dp acc (K : list (string * json) -> result C) :
  wf_property dp = true ->
  (let* is_date := has_type dp "date" in
   let* populated :=
     (if is_date
      then let* d := Py.get dp "date" in Ok (Py.truthy d)
      else Ok false) in
   let* r :=
     (if populated
      then let* d := Py.getitem dp "date" in Ok (Py.assoc_set "due" d acc)
      else Ok (Py.assoc_set "due" JNull acc)) in
   K r)
  = K (Py.assoc_set "due"
         (if is_typed dp "date" && Py.truthy (field dp "date" JNull)
          then field dp "date" JNull else JNull) acc).
Proof.
  intros Hw. rewrite (has_type_wf dp "date" Hw). cbn [rbind].
  destruct (is_typed dp "date") eqn:Ht; [|reflexivity].
  destruct (is_typed_inv dp "date" Hw Ht) as (kv & -> & _).
  cbn [Py.get Py.get_default rbind field andb Py.getitem].
  destruct (Py.assoc "date" kv) as [d|]; cbn; [|reflexivity].
  now destruct (Py.truthy d).
Qed.

Lemma status_block {C} sp acc (K : list (string * json) -> result C) :
  wf_property sp = true ->
  (let* r :=
     (if Py.truthy sp then
        let* ty := Py.get sp "type" in
        let* sel := Py.in_str_set ty ["select"; "status"] in
        if sel then
          let* key := Py.getitem sp "type" in
          let* inner := Py.get_default_j sp key (JDict []) in
          let* st := Py.get inner "name" in
          Ok (Py.assoc_set "status" st acc)
        else Ok acc
      else Ok acc) in
   K r)
  = K (match field sp "type" JNull with
        | JStr ty =>
            if Py.truthy sp && (String.eqb ty "select" || String.eqb ty "status")
            then Py.assoc_set "status"
                   (field (field sp ty (JDict [])) "name" JNull) acc
            else acc
        | _ => acc
        end).
Proof.
  intros Hw. destruct (wf_property_inv sp Hw) as [->|(kv & ty & -> & Hty & Htr)].
  - reflexivity.
  - rewrite Htr. cbn [Py.get Py.get_default rbind field Py.getitem andb].
    rewrite Hty. cbn [default from_option id rbind Py.in_str_set existsb].
    rewrite orb_false_r.
    destruct (String.eqb ty "select" || String.eqb ty "status") eqn:Hsel;
      [|reflexivity].
    cbn [rbind Py.get_default_j]. cbn [wf_property] in Hw. rewrite Hty in Hw.
    rewrite Hsel in Hw. repeat (apply andb_prop in Hw as [Hw ?]).
    cbn [field] in *.
    destruct (default (JDict []) (Py.assoc ty kv)); try discriminate.
    reflexivity.
Qed.

Lemma domain_block {C} dp acc (K : list (string * json) -> result C) :
  wf_property dp = true ->
  (let* is_rel := has_type dp "relation" in
   let* r :=
     (if is_rel then
        let* rels := Py.get_default dp "relation" (JList []) in
        if Py.truthy rels then
          let* first := Py.getitem0 rels in
          let* page_id := Py.get first "id" in
          Ok (Py.assoc_set "domain_id" page_id acc)
        else Ok acc
      else Ok acc) in
   K r)
  = K (if is_typed dp "relation" then
          match field dp "relation" (JList []) with
          | JList (first :: _) =>
              Py.assoc_set "domain_id" (field first "id" JNull) acc
          | _ => acc
          end
        else acc).
Proof.
  intros Hw. rewrite (has_type_wf dp "relation" Hw). cbn [rbind].
  destruct (is_typed dp "relation") eqn:Ht; [|reflexivity].
  destruct (is_typed_inv dp "relation" Hw Ht) as (kv & -> & Hty).
  cbn [Py.get_default rbind field]. cbn [wf_property] in Hw. rewrite Hty in Hw.
  cbn in Hw. cbn [field] in Hw.
  destruct (default (JList []) (Py.assoc "relation" kv)) as [| | | |l|];
    try discriminate.
  destruct l as [|first l]; [reflexivity|].
  cbn [wf_relation forallb] in Hw. apply andb_prop in Hw as [Hf _].
  destruct first; try discriminate. reflexivity.
Qed.

Lemma text_block {C} p ty (f : json -> list (string * json)) (dflt : json)
  (K : list (string * json) -> result C) :
  ty = "title" \/ ty = "rich_text" ->
  wf_property p = true ->
  (let* is_text := has_type p ty in
   let* r :=
     (if is_text then
        let* texts := Py.get_default p ty (JList []) in
        let* t := Py.join_plain_text texts in Ok (f t)
      else Ok (f dflt)) in
   K r)
  = K (f (if is_typed p ty
          then JStr (plain_text (field p ty (JList []))) else dflt)).
Proof.
  intros Hty Hw. rewrite (has_type_wf p ty Hw). cbn [rbind].
  destruct (is_typed p ty) eqn:Ht; [|reflexivity].
  destruct (text_value p ty Hty Hw Ht) as [E1 E2].
  rewrite E1. cbn [rbind]. rewrite E2. reflexivity.
Qed.

Lemma properties_of_get page ps :
  properties_of page = Some ps ->
  Py.get_default page "properties" (JDict []) = Ok (JDict ps).
Proof.
  destruct page as [| | | | |kv]; try discriminate.
  cbn [properties_of Py.get_default].
  destruct (default (JDict []) (Py.assoc "properties" kv)); try discriminate.
  now intros [= ->].
Qed.

Lemma wf_page_inv page :
  wf_page page = true ->
  exists ps, properties_of page = Some ps /\
    Forall (fun k => wf_property (prop_at ps k) = true) read_keys.
Proof.
  unfold wf_page. destruct (properties_of page) as [ps|]; [|discriminate].
  intros H. exists ps. split; [reflexivity|].
  apply Forall_forall. intros k Hk. rewrite forallb_forall in H.
  apply H. now apply list_elem_of_In.
Qed.

(** On a record that follows the schema the extractor returns, and what it
    returns is [extracted]. *)
Lemma extract_wf page ps :
  properties_of page = Some ps ->
  Forall (fun k => wf_property (prop_at ps k) = true) read_keys ->
  _get_task_properties page = Ok (extracted ps).
Proof.
  intros Hps Hwf.
  repeat match type of Hwf with
         | Forall _ (_ :: _) => apply Forall_cons_1 in Hwf as [? Hwf]
         | Forall _ ?l => let l' := eval hnf in l in change l with l' in Hwf
         end.
  unfold _get_task_properties, extracted.
  rewrite (properties_of_get _ _ Hps). cbn [rbind].
  rewrite !get_prop, !py_or_ok. cbn [rbind].
  rewrite name_rule_pick, due_rule_pick, gcal_id_rule_pick. cbn zeta.
  unfold status_entry, domain_entry.
  rewrite (text_block _ "title" (fun n => Py.assoc_set "name" n []))
    by (auto using wf_pick).
  rewrite due_block by (auto using wf_pick).
  rewrite status_block by assumption.
  rewrite domain_block by assumption.
  match goal with
  | |- context [Ok (Py.assoc_set "gcal_id" JNull ?acc)] =>
      rewrite (text_block _ "rich_text" (fun g => Py.assoc_set "gcal_id" g acc))
        by (auto using wf_pick)
  end.
  destruct (is_typed (prop_at ps "Domain") "relation");
    [destruct (field (prop_at ps "Domain") "relation" (JList []))
       as [| | | |[|first l]|]|];
    (destruct (field (prop_at ps "Status") "type" JNull) as [| | |ty| |];
     [..|destruct (Py.truthy (prop_at ps "Status")
                  && (String.eqb ty "select" || String.eqb ty "status"))| |]);
    reflexivity.
Qed.

Lemma extracted_gcal_id ps :
  Py.get (extracted ps) "gcal_id" = Ok (gcal_id_rule ps).
Proof.
  unfold extracted, status_entry, domain_entry.
  destruct (is_typed (prop_at ps "Domain") "relation");
    [destruct (field (prop_at ps "Domain") "relation" (JList []))
       as [| | | |[|first l]|]|];
    (destruct (field (prop_at ps "Status") "type" JNull) as [| | |ty| |];
     [..|destruct (Py.truthy (prop_at ps "Status")
                  && (String.eqb ty "select" || String.eqb ty "status"))| |]);
    reflexivity.
Qed.

Lemma gcal_id_rule_shape ps :
  gcal_id_rule ps = JNull \/ exists s, gcal_id_rule ps = JStr s.
Proof.
  unfold gcal_id_rule. destruct (first_populated ps id_keys) as [p|]; [|now left].
  destruct (is_typed p "rich_text"); [right; eauto | now left].
Qed.

Lemma gcal_id_rule_untyped ps :
  (forall k, In k id_keys -> is_typed (prop_at ps k) "rich_text" = false) ->
  gcal_id_rule ps = JNull.
Proof.
  intros H. unfold gcal_id_rule, first_populated.
  destruct (find Py.truthy (map (prop_at ps) id_keys)) as [p|] eqn:Hf;
    [|reflexivity].
  apply find_some in Hf as [Hin _]. apply in_map_iff in Hin as (k & <- & Hk).
  now rewrite (H k Hk).
Qed.

Lemma assoc_set_other k k' v l :
  k <> k' -> Py.assoc k (Py.assoc_set k' v l) = Py.assoc k l.
Proof.
  intros Hne. induction l as [|[k0 v0] l IH]; cbn [Py.assoc_set Py.assoc].
  - destruct (String.eqb_spec k k'); [contradiction|reflexivity].
  - destruct (String.eqb_spec k' k0) as [->|Hk0]; cbn [Py.assoc].
    + destruct (String.eqb_spec k k0); [contradiction|reflexivity].
    + now rewrite IH.
Qed.

Lemma has_type_ok p ty b : has_type p ty = Ok b -> b = is_typed p ty.
Proof.
  unfold has_type, is_typed. destruct (Py.truthy p); [|now intros [= <-]].
  destruct p as [| | | | |kv]; try discriminate.
  cbn. now intros [= <-].
Qed.

Lemma mapM_plain_text_ok l : forall texts strs,
  Py.mapM (fun part => Py.get_default part "plain_text" (JStr "")) l = Ok texts ->
  Py.mapM Py.as_str texts = Ok strs ->
  strs = map (fun p => default "" (text_of_part p)) l.
Proof.
  induction l as [|p l IH]; intros texts strs Ht Hs.
  - injection Ht as <-. now injection Hs as <-.
  - cbn [Py.mapM] in Ht.
    destruct (Py.get_default p "plain_text" (JStr "")) as [t|] eqn:Hp;
      [|discriminate]. cbn [rbind] in Ht.
    destruct (Py.mapM _ l) as [ts|] eqn:Hl; [|discriminate]. cbn [rbind] in Ht.
    injection Ht as <-. cbn [Py.mapM] in Hs.
    destruct (Py.as_str t) as [s|] eqn:Hstr; [|discriminate]. cbn [rbind] in Hs.
    destruct (Py.mapM Py.as_str ts) as [ss|] eqn:Hss; [|discriminate].
    cbn [rbind] in Hs. injection Hs as <-.
    cbn [map]. f_equal; [|now apply (IH ts)].
    destruct p as [| | | | |kv]; try discriminate.
    cbn [Py.get_default text_of_part] in Hp |- *. injection Hp as <-.
    destruct (Py.assoc "plain_text" kv) as [[| | |s'| |]|]; try discriminate;
      cbn in Hstr |- *; congruence.
Qed.

(** Whenever the join of text parts succeeds, it is [plain_text]. *)
Lemma join_plain_text_ok parts x :
  Py.join_plain_text parts = Ok x -> x = JStr (plain_text parts).
Proof.
  unfold Py.join_plain_text.
  destruct (Py.iter parts) as [items|] eqn:Hi; [|discriminate]. cbn [rbind].
  destruct (Py.mapM _ items) as [texts|] eqn:Ht; [|discriminate]. cbn [rbind].
  destruct (Py.mapM Py.as_str texts) as [strs|] eqn:Hs; [|discriminate].
  cbn [rbind]. intros [= <-]. f_equal.
  rewrite (mapM_plain_text_ok items texts strs Ht Hs).
  destruct parts as [| | |s|l|kv]; try discriminate; injection Hi as <-.
  - destruct s; [reflexivity|discriminate Ht].
  - reflexivity.
  - destruct kv as [|[k v] kv]; [reflexivity|discriminate Ht].
Qed.

Lemma assoc_set_same k v l : Py.assoc k (Py.assoc_set k v l) = Some v.
Proof.
  induction l as [|[k0 v0] l IH]; cbn [Py.assoc_set Py.assoc].
  - now rewrite String.eqb_refl.
  - destruct (String.eqb_spec k k0) as [->|Hne]; cbn [Py.assoc].
    + now rewrite String.eqb_refl.
    + destruct (String.eqb_spec k k0); [contradiction|exact IH].
Qed.

(** Whenever the extractor returns, the name it returns is decided by the
    first populated property among the name keys. *)
Lemma extract_name_ok page ps props :
  properties_of page = Some ps ->
  _get_task_properties page = Ok props ->
  Py.get props "name" = Ok (name_rule ps).
Proof.
  intros Hps H. unfold _get_task_properties in H.
  rewrite (properties_of_get _ _ Hps) in H. cbn [rbind] in H.
  rewrite !get_prop, !py_or_ok in H. cbn [rbind] in H.
  rewrite name_rule_pick. cbn zeta.
  set (tp := if Py.truthy (prop_at ps "Name") then _ else _) in *.
  destruct (has_type tp "title") as [b|] eqn:Hb; [|discriminate].
  cbn [rbind] in H. apply has_type_ok in Hb. subst b.
  assert (Hname : exists acc,
    Py.assoc "name" acc
    = Some (if is_typed tp "title"
            then JStr (plain_text (field tp "title" (JList [])))
            else JStr "Untitled") /\
    (if is_typed tp "title"
     then let* title_parts := Py.get_default tp "title" (JList []) in
          let* name := Py.join_plain_text title_parts in
          Ok (Py.assoc_set "name" name [])
     else Ok (Py.assoc_set "name" (JStr "Untitled") [])) = Ok acc).
  { destruct (is_typed tp "title") eqn:Ht.
    - destruct (Py.get_default tp "title" (JList [])) as [parts|] eqn:Hp;
        [|discriminate]. cbn [rbind] in H |- *.
      destruct (Py.join_plain_text parts) as [n|] eqn:Hj; [|discriminate].
      cbn [rbind] in H |- *. apply join_plain_text_ok in Hj. subst n.
      eexists. split; [|reflexivity].
      destruct tp as [| | | | |kv]; try discriminate.
      injection Hp as <-. reflexivity.
    - eexists. split; [|reflexivity]. reflexivity. }
  destruct Hname as (acc & Hacc & E). rewrite E in H. cbn [rbind] in H.
  clear E. revert Hacc.
  generalize (if is_typed tp "title"
              then JStr (plain_text (field tp "title" (JList [])))
              else JStr "Untitled") as n.
  intros n Hacc. clear tp.
  assert (Hkeep : forall k v l, k <> "name" ->
            Py.assoc "name" l = Some n ->
            Py.assoc "name" (Py.assoc_set k v l) = Some n).
  { intros k v l Hk Hl. rewrite assoc_set_other by congruence. exact Hl. }
  repeat match type of H with
         | rbind ?m _ = Ok _ =>
             let x := fresh "x" in
             let E := fresh "E" in
             destruct m as [x|] eqn:E; [cbn [rbind] in H|discriminate H]
         end.
  injection H as <-. cbn [Py.get Py.get_default]. f_equal.
  repeat match goal with
         | E : (if true then _ else _) = Ok _ |- _ => cbv iota in E
         | E : (if false then _ else _) = Ok _ |- _ => cbv iota in E
         | E : (if ?c then _ else _) = Ok _ |- _ => destruct c eqn:?
         | E : rbind ?m _ = Ok _ |- _ =>
             let x := fresh "y" in
             destruct m as [x|]; [cbn [rbind] in E|discriminate E]
         | E : Ok ?a = Ok ?b |- _ =>
             injection E as E; first [subst b | subst a | idtac]
         end.
  all: repeat (rewrite Hkeep; [|discriminate|]); rewrite ?Hacc; try reflexivity.
Qed.

(** Whenever the extractor returns, the record has a property bag. *)
Lemma extract_properties_of page props :
  _get_task_properties page = Ok props -> exists ps, properties_of page = Some ps.
Proof.
  unfold _get_task_properties, properties_of. intros H.
  destruct page as [| | | | |kv]; try discriminate.
  cbn [Py.get_default rbind] in H.
  destruct (default (JDict []) (Py.assoc "properties" kv)) as [| | | | |ps];
    try discriminate.
  eauto.
Qed.

(** Whenever the extractor returns, the event id it returns is decided by
    the first populated property among the id keys. *)
Lemma extract_gcal_id_ok page ps props :
  properties_of page = Some ps ->
  _get_task_properties page = Ok props ->
  Py.get props "gcal_id" = Ok (gcal_id_rule ps).
Proof.
  intros Hps H. unfold _get_task_properties in H.
  rewrite (properties_of_get _ _ Hps) in H. cbn [rbind] in H.
  rewrite !get_prop, !py_or_ok in H. cbn [rbind] in H.
  rewrite gcal_id_rule_pick. cbn zeta.
  set (gp := if Py.truthy (prop_at ps "GCal Event ID") then _ else _) in *.
  repeat match type of H with
         | rbind ?m _ = Ok _ =>
             let x := fresh "x" in
             let E := fresh "E" in
             destruct m as [x|] eqn:E; [cbn [rbind] in H|discriminate H]
         end.
  injection H as <-.
  match goal with
  | E : has_type gp "rich_text" = Ok ?b |- _ => apply has_type_ok in E; subst b
  end.
  cbn [Py.get Py.get_default]. f_equal.
  destruct (is_typed gp "rich_text") eqn:Ht.
  - match goal with
    | E : rbind (Py.get_default gp _ _) _ = Ok _ |- _ =>
        destruct (Py.get_default gp "rich_text" (JList [])) as [texts|] eqn:Hp;
          [cbn [rbind] in E|discriminate E];
        destruct (Py.join_plain_text texts) as [g|] eqn:Hj;
          [cbn [rbind] in E|discriminate E];
        injection E as <-
    end.
    rewrite assoc_set_same. cbn [default from_option id].
    apply join_plain_text_ok in Hj. subst g.
    destruct gp as [| | | | |kv]; try discriminate.
    injection Hp as <-. reflexivity.
  - match goal with
    | E : Ok _ = Ok _ |- _ => injection E as <-
    end.
    now rewrite assoc_set_same.
Qed.

End Extractor.

(* ===================================================================== *)
(** ** Sync Driver *)
(* ===================================================================== *)

Section DriverFacts.

Context {W : Type}.
Variable handle : call -> W -> result json * W.
Variable stdout : string -> W -> result unit * W.
Variable utcnow : W -> datetime.
Variable calendar_map : gmap string string.
Variable tz : string.


(** The upsert step, call by call.  A failure inside the [try] is handed
    to [print]; what [stdout] answers is the outcome of the step. *)
Lemma upsert_update page name gcal_id cid body w :
  Py.truthy gcal_id = true ->
  upsert handle stdout utcnow page name gcal_id cid body w =
  let c := EventsUpdate cid gcal_id body in
  match handle c w with
  | (Ok r, w1) => (Ok tt, w1, [Called c (Ok r)])
  | (Raise e, w1) =>
      let '(r, w2) := stdout (error_line name e) w1 in
      (r, w2, [Called c (Raise e); Printed (error_line name e)])
  end.
Proof.
  intros Hg. unfold upsert, try_except, bind, remote, ret, print.
  rewrite Hg. cbn zeta. destruct (handle _ w) as [[r|e] w1]; [reflexivity|].
  now destruct (stdout _ w1).
Qed.

Lemma upsert_create page name gcal_id cid body w :
  Py.truthy gcal_id = false ->
  upsert handle stdout utcnow page name gcal_id cid body w =
  let c := EventsInsert cid body in
  match handle c w with
  | (Raise e, w1) =>
      let '(r, w2) := stdout (error_line name e) w1 in
      (r, w2, [Called c (Raise e); Printed (error_line name e)])
  | (Ok created, w1) =>
      match Py.get created "id" with
      | Raise e =>
          let '(r, w2) := stdout (error_line name e) w1 in
          (r, w2, [Called c (Ok created); Printed (error_line name e)])
      | Ok gcal_id_new =>
          match Py.getitem page "id" with
          | Raise e =>
              let '(r, w2) := stdout (error_line name e) w1 in
              (r, w2, [Called c (Ok created); Printed (error_line name e)])
          | Ok page_id =>
              let c' := PagesUpdate page_id
                          (write_back_properties gcal_id_new (utcnow w1)) in
              match handle c' w1 with
              | (Ok r, w2) => (Ok tt, w2, [Called c (Ok created); Called c' (Ok r)])
              | (Raise e, w2) =>
                  let '(r, w3) := stdout (error_line name e) w2 in
                  (r, w3, [Called c (Ok created); Called c' (Raise e);
                           Printed (error_line name e)])
              end
          end
      end
  end.
Proof.
  intros Hg. unfold upsert, try_except, bind, remote, ret, print, lift, now.
  rewrite Hg. cbn zeta.
  destruct (handle _ w) as [[created|e] w1]; [|now destruct (stdout _ w1)].
  destruct (Py.get created "id") as [gid|e]; [|now destruct (stdout _ w1)].
  destruct (Py.getitem page "id") as [pid|e]; [|now destruct (stdout _ w1)].
  destruct (handle _ w1) as [[r|e] w2]; [reflexivity|].
  now destruct (stdout _ w2).
Qed.

(** The only exception that leaves the upsert step is one [print] raised
    on the report, after the calendar call. *)
Lemma upsert_outcome page name gcal_id cid body w :
  outcome_of (upsert handle stdout utcnow page name gcal_id cid body w) = Ok tt
  \/ exists pre msg w',
       trace_of (upsert handle stdout utcnow page name gcal_id cid body w)
       = (pre ++ [Printed msg])%list
       /\ existsb is_calendar_call pre = true
       /\ outcome_of (upsert handle stdout utcnow page name gcal_id cid body w)
          = fst (stdout msg w').
Proof.
  destruct (Py.truthy gcal_id) eqn:Hg.
  - rewrite upsert_update by assumption. cbn zeta.
    destruct (handle _ w) as [[r|e] w1]; [now left|].
    right. exists [Called (EventsUpdate cid gcal_id body) (Raise e)],
      (error_line name e), w1.
    now destruct (stdout _ w1).
  - rewrite upsert_create by assumption. cbn zeta.
    destruct (handle _ w) as [[created|e] w1].
    2:{ right. exists [Called (EventsInsert cid body) (Raise e)],
          (error_line name e), w1. now destruct (stdout _ w1). }
    destruct (Py.get created "id") as [gid|e].
    2:{ right. exists [Called (EventsInsert cid body) (Ok created)],
          (error_line name e), w1. now destruct (stdout _ w1). }
    destruct (Py.getitem page "id") as [pid|e].
    2:{ right. exists [Called (EventsInsert cid body) (Ok created)],
          (error_line name e), w1. now destruct (stdout _ w1). }
    destruct (handle _ w1) as [[r|e] w2]; [now left|].
    right. eexists [Called (EventsInsert cid body) (Ok created); _],
      (error_line name e), w2.
    now destruct (stdout _ w2).
Qed.

Lemma upsert_outcome_plain page name gcal_id cid body w :
  outcome_of (upsert handle stdout utcnow page name gcal_id cid body w) = Ok tt
  \/ exists pre msg w',
       trace_of (upsert handle stdout utcnow page name gcal_id cid body w)
       = (pre ++ [Printed msg])%list
       /\ outcome_of (upsert handle stdout utcnow page name gcal_id cid body w)
          = fst (stdout msg w').
Proof.
  destruct (upsert_outcome page name gcal_id cid body w)
    as [H | (pre & msg & w' & Ht & _ & Ho)]; [now left|].
  right. now exists pre, msg, w'.
Qed.

(** With an output stream that takes every line, no exception leaves the
    upsert step. *)
Lemma upsert_returns page name gcal_id cid body w :
  (forall msg w0, is_ok (fst (stdout msg w0)) = true) ->
  outcome_of (upsert handle stdout utcnow page name gcal_id cid body w) = Ok tt.
Proof.
  intros Hout.
  destruct (upsert_outcome page name gcal_id cid body w)
    as [H | (pre & msg & w' & _ & _ & H)]; [exact H|].
  rewrite H. specialize (Hout msg w').
  destruct (fst (stdout msg w')) as [[]|]; [reflexivity|discriminate].
Qed.

Lemma join_plain_text_str parts x :
  Py.join_plain_text parts = Ok x -> exists s, x = JStr s.
Proof.
  unfold Py.join_plain_text.
  destruct (Py.iter parts) as [items|]; [|discriminate]. cbn [rbind].
  destruct (Py.mapM _ items) as [texts|]; [|discriminate]. cbn [rbind].
  destruct (Py.mapM Py.as_str texts) as [strs|]; [|discriminate]. cbn [rbind].
  intros [= <-]. eauto.
Qed.

Lemma domain_title_shape domain_page x :
  domain_title domain_page = Ok x -> x = JNull \/ exists s, x = JStr s.
Proof.
  unfold domain_title.
  destruct (Py.get_default domain_page "properties" (JDict [])) as [dn_props|];
    [|discriminate]. cbn [rbind].
  destruct (py_or _ _) as [title_prop|]; [|discriminate]. cbn [rbind].
  destruct (has_type title_prop "title") as [[|]|]; [| |discriminate]; cbn [rbind].
  - destruct (Py.get_default title_prop "title" (JList [])) as [parts|];
      [|discriminate]. cbn [rbind].
    intros H. right. eapply join_plain_text_str, H.
  - intros [= <-]. now left.
Qed.

(** Domain resolution never raises, makes at most the one lookup, and
    yields a string or [None]. *)
Lemma resolve_domain_name_eq domain_id w :
  resolve_domain_name handle domain_id w =
  if Py.truthy domain_id then
    let c := PagesRetrieve domain_id in
    match handle c w with
    | (Ok domain_page, w1) =>
        (Ok (match domain_title domain_page with Ok dn => dn | Raise _ => JNull end),
         w1, [Called c (Ok domain_page)])
    | (Raise e, w1) => (Ok JNull, w1, [Called c (Raise e)])
    end
  else (Ok JNull, w, []).
Proof.
  unfold resolve_domain_name.
  destruct (Py.truthy domain_id); [|reflexivity].
  unfold try_except, bind, remote, lift, ret. cbn zeta.
  destruct (handle (PagesRetrieve domain_id) w) as [[domain_page|e] w1];
    [|reflexivity].
  destruct (domain_title domain_page); reflexivity.
Qed.

Lemma resolve_domain_name_spec domain_id w :
  exists dn w1 t1,
    resolve_domain_name handle domain_id w = (Ok dn, w1, t1) /\
    (dn = JNull \/ exists s, dn = JStr s) /\
    Forall (fun ev => is_calendar_call ev = false /\ is_write_back ev = false) t1.
Proof.
  rewrite resolve_domain_name_eq.
  destruct (Py.truthy domain_id).
  2:{ exists JNull, w, []. repeat split; auto. }
  cbn zeta. destruct (handle (PagesRetrieve domain_id) w) as [[domain_page|e] w1].
  - eexists _, w1, _. split; [reflexivity|]. split.
    + destruct (domain_title domain_page) eqn:Ht; [|now left].
      now apply domain_title_shape in Ht.
    + repeat constructor.
  - eexists _, w1, _. split; [reflexivity|]. split; [now left|].
    repeat constructor.
Qed.

(** What the extractor returns is always a [dict]. *)
Lemma extract_dict page props :
  _get_task_properties page = Ok props -> exists kv, props = JDict kv.
Proof.
  unfold _get_task_properties. intros H.
  repeat match type of H with
         | rbind ?m _ = Ok _ =>
             let x := fresh "x" in
             destruct m as [x|]; [cbn [rbind] in H|discriminate H]
         end.
  inversion H. eauto.
Qed.

(** The loop body, step by step. *)
Lemma bind_lift {A B} (r : result A) (f : A -> M W B) w :
  bind (lift r) f w = match r with Ok a => f a w | Raise e => (Raise e, w, []) end.
Proof.
  unfold bind, lift. destruct r; [|reflexivity].
  now destruct (f a w) as [[? ?] ?].
Qed.

Lemma sync_page_eq page w :
  sync_page handle stdout utcnow calendar_map tz page w =
  match _get_task_properties page with
  | Raise e => (Raise e, w, [])
  | Ok props =>
    let name := field props "name" JNull in
    let due := field props "due" JNull in
    let status := field props "status" JNull in
    let gcal_id := field props "gcal_id" JNull in
    let domain_id := field props "domain_id" JNull in
    if Py.eq_str status "Completed" || Py.is_none due then (Ok tt, w, []) else
    let '(rdn, w1, t1) := resolve_domain_name handle domain_id w in
    match rbind rdn (lookup_calendar calendar_map) with
    | Raise e => (Raise e, w1, t1)
    | Ok None => (Ok tt, w1, t1)
    | Ok (Some cid) =>
      if String.eqb cid "" then (Ok tt, w1, t1) else
      match _parse_notion_date due tz with
      | Raise _ => (Ok tt, w1, t1)
      | Ok (start_dt, end_dt) =>
        match Py.getitem page "id" with
        | Raise e => (Raise e, w1, t1)
        | Ok page_id =>
          let '(r, w2, t2) :=
            upsert handle stdout utcnow page name gcal_id cid
              (event_body tz name start_dt end_dt page_id) w1 in
          (r, w2, (t1 ++ t2)%list)
        end
      end
    end
  end.
Proof.
  unfold sync_page. rewrite bind_lift.
  destruct (_get_task_properties page) as [props|e] eqn:Hx; [|reflexivity].
  destruct (extract_dict _ _ Hx) as [kv ->].
  repeat (rewrite bind_lift; cbn [Py.get Py.get_default]).
  cbn [field]. cbn zeta.
  destruct (Py.eq_str _ "Completed" || Py.is_none _); [reflexivity|].
  unfold bind at 1.
  destruct (resolve_domain_name handle _ w) as [[[dn|e] w1] t1]; [|reflexivity].
  cbn [rbind]. rewrite bind_lift.
  destruct (lookup_calendar calendar_map dn) as [[cid|]|e];
    [|cbv beta iota zeta; unfold ret; now rewrite ?app_nil_r..].
  destruct (String.eqb cid ""); [unfold ret; now rewrite app_nil_r|].
  destruct (_parse_notion_date _ tz) as [[start_dt end_dt]|e];
    [|unfold ret; now rewrite app_nil_r].
  rewrite bind_lift.
  destruct (Py.getitem page "id") as [page_id|e]; [|now rewrite app_nil_r].
  reflexivity.
Qed.

(** The events of the upsert step, on its two paths. *)
Lemma upsert_trace page name gcal_id cid body w :
  let t := trace_of (upsert handle stdout utcnow page name gcal_id cid body w) in
  if Py.truthy gcal_id then
    exists r more,
      t = Called (EventsUpdate cid gcal_id body) r :: more /\
      Forall (fun ev => exists msg, ev = Printed msg) more
  else
    exists r more,
      t = Called (EventsInsert cid body) r :: more /\
      existsb is_calendar_call more = false /\
      (forall ev, In ev more -> is_write_back ev = true ->
         exists created gcal_id_new page_id r',
           r = Ok created /\ Py.get created "id" = Ok gcal_id_new /\
           Py.getitem page "id" = Ok page_id /\
           ev = Called (PagesUpdate page_id
                          (write_back_properties gcal_id_new
                             (utcnow (snd (handle (EventsInsert cid body) w)))))
                       r').
Proof.
  cbn zeta. destruct (Py.truthy gcal_id) eqn:Hg.
  - rewrite upsert_update by assumption. cbn zeta.
    destruct (handle _ w) as [[r|e] w1]; [|destruct (stdout _ w1)];
      cbn [trace_of snd];
      eexists _, _; (split; [reflexivity|]); repeat constructor; eauto.
  - rewrite upsert_create by assumption. cbn zeta.
    destruct (handle (EventsInsert cid body) w) as [[created|e] w1] eqn:Hh.
    2:{ destruct (stdout _ w1). cbn [trace_of snd].
        eexists _, _. split; [reflexivity|]. split; [reflexivity|].
        intros ev [<-|[]]; discriminate. }
    destruct (Py.get created "id") as [gid|e] eqn:Hid; cbn [snd].
    2:{ destruct (stdout _ w1). cbn [trace_of snd].
        eexists _, _. split; [reflexivity|]. split; [reflexivity|].
        intros ev [<-|[]]; discriminate. }
    destruct (Py.getitem page "id") as [pid|e] eqn:Hp; cbn [snd].
    2:{ destruct (stdout _ w1). cbn [trace_of snd].
        eexists _, _. split; [reflexivity|]. split; [reflexivity|].
        intros ev [<-|[]]; discriminate. }
    destruct (handle _ w1) as [[r|e] w2]; [|destruct (stdout _ w2)];
      cbn [trace_of snd];
      (eexists _, _; split; [reflexivity|]; split; [reflexivity|]);
      intros ev Hin Hwb;
      repeat (destruct Hin as [<-|Hin]; try discriminate Hwb);
      try contradiction; eauto 10.
Qed.

Lemma resolve_quiet domain_id w :
  quiet (trace_of (resolve_domain_name handle domain_id w)).
Proof.
  rewrite resolve_domain_name_eq. destruct (Py.truthy domain_id); [|now split].
  cbn zeta. now destruct (handle _ w) as [[?|?] ?].
Qed.

(** An iteration that reaches the upsert step. *)
Lemma sync_page_upsert page w props dn w1 t1 cid sd ed pid :
  _get_task_properties page = Ok props ->
  Py.eq_str (field props "status" JNull) "Completed"
    || Py.is_none (field props "due" JNull) = false ->
  resolve_domain_name handle (field props "domain_id" JNull) w = (Ok dn, w1, t1) ->
  lookup_calendar calendar_map dn = Ok (Some cid) -> cid <> "" ->
  _parse_notion_date (field props "due" JNull) tz = Ok (sd, ed) ->
  Py.getitem page "id" = Ok pid ->
  sync_page handle stdout utcnow calendar_map tz page w =
  let '(r, w2, t2) :=
    upsert handle stdout utcnow page (field props "name" JNull)
      (field props "gcal_id" JNull) cid
      (event_body tz (field props "name" JNull) sd ed pid) w1 in
  (r, w2, (t1 ++ t2)%list).
Proof.
  intros Hx Hf Hr Hl Hc Hp Hi. rewrite sync_page_eq, Hx. cbn zeta.
  rewrite Hf, Hr. cbn [rbind]. rewrite Hl.
  apply String.eqb_neq in Hc. rewrite Hc, Hp, Hi. reflexivity.
Qed.

(** Every iteration either makes no calendar call and no write-back, or
    reaches the upsert step. *)
Lemma sync_page_inv page w :
  quiet (trace_of (sync_page handle stdout utcnow calendar_map tz page w))
  \/ exists props dn w1 t1 cid sd ed pid,
      _get_task_properties page = Ok props /\
      Py.eq_str (field props "status" JNull) "Completed"
        || Py.is_none (field props "due" JNull) = false /\
      resolve_domain_name handle (field props "domain_id" JNull) w
        = (Ok dn, w1, t1) /\
      lookup_calendar calendar_map dn = Ok (Some cid) /\ cid <> "" /\
      _parse_notion_date (field props "due" JNull) tz = Ok (sd, ed) /\
      Py.getitem page "id" = Ok pid.
Proof.
  rewrite sync_page_eq.
  destruct (_get_task_properties page) as [props|e] eqn:Hx; [|now left; split].
  cbn zeta.
  destruct (Py.eq_str _ "Completed" || Py.is_none _) eqn:Hf; [now left; split|].
  pose proof (resolve_quiet (field props "domain_id" JNull) w) as Hq.
  destruct (resolve_domain_name handle _ w) as [[[dn|e] w1] t1] eqn:Hr;
    [|now left].
  cbn [rbind trace_of snd] in Hq |- *.
  destruct (lookup_calendar calendar_map dn) as [[cid|]|e] eqn:Hl;
    [|now left..].
  destruct (String.eqb_spec cid ""); [now left|].
  destruct (_parse_notion_date _ tz) as [[sd ed]|e] eqn:Hp; [|now left].
  destruct (Py.getitem page "id") as [pid|e] eqn:Hi; [|now left].
  right. exists props, dn, w1, t1, cid, sd, ed, pid. auto 10.
Qed.

(** An iteration is skipped, with no calendar call and no write-back, when
    the name looked up has no calendar or the date range does not
    normalize. *)
Lemma sync_page_skipped page w props dn w1 t1 :
  _get_task_properties page = Ok props ->
  resolve_domain_name handle (field props "domain_id" JNull) w = (Ok dn, w1, t1) ->
  lookup_calendar calendar_map dn = Ok None
  \/ lookup_calendar calendar_map dn = Ok (Some "")
  \/ is_ok (_parse_notion_date (field props "due" JNull) tz) = false ->
  (sync_page handle stdout utcnow calendar_map tz page w = (Ok tt, w, [])
   \/ sync_page handle stdout utcnow calendar_map tz page w = (Ok tt, w1, t1))
  /\ quiet (trace_of (sync_page handle stdout utcnow calendar_map tz page w)).
Proof.
  intros Hx Hr Hskip. rewrite sync_page_eq, Hx. cbn zeta.
  destruct (Py.eq_str _ "Completed" || Py.is_none _); [split; [now left|now split]|].
  pose proof (resolve_quiet (field props "domain_id" JNull) w) as Hq.
  rewrite Hr in Hq |- *. cbn [rbind trace_of snd] in Hq |- *.
  destruct Hskip as [-> | [-> | Hp]]; [split; [now right|assumption]..|].
  destruct (lookup_calendar calendar_map dn) as [[cid|]|e] eqn:Hl.
  - destruct (String.eqb cid ""); [split; [now right|assumption]|].
    destruct (_parse_notion_date _ tz); [discriminate|].
    split; [now right|assumption].
  - split; [now right|assumption].
  - exfalso. destruct (resolve_domain_name_spec (field props "domain_id" JNull) w)
      as (dn' & w1' & t1' & Hr' & Hshape & _).
    rewrite Hr in Hr'. inversion Hr'; subst.
    unfold lookup_calendar in Hl.
    destruct Hshape as [-> | [s ->]]; [discriminate|].
    destruct (Py.truthy (JStr s)); discriminate.
Qed.

Lemma for_each_cons page rest (body : json -> M W unit) w :
  for_each (page :: rest) body w =
  match body page w with
  | (Ok _, w1, t1) =>
      let '(r, w2, t2) := for_each rest body w1 in (r, w2, (t1 ++ t2)%list)
  | (Raise e, w1, t1) => (Raise e, w1, t1)
  end.
Proof. reflexivity. Qed.

End DriverFacts.

Section DriverProperties.

Context {W : Type}.
Variable handle : call -> W -> result json * W.
Variable stdout : string -> W -> result unit * W.
Variable utcnow : W -> datetime.
Variable calendar_map : gmap string string.
Variable tz : string.

(** C6.  A task whose extracted status is the literal "Completed", or whose
    extracted due field is null, is dropped by the filter before anything
    else happens: its iteration makes no remote call at all (so no calendar
    create or update), leaves the world as it was, and ends normally. *)
Theorem C6_completed_or_undated_is_filtered (page props : json) (w : W) :
  _get_task_properties page = Ok props ->
  Py.get props "status" = Ok (JStr "Completed") \/ Py.get props "due" = Ok JNull ->
  sync_page handle stdout utcnow calendar_map tz page w = (Ok tt, w, [])
  /\ existsb is_calendar_call
       (trace_of (sync_page handle stdout utcnow calendar_map tz page w)) = false.
Proof.
  intros Hx Hskip.
  assert (E : sync_page handle stdout utcnow calendar_map tz page w = (Ok tt, w, [])).
  { rewrite sync_page_eq, Hx. cbn zeta.
    destruct (extract_dict _ _ Hx) as [kv ->].
    cbn [Py.get Py.get_default field] in *.
    destruct Hskip as [H | H]; injection H as H'.
    - now rewrite H'.
    - rewrite H'. cbn [Py.is_none]. now rewrite orb_true_r. }
  now rewrite E.
Qed.

(** C1, amended.  An iteration makes a calendar call (or a write-back)
    only after the extractor returned, the filter let the task through, the
    due range normalized to an interval, the record had an id, and the name
    looked up in the mapping gave a non-empty calendar id; that name is the
    resolved domain name, or the empty name when the domain did not
    resolve.  The call is then the upsert on that calendar with that
    interval.  Conversely, a task whose looked-up name has no calendar, or
    whose due range does not normalize, is skipped: its iteration ends
    normally with no calendar call and no write-back. *)
Theorem C1_upsert_only_when_normalized_and_mapped (page : json) (w : W) :
  (existsb is_calendar_call
     (trace_of (sync_page handle stdout utcnow calendar_map tz page w)) = true
   \/ existsb is_write_back
        (trace_of (sync_page handle stdout utcnow calendar_map tz page w)) = true ->
   exists props dn w1 t1 cid start_dt end_dt page_id,
     _get_task_properties page = Ok props /\
     _parse_notion_date (field props "due" JNull) tz = Ok (start_dt, end_dt) /\
     resolve_domain_name handle (field props "domain_id" JNull) w
       = (Ok dn, w1, t1) /\
     (dn = JNull \/ exists s, dn = JStr s) /\
     calendar_map !! (match dn with JStr s => s | _ => "" end) = Some cid /\
     lookup_calendar calendar_map dn = Ok (Some cid) /\ cid <> "" /\
     Py.getitem page "id" = Ok page_id /\
     sync_page handle stdout utcnow calendar_map tz page w =
       let '(r, w2, t2) :=
         upsert handle stdout utcnow page (field props "name" JNull)
           (field props "gcal_id" JNull) cid
           (event_body tz (field props "name" JNull) start_dt end_dt page_id) w1 in
       (r, w2, (t1 ++ t2)%list))
  /\ (forall props dn w1 t1,
       _get_task_properties page = Ok props ->
       resolve_domain_name handle (field props "domain_id" JNull) w
         = (Ok dn, w1, t1) ->
       lookup_calendar calendar_map dn = Ok None
       \/ lookup_calendar calendar_map dn = Ok (Some "")
       \/ is_ok (_parse_notion_date (field props "due" JNull) tz) = false ->
       outcome_of (sync_page handle stdout utcnow calendar_map tz page w) = Ok tt /\
       existsb is_calendar_call
         (trace_of (sync_page handle stdout utcnow calendar_map tz page w)) = false /\
       existsb is_write_back
         (trace_of (sync_page handle stdout utcnow calendar_map tz page w)) = false).
Proof.
  split.
  - intros Hcall.
    destruct (sync_page_inv handle stdout utcnow calendar_map tz page w)
      as [[Hq1 Hq2] | (props & dn & w1 & t1 & cid & sd & ed & pid & H)].
    + rewrite Hq1, Hq2 in Hcall. now destruct Hcall.
    + destruct H as (Hx & Hf & Hr & Hl & Hc & Hp & Hi).
      exists props, dn, w1, t1, cid, sd, ed, pid.
      do 3 (split; [assumption|]).
      assert (Hshape : dn = JNull \/ exists s, dn = JStr s).
      { destruct (resolve_domain_name_spec handle (field props "domain_id" JNull) w)
          as (dn' & w1' & t1' & Hr' & Hshape & _).
        rewrite Hr in Hr'. now inversion Hr'. }
      split; [exact Hshape|]. split.
      { unfold lookup_calendar in Hl.
        destruct Hshape as [-> | [s ->]]; [now injection Hl|].
        cbn [Py.truthy] in Hl.
        destruct (String.eqb s "") eqn:Es; cbn [negb] in Hl;
          [apply String.eqb_eq in Es; subst s|]; now injection Hl. }
      repeat (split; [assumption|]).
      eapply sync_page_upsert; eassumption.
  - intros props dn w1 t1 Hx Hr Hskip.
    destruct (sync_page_skipped handle stdout utcnow calendar_map tz page w
                props dn w1 t1 Hx Hr Hskip) as [Hout [Hq1 Hq2]].
    repeat split; try assumption. now destruct Hout as [-> | ->].
Qed.

(** C7, amended.  The name the driver looks up in the calendar mapping is
    the resolved domain name, or the empty name when the domain does not
    resolve: a null domain reference and a failed remote lookup both leave
    the domain name null.  When the mapping has no entry for the looked-up
    name, or an empty calendar id, the iteration makes no remote calendar
    call and no write-back. *)
Theorem C7_unmapped_name_no_calendar_call (page props domain_id : json) (w : W) :
  _get_task_properties page = Ok props ->
  Py.get props "domain_id" = Ok domain_id ->
  exists dn w1 t1,
    resolve_domain_name handle domain_id w = (Ok dn, w1, t1) /\
    (Py.truthy domain_id = false -> dn = JNull) /\
    (is_ok (fst (handle (PagesRetrieve domain_id) w)) = false -> dn = JNull) /\
    (let looked_up := match dn with JStr s => s | _ => "" end in
     calendar_map !! looked_up = None \/ calendar_map !! looked_up = Some "" ->
     existsb is_calendar_call
       (trace_of (sync_page handle stdout utcnow calendar_map tz page w)) = false /\
     existsb is_write_back
       (trace_of (sync_page handle stdout utcnow calendar_map tz page w)) = false).
Proof.
  intros Hx Hd.
  destruct (extract_dict _ _ Hx) as [kv ->].
  injection Hd as Hd.
  destruct (resolve_domain_name_spec handle domain_id w)
    as (dn & w1 & t1 & Hr & Hshape & _).
  exists dn, w1, t1. split; [exact Hr|].
  pose proof Hr as Hr'. rewrite resolve_domain_name_eq in Hr'.
  split; [|split].
  - intros Hf. rewrite Hf in Hr'. now inversion Hr'.
  - intros Hfail. destruct (Py.truthy domain_id); [|now inversion Hr'].
    cbn zeta in Hr'.
    destruct (handle (PagesRetrieve domain_id) w) as [[p|e] w'];
      [discriminate Hfail|]. now inversion Hr'.
  - cbn zeta. intros Hmap.
    apply (sync_page_skipped handle stdout utcnow calendar_map tz page w
             (JDict kv) dn w1 t1 Hx).
    + cbn [field]. now rewrite Hd.
    + unfold lookup_calendar.
      destruct Hshape as [-> | [s ->]]; cbn [Py.truthy].
      * destruct Hmap as [-> | ->]; auto.
      * destruct s; cbn [String.eqb negb]; destruct Hmap as [-> | ->]; auto.
Qed.

(** On an iteration that reaches the upsert step, the
    first event after domain resolution is the calendar call: an update
    addressed to the extracted event id when that id is present (a
    non-empty string), a create otherwise (null or empty id); no other
    calendar call follows it. *)
Lemma upsert_call_by_id (page props : json) (w : W) dn w1 t1 cid sd ed pid :
  _get_task_properties page = Ok props ->
  Py.eq_str (field props "status" JNull) "Completed"
    || Py.is_none (field props "due" JNull) = false ->
  resolve_domain_name handle (field props "domain_id" JNull) w = (Ok dn, w1, t1) ->
  lookup_calendar calendar_map dn = Ok (Some cid) -> cid <> "" ->
  _parse_notion_date (field props "due" JNull) tz = Ok (sd, ed) ->
  Py.getitem page "id" = Ok pid ->
  exists r more,
    trace_of (sync_page handle stdout utcnow calendar_map tz page w)
    = (t1 ++ Called
               (if Py.truthy (field props "gcal_id" JNull)
                then EventsUpdate cid (field props "gcal_id" JNull)
                       (event_body tz (field props "name" JNull) sd ed pid)
                else EventsInsert cid
                       (event_body tz (field props "name" JNull) sd ed pid))
               r :: more)%list
    /\ existsb is_calendar_call more = false
    /\ (Py.truthy (field props "gcal_id" JNull) = true ->
        existsb is_write_back more = false).
Proof.
  intros Hx Hf Hr Hl Hc Hp Hi.
  rewrite (sync_page_upsert handle stdout utcnow calendar_map tz page w
             props dn w1 t1 cid sd ed pid) by assumption.
  pose proof (upsert_trace handle stdout utcnow page (field props "name" JNull)
                (field props "gcal_id" JNull) cid
                (event_body tz (field props "name" JNull) sd ed pid) w1) as Ht.
  cbn zeta in Ht.
  destruct (upsert handle stdout utcnow page _ _ cid _ w1) as [[r w2] t2].
  cbn [trace_of snd] in Ht |- *.
  destruct (Py.truthy (field props "gcal_id" JNull)).
  - destruct Ht as (r' & more & -> & Hmore). exists r', more.
    split; [reflexivity|].
    assert (Hq : existsb is_calendar_call more = false
                 /\ existsb is_write_back more = false).
    { induction Hmore as [|ev more [msg ->] _ IH]; [now split|].
      cbn [existsb is_calendar_call is_write_back orb]. exact IH. }
    destruct Hq. auto.
  - destruct Ht as (r' & more & -> & Hmore & _). exists r', more.
    split; [reflexivity|]. split; [assumption|discriminate].
Qed.

Lemma is_create_calendar l :
  existsb is_calendar_call l = false -> existsb is_create l = false.
Proof.
  induction l as [|ev l IH]; [reflexivity|]. cbn [existsb].
  intros H. apply orb_false_elim in H as [H1 H2]. rewrite (IH H2).
  destruct ev as [[]|]; try discriminate; reflexivity.
Qed.

(** A write-back happens only on the create path,
    right after a create that succeeded, and it is addressed to the record
    being processed with the id the create returned; an iteration for a
    task that has an event id makes no write-back and no create. *)
Lemma write_back_only_after_create (page : json) (w : W) :
  (forall ev,
     In ev (trace_of (sync_page handle stdout utcnow calendar_map tz page w)) ->
     is_write_back ev = true ->
     exists props pre cid body created more gcal_id_new page_id stamp r,
       _get_task_properties page = Ok props /\
       Py.truthy (field props "gcal_id" JNull) = false /\
       trace_of (sync_page handle stdout utcnow calendar_map tz page w)
       = (pre ++ Called (EventsInsert cid body) (Ok created) :: more)%list /\
       In ev more /\
       Py.get created "id" = Ok gcal_id_new /\
       Py.getitem page "id" = Ok page_id /\
       ev = Called (PagesUpdate page_id
                      (write_back_properties gcal_id_new stamp)) r)
  /\ (forall props,
       _get_task_properties page = Ok props ->
       Py.truthy (field props "gcal_id" JNull) = true ->
       existsb is_write_back
         (trace_of (sync_page handle stdout utcnow calendar_map tz page w)) = false /\
       existsb is_create
         (trace_of (sync_page handle stdout utcnow calendar_map tz page w)) = false).
Proof.
  destruct (sync_page_inv handle stdout utcnow calendar_map tz page w)
    as [[Hq1 Hq2] | (props & dn & w1 & t1 & cid & sd & ed & pid & H)].
  { split.
    - intros ev Hin Hwb. exfalso.
      assert (existsb is_write_back
                (trace_of (sync_page handle stdout utcnow calendar_map tz page w)) = true)
        by (apply existsb_exists; eauto).
      congruence.
    - intros props _ _. split; [assumption|]. now apply is_create_calendar. }
  destruct H as (Hx & Hf & Hr & Hl & Hc & Hp & Hi).
  pose proof (resolve_quiet handle (field props "domain_id" JNull) w) as [Hr1 Hr2].
  rewrite Hr in Hr1, Hr2. cbn [trace_of snd] in Hr1, Hr2.
  rewrite (sync_page_upsert handle stdout utcnow calendar_map tz page w
             props dn w1 t1 cid sd ed pid) by assumption.
  pose proof (upsert_trace handle stdout utcnow page (field props "name" JNull)
                (field props "gcal_id" JNull) cid
                (event_body tz (field props "name" JNull) sd ed pid) w1) as Ht.
  cbn zeta in Ht.
  destruct (upsert handle stdout utcnow page _ _ cid _ w1) as [[r w2] t2].
  cbn [trace_of snd] in Ht |- *.
  destruct (Py.truthy (field props "gcal_id" JNull)) eqn:Hg.
  - destruct Ht as (r' & more & -> & Hmore).
    assert (Hq : existsb is_write_back more = false
                 /\ existsb is_create more = false).
    { induction Hmore as [|ev more [msg ->] _ IH]; [now split|].
      cbn [existsb is_create is_write_back orb]. exact IH. }
    destruct Hq as [Hq1 Hq2]. split.
    + intros ev Hin Hwb. exfalso.
      assert (E : existsb is_write_back
                    (t1 ++ Called (EventsUpdate cid (field props "gcal_id" JNull)
                                     (event_body tz (field props "name" JNull)
                                        sd ed pid)) r' :: more) = true)
        by (apply existsb_exists; eauto).
      rewrite existsb_app, Hr2 in E. cbn [existsb is_write_back orb] in E.
      congruence.
    + intros props' Hx' _. rewrite !existsb_app. cbn [existsb].
      rewrite Hr2, Hq1, Hq2, (is_create_calendar _ Hr1). now split.
  - destruct Ht as (r' & more & -> & Hmore & Hwb). split.
    + intros ev Hin Hev.
      apply in_app_or in Hin as [Hin | [<- | Hin]].
      * exfalso. assert (existsb is_write_back t1 = true)
          by (apply existsb_exists; eauto). congruence.
      * discriminate.
      * destruct (Hwb ev Hin Hev) as (created & gid & pid' & r'' & -> & ? & ? & ->).
        eexists props, t1, cid, _, created, more, gid, pid', _, r''.
        repeat split; try eassumption; reflexivity.
    + intros props' Hx'. rewrite Hx in Hx'. injection Hx' as <-. congruence.
Qed.

(** A call of the upsert step that raised
    is followed by the report of its exception, handed to [print], which
    ends the trace of the step; what [print] answers is the outcome of the
    step. *)
Lemma upsert_failure_reported page name gcal_id cid body w c e :
  In (Called c (Raise e))
     (trace_of (upsert handle stdout utcnow page name gcal_id cid body w)) ->
  exists pre w',
    trace_of (upsert handle stdout utcnow page name gcal_id cid body w)
    = (pre ++ [Called c (Raise e); Printed (error_line name e)])%list
    /\ outcome_of (upsert handle stdout utcnow page name gcal_id cid body w)
       = fst (stdout (error_line name e) w').
Proof.
  destruct (Py.truthy gcal_id) eqn:Hg.
  - rewrite upsert_update by assumption. cbn zeta.
    destruct (handle _ w) as [[r|e'] w1].
    + intros [[=]|[]].
    + destruct (stdout (error_line name e') w1) as [r2 w2] eqn:Hs.
      cbn [trace_of outcome_of fst snd].
      intros [[= <- <-]|[[=]|[]]]. exists [], w1. now rewrite Hs.
  - rewrite upsert_create by assumption. cbn zeta.
    destruct (handle _ w) as [[created|e'] w1].
    2:{ destruct (stdout (error_line name e') w1) as [r2 w2] eqn:Hs.
        cbn [trace_of outcome_of fst snd].
        intros [[= <- <-]|[[=]|[]]]. exists [], w1. now rewrite Hs. }
    destruct (Py.get created "id") as [gid|e'].
    2:{ destruct (stdout _ w1). intros [[=]|[[=]|[]]]. }
    destruct (Py.getitem page "id") as [pid|e''].
    2:{ destruct (stdout _ w1). intros [[=]|[[=]|[]]]. }
    destruct (handle _ w1) as [[r|e3] w2].
    + intros [[=]|[[=]|[]]].
    + destruct (stdout (error_line name e3) w2) as [r3 w3] eqn:Hs.
      cbn [trace_of outcome_of fst snd].
      intros [[=]|[[= <- <-]|[[=]|[]]]].
      exists [Called (EventsInsert cid body) (Ok created)], w2. now rewrite Hs.
Qed.

Lemma for_each_trace_head page rest (body : json -> M W unit) w :
  exists t', trace_of (for_each (page :: rest) body w)
             = (trace_of (body page w) ++ t')%list.
Proof.
  rewrite for_each_cons. destruct (body page w) as [[[[]|e] w1] t1].
  - destruct (for_each rest body w1) as [[r w2] t2]. now exists t2.
  - exists []. cbn [trace_of snd]. now rewrite app_nil_r.
Qed.

(** C8, amended.  When the calendar call or the write-back of a task
    raises, the exception is caught and its report is handed to [print]:
    the report is the last event of the iteration, and the outcome of the
    iteration is what [print] answers.  When the iteration ends normally,
    as it does on an output stream that takes every line, the loop goes on
    with the next record, in the world the failed iteration left.  When
    [print] raises, its exception leaves the loop, which ends there: the
    next record is not processed.  No exception leaves the upsert step
    other than one raised by [print] on a report. *)
Theorem C8_upsert_failure_is_isolated
  (page next : json) (rest : list json) (w : W) (c : call) (e : exn) :
  In (Called c (Raise e))
     (trace_of (sync_page handle stdout utcnow calendar_map tz page w)) ->
  is_calendar_call (Called c (Raise e)) = true
  \/ is_write_back (Called c (Raise e)) = true ->
  (exists pre name w',
      trace_of (sync_page handle stdout utcnow calendar_map tz page w)
      = (pre ++ [Called c (Raise e); Printed (error_line name e)])%list
      /\ outcome_of (sync_page handle stdout utcnow calendar_map tz page w)
         = fst (stdout (error_line name e) w'))
  /\ (outcome_of (sync_page handle stdout utcnow calendar_map tz page w) = Ok tt ->
      exists t',
        trace_of (for_each (page :: next :: rest)
                    (sync_page handle stdout utcnow calendar_map tz) w)
        = (trace_of (sync_page handle stdout utcnow calendar_map tz page w)
           ++ trace_of (sync_page handle stdout utcnow calendar_map tz next
                          (world_of (sync_page handle stdout utcnow calendar_map tz
                                       page w)))
           ++ t')%list)
  /\ ((forall msg w0, is_ok (fst (stdout msg w0)) = true) ->
      outcome_of (sync_page handle stdout utcnow calendar_map tz page w) = Ok tt)
  /\ (forall e',
        outcome_of (sync_page handle stdout utcnow calendar_map tz page w)
        = Raise e' ->
        for_each (page :: next :: rest)
          (sync_page handle stdout utcnow calendar_map tz) w
        = sync_page handle stdout utcnow calendar_map tz page w)
  /\ (forall name gcal_id cid body w',
        outcome_of (upsert handle stdout utcnow page name gcal_id cid body w')
        = Ok tt
        \/ exists pre msg w'',
             trace_of (upsert handle stdout utcnow page name gcal_id cid body w')
             = (pre ++ [Printed msg])%list
             /\ outcome_of (upsert handle stdout utcnow page name gcal_id cid
                              body w')
                = fst (stdout msg w'')).
Proof.
  intros Hin Hkind.
  assert (Hnq : ~ quiet (trace_of (sync_page handle stdout utcnow calendar_map tz page w))).
  { intros [Hq1 Hq2].
    destruct Hkind as [Hk | Hk].
    - assert (existsb is_calendar_call
                (trace_of (sync_page handle stdout utcnow calendar_map tz page w)) = true)
        by (apply existsb_exists; eauto). congruence.
    - assert (existsb is_write_back
                (trace_of (sync_page handle stdout utcnow calendar_map tz page w)) = true)
        by (apply existsb_exists; eauto). congruence. }
  destruct (sync_page_inv handle stdout utcnow calendar_map tz page w)
    as [Hq | (props & dn & w1 & t1 & cid & sd & ed & pid & H)]; [contradiction|].
  destruct H as (Hx & Hf & Hr & Hl & Hc & Hp & Hi).
  pose proof (resolve_quiet handle (field props "domain_id" JNull) w) as [Hr1 Hr2].
  rewrite Hr in Hr1, Hr2. cbn [trace_of snd] in Hr1, Hr2.
  pose proof (sync_page_upsert handle stdout utcnow calendar_map tz page w
                props dn w1 t1 cid sd ed pid Hx Hf Hr Hl Hc Hp Hi) as E.
  pose proof (upsert_returns handle stdout utcnow page (field props "name" JNull)
                (field props "gcal_id" JNull) cid
                (event_body tz (field props "name" JNull) sd ed pid) w1) as Hok.
  pose proof (upsert_failure_reported page (field props "name" JNull)
                (field props "gcal_id" JNull) cid
                (event_body tz (field props "name" JNull) sd ed pid) w1 c e) as Hrep.
  destruct (upsert handle stdout utcnow page _ _ cid _ w1) as [[r w2] t2].
  cbn [outcome_of trace_of fst snd] in Hok, Hrep.
  split; [|split; [|split; [|split]]].
  - rewrite E in Hin |- *. cbn [trace_of outcome_of fst snd] in Hin |- *.
    apply in_app_or in Hin as [Hin | Hin].
    + exfalso. destruct Hkind as [Hk | Hk].
      * assert (existsb is_calendar_call t1 = true)
          by (apply existsb_exists; eauto). congruence.
      * assert (existsb is_write_back t1 = true)
          by (apply existsb_exists; eauto). congruence.
    + destruct (Hrep Hin) as (pre & w' & -> & Ho).
      exists (t1 ++ pre)%list, (field props "name" JNull), w'.
      split; [now rewrite <- app_assoc|exact Ho].
  - intros Hout. rewrite for_each_cons.
    destruct (sync_page handle stdout utcnow calendar_map tz page w) as [[r0 w0] t0].
    cbn [outcome_of fst] in Hout. subst r0. cbn [world_of trace_of fst snd].
    destruct (for_each_trace_head next rest
                (sync_page handle stdout utcnow calendar_map tz) w0) as [t' Ht'].
    destruct (for_each (next :: rest) _ w0) as [[r3 w3] t3].
    cbn [trace_of snd] in Ht' |- *. exists t'. now rewrite Ht'.
  - intros Hall. rewrite E. cbn [outcome_of fst]. now apply Hok.
  - intros e' Hout. rewrite for_each_cons.
    destruct (sync_page handle stdout utcnow calendar_map tz page w) as [[r0 w0] t0].
    cbn [outcome_of fst] in Hout. now subst r0.
  - intros. apply (upsert_outcome_plain handle stdout utcnow).
Qed.

End DriverProperties.

(* ===================================================================== *)
(** ** Two runs against the reference collaborators *)
(* ===================================================================== *)

Section TwoRuns.

Variable calendar_map : gmap string string.
Variable tz : string.

Lemma has_id_patch i content stamp p :
  Ref.has_id i (Ref.patch_properties content stamp p) = Ref.has_id i p.
Proof.
  destruct p as [| | | | |kv]; try reflexivity.
  cbn [Ref.patch_properties Ref.has_id].
  now rewrite assoc_set_other by discriminate.
Qed.

Lemma has_id_unique i j p :
  Ref.has_id i p = true -> Ref.has_id j p = true -> i = j.
Proof.
  destruct p as [| | | | |kv]; try discriminate. cbn [Ref.has_id].
  destruct (Py.assoc "id" kv) as [[| | |s| |]|]; try discriminate.
  intros H1 H2. apply String.eqb_eq in H1, H2. congruence.
Qed.

Lemma getitem_has_id p i :
  Py.getitem p "id" = Ok (JStr i) -> Ref.has_id i p = true.
Proof.
  destruct p as [| | | | |kv]; try discriminate. cbn [Py.getitem Ref.has_id].
  destruct (Py.assoc "id" kv) as [v|]; [|discriminate].
  intros [= ->]. apply String.eqb_refl.
Qed.

(** What a call can change in the reference world: nothing but the task
    records addressed by a [PagesUpdate], and the calendar. *)
Lemma ref_handle_frame c w :
  Ref.pages (snd (Ref.handle c w)) = Ref.pages w /\
  (Ref.tasks (snd (Ref.handle c w)) = Ref.tasks w
   \/ exists i properties content stamp,
       c = PagesUpdate (JStr i) properties /\
       Ref.tasks (snd (Ref.handle c w))
       = map (fun p => if Ref.has_id i p
                       then Ref.patch_properties content stamp p else p)
             (Ref.tasks w)).
Proof.
  destruct c as [db|pid|pid props|cal ev body|cal body]; cbn [Ref.handle].
  - auto.
  - destruct pid as [| | |i| |]; cbn [snd]; auto.
    destruct (Py.assoc i (Ref.pages w)); cbn [snd]; auto.
  - destruct pid as [| | |i| |]; cbn [snd]; auto.
    destruct (Ref.read_patch props) as [[content stamp]|]; cbn [snd]; auto.
    destruct (existsb (Ref.has_id i) (Ref.tasks w)); cbn [snd Ref.pages Ref.tasks];
      eauto 10.
  - destruct ev as [| | |e| |]; cbn [snd]; auto.
    destruct (Ref.find_event cal e (Ref.events w)); cbn [snd]; auto.
  - cbn [snd]. auto.
Qed.

Section Invariant.

(** The task [p], of id [pid], and the pages the world started with. *)
Variable p : json.
Variable pid : string.
Variable pages0 : list (string * json).
Hypothesis p_id : Ref.has_id pid p = true.

Lemma stable_handle c w :
  stable p pid pages0 w ->
  (forall properties, c <> PagesUpdate (JStr pid) properties) ->
  stable p pid pages0 (snd (Ref.handle c w)).
Proof.
  intros (Hp & Hin & Huniq) Hc.
  destruct (ref_handle_frame c w) as [Hpg [Ht | (i & props & content & stamp & -> & Ht)]].
  - unfold stable. rewrite Hpg, Ht. auto.
  - assert (Hi : i <> pid) by (intros ->; now apply (Hc props)).
    unfold stable. rewrite Hpg, Ht. split; [assumption|]. split.
    + apply in_map_iff. exists p. split; [|assumption].
      destruct (Ref.has_id i p) eqn:Hip; [|reflexivity].
      exfalso. apply Hi. eapply has_id_unique; eassumption.
    + intros q Hq Hid. apply in_map_iff in Hq as (t & <- & Hint).
      destruct (Ref.has_id i t) eqn:Hit.
      * rewrite has_id_patch in Hid. exfalso. apply Hi.
        eapply has_id_unique; eassumption.
      * now apply Huniq.
Qed.

Variable props_p : json.
Hypothesis p_extracted : _get_task_properties p = Ok props_p.
Hypothesis p_has_event : Py.truthy (field props_p "gcal_id" JNull) = true.

(** A record that is on the create path is not [p], so its id is not
    [pid]. *)
Lemma create_path_other_id q props page_id :
  (Ref.has_id pid q = true -> q = p) ->
  _get_task_properties q = Ok props ->
  Py.truthy (field props "gcal_id" JNull) = false ->
  Py.getitem q "id" = Ok page_id ->
  page_id <> JStr pid.
Proof.
  intros Hq Hx Hg Hi ->. apply getitem_has_id in Hi.
  rewrite (Hq Hi) in Hx. congruence.
Qed.

Lemma stable_resolve domain_id w :
  stable p pid pages0 w ->
  stable p pid pages0 (world_of (resolve_domain_name Ref.handle domain_id w)).
Proof.
  intros Hs. rewrite resolve_domain_name_eq.
  destruct (Py.truthy domain_id); [|exact Hs]. cbn zeta.
  pose proof (stable_handle (PagesRetrieve domain_id) w Hs) as H.
  destruct (Ref.handle (PagesRetrieve domain_id) w) as [[dp|e] w1];
    cbn [world_of fst snd] in *; apply H; discriminate.
Qed.

Lemma stable_upsert q props name cid body w :
  stable p pid pages0 w ->
  (Ref.has_id pid q = true -> q = p) ->
  _get_task_properties q = Ok props ->
  stable p pid pages0 (world_of (upsert Ref.handle Ref.stdout Ref.utcnow q name
                      (field props "gcal_id" JNull) cid body w)).
Proof.
  intros Hs Hq Hx.
  destruct (Py.truthy (field props "gcal_id" JNull)) eqn:Hg.
  - rewrite upsert_update by assumption. cbn zeta.
    pose proof (stable_handle (EventsUpdate cid (field props "gcal_id" JNull) body)
                  w Hs) as H.
    destruct (Ref.handle _ w) as [[r|e] w1]; cbn [world_of fst snd] in *;
      apply H; discriminate.
  - rewrite upsert_create by assumption. cbn zeta.
    pose proof (stable_handle (EventsInsert cid body) w Hs) as H.
    destruct (Ref.handle (EventsInsert cid body) w) as [[created|e] w1];
      cbn [world_of fst snd] in *; [|apply H; discriminate].
    assert (Hs1 : stable p pid pages0 w1) by (apply H; discriminate). clear H.
    destruct (Py.get created "id") as [gid|e]; cbn [fst snd]; [|exact Hs1].
    destruct (Py.getitem q "id") as [page_id|e] eqn:Hi; cbn [fst snd];
      [|exact Hs1].
    pose proof (create_path_other_id q props page_id Hq Hx Hg Hi) as Hne.
    pose proof (stable_handle
                  (PagesUpdate page_id
                     (write_back_properties gid (Ref.utcnow w1))) w1 Hs1) as H.
    destruct (Ref.handle _ w1) as [[r|e] w2]; cbn [fst snd] in *;
      apply H; congruence.
Qed.

Lemma stable_sync_page q w :
  stable p pid pages0 w ->
  (Ref.has_id pid q = true -> q = p) ->
  stable p pid pages0 (world_of (sync_page Ref.handle Ref.stdout Ref.utcnow calendar_map tz q w)).
Proof.
  intros Hs Hq. rewrite sync_page_eq.
  destruct (_get_task_properties q) as [props|e] eqn:Hx; [|exact Hs].
  cbn zeta.
  destruct (Py.eq_str _ "Completed" || Py.is_none _); [exact Hs|].
  pose proof (stable_resolve (field props "domain_id" JNull) w Hs) as Hs1.
  destruct (resolve_domain_name Ref.handle _ w) as [[rdn w1] t1].
  cbn [world_of fst snd] in Hs1.
  destruct (rbind rdn (lookup_calendar calendar_map)) as [[cid|]|e];
    [|exact Hs1..].
  destruct (String.eqb cid ""); [exact Hs1|].
  destruct (_parse_notion_date _ tz) as [[sd ed]|e]; [|exact Hs1].
  destruct (Py.getitem q "id") as [page_id|e]; [|exact Hs1].
  pose proof (stable_upsert q props (field props "name" JNull) cid
                (event_body tz (field props "name" JNull) sd ed page_id)
                w1 Hs1 Hq Hx) as Hs2.
  destruct (upsert Ref.handle Ref.stdout Ref.utcnow q _ _ cid _ w1) as [[r w2] t2].
  exact Hs2.
Qed.

(** No iteration writes to [p]. *)
Lemma sync_page_never_writes_p q w properties r :
  (Ref.has_id pid q = true -> q = p) ->
  ~ In (Called (PagesUpdate (JStr pid) properties) r)
       (trace_of (sync_page Ref.handle Ref.stdout Ref.utcnow calendar_map tz q w)).
Proof.
  intros Hq Hin.
  destruct (write_back_only_after_create Ref.handle Ref.stdout Ref.utcnow calendar_map tz q w)
    as [Hwb _].
  destruct (Hwb _ Hin eq_refl)
    as (props & pre & cid & body & created & more & gid & page_id & stamp & r'
        & Hx & Hg & _ & _ & _ & Hi & E).
  injection E as E _ _.
  exact (create_path_other_id q props page_id Hq Hx Hg Hi (eq_sym E)).
Qed.

(** The loop keeps [p] as it is, writes nothing to it, and, when it runs
    to its end, has processed [p] in a world where [p] was still as it
    is. *)
Lemma stable_for_each l : forall w,
  stable p pid pages0 w ->
  (forall q, In q l -> Ref.has_id pid q = true -> q = p) ->
  let out := for_each l (sync_page Ref.handle Ref.stdout Ref.utcnow calendar_map tz) w in
  stable p pid pages0 (world_of out)
  /\ (forall properties r,
        ~ In (Called (PagesUpdate (JStr pid) properties) r) (trace_of out))
  /\ (outcome_of out = Ok tt -> In p l ->
      exists wk, stable p pid pages0 wk /\
        forall ev,
          In ev (trace_of (sync_page Ref.handle Ref.stdout Ref.utcnow calendar_map tz p wk)) ->
          In ev (trace_of out)).
Proof.
  induction l as [|q l IH]; intros w Hs Hl; cbn zeta.
  - split; [exact Hs|]. split; [intros ? ? []|]. intros _ [].
  - rewrite for_each_cons.
    assert (Hq : Ref.has_id pid q = true -> q = p) by (apply Hl; now left).
    pose proof (stable_sync_page q w Hs Hq) as Hs1.
    pose proof (fun properties r =>
                  sync_page_never_writes_p q w properties r Hq) as Hnw.
    destruct (sync_page Ref.handle Ref.stdout Ref.utcnow calendar_map tz q w)
      as [[[[]|e] w1] t1] eqn:Hq_run; cbn [world_of trace_of fst snd] in Hs1, Hnw.
    2:{ cbn [world_of trace_of outcome_of fst snd].
        split; [exact Hs1|]. split; [exact Hnw|]. discriminate. }
    destruct (IH w1 Hs1 (fun q' Hin => Hl q' (or_intror Hin)))
      as (Hs2 & Hnw2 & Hproc).
    destruct (for_each l _ w1) as [[r w2] t2].
    cbn [world_of trace_of outcome_of fst snd] in *.
    split; [exact Hs2|]. split.
    + intros properties r' Hin. apply in_app_or in Hin as [Hin | Hin].
      * exact (Hnw _ _ Hin).
      * exact (Hnw2 _ _ Hin).
    + intros Hr [-> | Hin].
      * exists w. split; [exact Hs|]. intros ev Hev. apply in_or_app. left.
        rewrite Hq_run in Hev. exact Hev.
      * destruct (Hproc Hr Hin) as (wk & Hwk & Hev).
        exists wk. split; [exact Hwk|]. intros ev H. apply in_or_app. right.
        now apply Hev.
Qed.

End Invariant.

Lemma ref_run_eq db w :
  Ref.run calendar_map tz db w =
  let '(r, w', t) :=
    for_each (Ref.tasks w) (sync_page Ref.handle Ref.stdout Ref.utcnow calendar_map tz) w in
  (r, w', Called (DatabasesQuery db)
            (Ok (JDict [("results", JList (Ref.tasks w))])) :: t).
Proof.
  unfold Ref.run, sync_notion_to_calendar, bind at 1, remote.
  cbn [Ref.handle]. rewrite bind_lift.
  change (Py.get_default (JDict [("results", JList (Ref.tasks w))]) "results"
            (JList [])) with (Ok (JList (Ref.tasks w))).
  cbv beta iota. rewrite bind_lift. cbn [Py.iter].
  now destruct (for_each _ _ w) as [[r w'] t].
Qed.

(** In the reference world the outcome of domain resolution depends on the
    stored pages only. *)
Lemma ref_resolve_pages domain_id w w' :
  Ref.pages w = Ref.pages w' ->
  outcome_of (resolve_domain_name Ref.handle domain_id w)
  = outcome_of (resolve_domain_name Ref.handle domain_id w').
Proof.
  intros Hp. rewrite !resolve_domain_name_eq.
  destruct (Py.truthy domain_id); [|reflexivity]. cbn zeta.
  destruct domain_id as [| | |i| |]; cbn [Ref.handle]; try reflexivity.
  rewrite Hp. now destruct (Py.assoc i (Ref.pages w')).
Qed.

(** A task that has an event id, is not filtered out, and
    has a mapped domain and a due range that normalizes, is updated by each
    of two consecutive runs that complete; neither run writes to it, and
    after the second run its record is what it was. *)
Lemma two_runs_update_and_keep
  (db : string) (w0 : Ref.world) (p props : json) (pid g : string)
  (dn : json) (cid : string) (sd ed : datetime) :
  let out1 := Ref.run calendar_map tz db w0 in
  let out2 := Ref.run calendar_map tz db (world_of out1) in
  let body := event_body tz (field props "name" JNull) sd ed (JStr pid) in
  In p (Ref.tasks w0) ->
  Py.getitem p "id" = Ok (JStr pid) ->
  (forall q, In q (Ref.tasks w0) -> Ref.has_id pid q = true -> q = p) ->
  _get_task_properties p = Ok props ->
  Py.get props "gcal_id" = Ok (JStr g) -> g <> "" ->
  Py.eq_str (field props "status" JNull) "Completed"
    || Py.is_none (field props "due" JNull) = false ->
  outcome_of (resolve_domain_name Ref.handle (field props "domain_id" JNull) w0)
    = Ok dn ->
  lookup_calendar calendar_map dn = Ok (Some cid) -> cid <> "" ->
  _parse_notion_date (field props "due" JNull) tz = Ok (sd, ed) ->
  outcome_of out1 = Ok tt -> outcome_of out2 = Ok tt ->
  (exists r, In (Called (EventsUpdate cid (JStr g) body) r) (trace_of out1))
  /\ (exists r, In (Called (EventsUpdate cid (JStr g) body) r) (trace_of out2))
  /\ (forall properties r,
        ~ In (Called (PagesUpdate (JStr pid) properties) r) (trace_of out1)
        /\ ~ In (Called (PagesUpdate (JStr pid) properties) r) (trace_of out2))
  /\ In p (Ref.tasks (world_of out2))
  /\ (forall q, In q (Ref.tasks (world_of out2)) ->
                Ref.has_id pid q = true -> q = p).
Proof.
  cbn zeta. intros Hin Hid Huniq Hx Hg Hgne Hf Hdn Hl Hc Hp.
  assert (Hpid : Ref.has_id pid p = true) by now apply getitem_has_id.
  destruct (extract_dict _ _ Hx) as [kv ->].
  assert (Hgf : field (JDict kv) "gcal_id" JNull = JStr g)
    by (cbn [field]; now injection Hg).
  assert (Hgt : Py.truthy (field (JDict kv) "gcal_id" JNull) = true).
  { rewrite Hgf. cbn. destruct g; [contradiction|reflexivity]. }
  (* what one run does, from any world where [p] is as it is *)
  assert (Hrun : forall w,
    stable p pid (Ref.pages w0) w ->
    outcome_of (Ref.run calendar_map tz db w) = Ok tt ->
    (exists r, In (Called (EventsUpdate cid (JStr g)
                             (event_body tz (field (JDict kv) "name" JNull)
                                sd ed (JStr pid))) r)
                  (trace_of (Ref.run calendar_map tz db w)))
    /\ (forall properties r,
          ~ In (Called (PagesUpdate (JStr pid) properties) r)
               (trace_of (Ref.run calendar_map tz db w)))
    /\ stable p pid (Ref.pages w0) (world_of (Ref.run calendar_map tz db w))).
  { intros w Hs Hout. rewrite ref_run_eq in Hout |- *.
    destruct (stable_for_each p pid (Ref.pages w0) Hpid (JDict kv) Hx Hgt
                (Ref.tasks w) w Hs (proj2 (proj2 Hs)))
      as (Hs' & Hnw & Hproc).
    destruct (for_each (Ref.tasks w) _ w) as [[r w'] t].
    cbn [world_of trace_of outcome_of fst snd] in *.
    split; [|split; [|exact Hs']].
    - destruct (Hproc Hout (proj1 (proj2 Hs))) as (wk & Hwk & Hev).
      destruct (resolve_domain_name_spec Ref.handle
                  (field (JDict kv) "domain_id" JNull) wk)
        as (dn' & w1 & t1 & Hr & _ & _).
      assert (dn' = dn).
      { pose proof (ref_resolve_pages (field (JDict kv) "domain_id" JNull)
                      wk w0 (proj1 Hwk)) as E.
        rewrite Hr, Hdn in E. now injection E. }
      subst dn'.
      destruct (upsert_call_by_id Ref.handle Ref.stdout Ref.utcnow calendar_map tz p
                  (JDict kv) wk dn w1 t1 cid sd ed (JStr pid)
                  Hx Hf Hr Hl Hc Hp Hid) as (r0 & more & Ht & _).
      rewrite Hgt, Hgf in Ht. exists r0. right. apply Hev. rewrite Ht.
      apply in_or_app. right. now left.
    - intros properties r0 [E | Hin']; [discriminate E|]. exact (Hnw _ _ Hin'). }
  intros Hout1 Hout2.
  assert (Hs0 : stable p pid (Ref.pages w0) w0) by (repeat split; assumption).
  destruct (Hrun w0 Hs0 Hout1) as (Hu1 & Hn1 & Hs1).
  destruct (Hrun _ Hs1 Hout2) as (Hu2 & Hn2 & Hs2).
  split; [exact Hu1|]. split; [exact Hu2|]. split; [intros; split; auto|].
  exact (proj2 Hs2).
Qed.

End TwoRuns.

(* ===================================================================== *)
(** ** Properties of the Date Normalizer *)
(* ===================================================================== *)

(** C4.  When the end of a date range is absent (null, missing or empty)
    and the start is a well-formed date or datetime string, the normalizer
    returns the start as read (a date-only start being midnight of that
    day) together with the start plus 24 hours; it does so for every start
    that is not on the last representable day.  Whenever the normalizer
    returns on a range with an absent end, the end is the start plus 24
    hours.  For start "2024-05-01" the driver sends
    "2024-05-01T00:00:00" and "2024-05-02T00:00:00", each with the
    configured timezone. *)
Theorem C4_end_absent_is_one_day_block :
  (forall (date_dict end_str : json) (tz s : string) (v : iso_value),
      Py.get date_dict "start" = Ok (JStr s) ->
      Py.get date_dict "end" = Ok end_str -> Py.truthy end_str = false ->
      classify s = Some v -> last_day (start_of v) = false ->
      exists end_dt,
        _parse_notion_date date_dict tz = Ok (start_of v, end_dt)
        /\ wall_us end_dt = wall_us (start_of v) + day_us
        /\ tzinfo end_dt = tzinfo (start_of v))
  /\ (forall (date_dict end_str : json) (tz : string) (start_dt end_dt : datetime),
      Py.get date_dict "end" = Ok end_str -> Py.truthy end_str = false ->
      _parse_notion_date date_dict tz = Ok (start_dt, end_dt) ->
      wall_us end_dt = wall_us start_dt + day_us
      /\ tzinfo end_dt = tzinfo start_dt)
  /\ (forall tz : string,
      exists start_dt end_dt,
        _parse_notion_date (date_range (JStr "2024-05-01") JNull) tz
        = Ok (start_dt, end_dt)
        /\ time_point tz start_dt
           = JDict [("dateTime", JStr "2024-05-01T00:00:00"); ("timeZone", JStr tz)]
        /\ time_point tz end_dt
           = JDict [("dateTime", JStr "2024-05-02T00:00:00"); ("timeZone", JStr tz)]).
Proof.
  split; [|split].
  - intros date_dict end_str tz s v Hs He Hfalsy Hc Hlast.
    pose proof (classify_start_valid s v Hc) as Hv.
    destruct (add_one_day_total _ Hv Hlast) as [end_dt Hadd].
    destruct (add_one_day_next _ _ Hv Hadd) as (Ho & Hh & Hm & Hsec & Hus & Htz & _).
    exists end_dt. split; [|split; [now apply wall_us_next | exact Htz]].
    unfold _parse_notion_date. rewrite Hs, He. cbn [rbind Py.is_none].
    rewrite (read_start_then s v _ Hc). rewrite Hfalsy, Hadd. reflexivity.
  - intros date_dict end_str tz start_dt end_dt He Hfalsy Hp.
    destruct (normalizer_inv _ _ _ _ Hp) as (s' & e' & _ & He' & Hv & Hend).
    rewrite He in He'. injection He' as <-. rewrite Hfalsy in Hend.
    destruct (add_one_day_next _ _ Hv Hend) as (Ho & Hh & Hm & Hsec & Hus & Htz & _).
    split; [now apply wall_us_next | exact Htz].
  - intros tz. eexists _, _. split; [reflexivity|]. split; reflexivity.
Qed.

Lemma C4_end_absent_is_one_day_block_witness :
  exists end_dt,
    _parse_notion_date
      (date_range (JStr "2024-02-28T09:30:00-04:00") (JStr "")) "America/New_York"
    = Ok (mkDatetime 2024 2 28 9 30 0 0 (Some (-14400000000)), end_dt)
    /\ wall_us end_dt
       = wall_us (mkDatetime 2024 2 28 9 30 0 0 (Some (-14400000000))) + day_us
    /\ tzinfo end_dt = Some (-14400000000).
Proof.
  apply (proj1 C4_end_absent_is_one_day_block
           (date_range (JStr "2024-02-28T09:30:00-04:00") (JStr "")) (JStr "")
           "America/New_York" "2024-02-28T09:30:00-04:00"
           (DateTime (mkDatetime 2024 2 28 9 30 0 0 (Some (-14400000000)))));
    reflexivity.
Defined.

(** C5.  When the end of a date range is a date with no time component,
    the interval ends at 23:59:59 on that date; when the end carries a time
    component it is used as the library reads it.  Both hold for every
    well-formed start, and for the end whenever the normalizer returns.
    For start "2024-05-01" and end "2024-05-03" the end is
    "2024-05-03T23:59:59". *)
Theorem C5_end_of_day_or_verbatim :
  (forall (date_dict : json) (tz s e : string) (v : iso_value) (y m d : Z),
      Py.get date_dict "start" = Ok (JStr s) ->
      Py.get date_dict "end" = Ok (JStr e) ->
      classify s = Some v -> classify e = Some (DateOnly y m d) ->
      _parse_notion_date date_dict tz
      = Ok (start_of v, mkDatetime y m d 23 59 59 0 None))
  /\ (forall (date_dict : json) (tz s e : string) (v : iso_value) (dt : datetime),
      Py.get date_dict "start" = Ok (JStr s) ->
      Py.get date_dict "end" = Ok (JStr e) ->
      classify s = Some v -> classify e = Some (DateTime dt) ->
      _parse_notion_date date_dict tz = Ok (start_of v, dt))
  /\ (forall (date_dict : json) (tz e : string) (ve : iso_value)
             (start_dt end_dt : datetime),
      Py.get date_dict "end" = Ok (JStr e) -> classify e = Some ve ->
      _parse_notion_date date_dict tz = Ok (start_dt, end_dt) ->
      end_dt = match ve with
               | DateOnly y m d => mkDatetime y m d 23 59 59 0 None
               | DateTime dt => dt
               end)
  /\ (forall tz : string,
      iso_interval
        (_parse_notion_date
           (date_range (JStr "2024-05-01") (JStr "2024-05-03")) tz)
      = Ok ("2024-05-01T00:00:00", "2024-05-03T23:59:59")
      /\ iso_interval
           (_parse_notion_date
              (date_range (JStr "2024-05-01T09:00:00")
                          (JStr "2024-05-01T10:00:00")) tz)
         = Ok ("2024-05-01T09:00:00", "2024-05-01T10:00:00")).
Proof.
  split; [|split; [|split]].
  - intros date_dict tz s e v y m d Hs He Hcs Hce.
    unfold _parse_notion_date. rewrite Hs, He. cbn [rbind Py.is_none].
    rewrite (read_start_then s v _ Hcs).
    rewrite (classify_nonempty e _ Hce), (read_end_date e y m d Hce). reflexivity.
  - intros date_dict tz s e v dt Hs He Hcs Hce.
    unfold _parse_notion_date. rewrite Hs, He. cbn [rbind Py.is_none].
    rewrite (read_start_then s v _ Hcs).
    rewrite (classify_nonempty e _ Hce), (read_end_datetime e dt Hce). reflexivity.
  - intros date_dict tz e ve start_dt end_dt He Hce Hp.
    destruct (normalizer_inv _ _ _ _ Hp) as (s' & e' & _ & He' & _ & Hend).
    rewrite He in He'. injection He' as <-.
    rewrite (classify_nonempty e _ Hce) in Hend.
    destruct ve as [y m d|dt].
    + rewrite (read_end_date e y m d Hce) in Hend. now injection Hend.
    + rewrite (read_end_datetime e dt Hce) in Hend. now injection Hend.
  - intros tz. split; reflexivity.
Qed.

Lemma C5_end_of_day_or_verbatim_witness :
  _parse_notion_date
    (date_range (JStr "2024-05-01T09:00:00") (JStr "2024-12-31")) "Europe/Paris"
  = Ok (mkDatetime 2024 5 1 9 0 0 0 None, mkDatetime 2024 12 31 23 59 59 0 None).
Proof.
  apply (proj1 C5_end_of_day_or_verbatim
           (date_range (JStr "2024-05-01T09:00:00") (JStr "2024-12-31"))
           "Europe/Paris" "2024-05-01T09:00:00" "2024-12-31"
           (DateTime (mkDatetime 2024 5 1 9 0 0 0 None)) 2024 12 31);
    reflexivity.
Defined.

(** C10.  The normalizer does not compare start and end: there is a range
    with both present, whose end date is strictly earlier than its start
    date, on which it returns, and the interval it returns ends before it
    starts. *)
Theorem C10_no_ordering_enforced :
  exists (s e : string) (ys ms ds ye me de : Z) (start_dt end_dt : datetime),
    classify s = Some (DateOnly ys ms ds)
    /\ classify e = Some (DateOnly ye me de)
    /\ toordinal (start_of (DateOnly ye me de))
       < toordinal (start_of (DateOnly ys ms ds))
    /\ (forall tz : string,
         _parse_notion_date (date_range (JStr s) (JStr e)) tz
         = Ok (start_dt, end_dt))
    /\ Datetime.lt end_dt start_dt = Ok true.
Proof.
  exists "2024-05-03", "2024-05-01", 2024, 5, 3, 2024, 5, 1,
    (mkDatetime 2024 5 3 0 0 0 0 None), (mkDatetime 2024 5 1 23 59 59 0 None).
  repeat split; reflexivity.
Qed.

(* ===================================================================== *)
(** ** Properties of the Task Extractor *)
(* ===================================================================== *)

(** C9, amended.  Whenever the extractor returns, and it returns on every
    record that follows the property schema, the name it sets is decided by
    the first populated property among the accepted name keys, "Name" then
    "Title": the concatenation of its text parts when that property is
    "title"-typed, and "Untitled" when it is not, or when neither key holds
    a populated property. *)
Theorem C9_name_from_first_populated_key (page : json) :
  (wf_page page = true -> is_ok (_get_task_properties page) = true)
  /\ (forall props,
       _get_task_properties page = Ok props ->
       exists ps,
         properties_of page = Some ps /\
         Py.get props "name"
         = Ok (match first_populated ps ["Name"; "Title"] with
               | Some p =>
                   if is_typed p "title"
                   then JStr (plain_text (field p "title" (JList [])))
                   else JStr "Untitled"
               | None => JStr "Untitled"
               end)).
Proof.
  split.
  - intros Hwf. destruct (wf_page_inv page Hwf) as (ps & Hps & Hall).
    now rewrite (extract_wf page ps Hps Hall).
  - intros props Hx. destruct (extract_properties_of page props Hx) as [ps Hps].
    exists ps. split; [exact Hps|]. exact (extract_name_ok page ps props Hps Hx).
Qed.

Lemma C9_name_from_first_populated_key_witness :
  is_ok (_get_task_properties Sample.task_new) = true
  /\ exists ps,
       properties_of Sample.task_new = Some ps /\
       Py.get (JDict [("name", JStr "Task p1");
                      ("due", date_range (JStr "2024-05-01") JNull);
                      ("status", JStr "In progress");
                      ("domain_id", JStr "d1");
                      ("gcal_id", JStr "")]) "name"
       = Ok (match first_populated ps ["Name"; "Title"] with
             | Some p =>
                 if is_typed p "title"
                 then JStr (plain_text (field p "title" (JList [])))
                 else JStr "Untitled"
             | None => JStr "Untitled"
             end).
Proof.
  split.
  - apply (proj1 (C9_name_from_first_populated_key Sample.task_new)). reflexivity.
  - apply (proj2 (C9_name_from_first_populated_key Sample.task_new)). reflexivity.
Defined.

(** The specification's sentence, read as worded, fails on a record that
    follows the schema, whose "Name" property is populated but is rich text
    while its "Title" property is a populated title: the extractor answers
    "Untitled", not the text of the title. *)
Lemma C9_counterexample :
  wf_page Sample.task_title_under_title = true
  /\ properties_of Sample.task_title_under_title
     = Some [("Name", text_property ["Quarterly report"]);
             ("Title", title_property ["Quarterly report"])]
  /\ rbind (_get_task_properties Sample.task_title_under_title)
           (fun props => Py.get props "name")
     = Ok (JStr "Untitled")
  /\ name_as_stated [("Name", text_property ["Quarterly report"]);
                     ("Title", title_property ["Quarterly report"])]
     = JStr "Quarterly report".
Proof. repeat split; reflexivity. Qed.

(** C2.  On an iteration that reaches the upsert step the calendar call is
    an update addressed to the extracted event id when that id is present
    (a non-empty string), and a create otherwise; no second calendar call
    follows.  Whenever the extractor returns, and it returns on every
    record that follows the property schema, the extracted event id is null
    or a string, and it is null when neither accepted id key holds a
    populated "rich_text"-typed property. *)
Theorem C2_update_if_id_present_else_create :
  (forall (W : Type) (handle : call -> W -> result json * W)
          (stdout : string -> W -> result unit * W)
          (utcnow : W -> datetime) (calendar_map : gmap string string)
          (tz : string) (page props : json) (w : W) (dn : json) (w1 : W)
          (t1 : list event) (cid : string) (sd ed : datetime) (pid : json),
      _get_task_properties page = Ok props ->
      Py.eq_str (field props "status" JNull) "Completed"
        || Py.is_none (field props "due" JNull) = false ->
      resolve_domain_name handle (field props "domain_id" JNull) w
        = (Ok dn, w1, t1) ->
      lookup_calendar calendar_map dn = Ok (Some cid) -> cid <> "" ->
      _parse_notion_date (field props "due" JNull) tz = Ok (sd, ed) ->
      Py.getitem page "id" = Ok pid ->
      exists r more,
        trace_of (sync_page handle stdout utcnow calendar_map tz page w)
        = (t1 ++ Called
                   (if Py.truthy (field props "gcal_id" JNull)
                    then EventsUpdate cid (field props "gcal_id" JNull)
                           (event_body tz (field props "name" JNull) sd ed pid)
                    else EventsInsert cid
                           (event_body tz (field props "name" JNull) sd ed pid))
                   r :: more)%list
        /\ existsb is_calendar_call more = false
        /\ (Py.truthy (field props "gcal_id" JNull) = true ->
            existsb is_write_back more = false))
  /\ (forall page : json,
      (wf_page page = true -> is_ok (_get_task_properties page) = true)
      /\ (forall props,
           _get_task_properties page = Ok props ->
           exists ps,
             properties_of page = Some ps /\
             (Py.get props "gcal_id" = Ok JNull
              \/ exists s, Py.get props "gcal_id" = Ok (JStr s)) /\
             ((forall k, In k ["GCal Event ID"; "Google Calendar Event ID"] ->
                         is_typed (prop_at ps k) "rich_text" = false) ->
              Py.get props "gcal_id" = Ok JNull))).
Proof.
  split.
  - intros. eapply upsert_call_by_id; eassumption.
  - intros page. split.
    + intros Hwf. destruct (wf_page_inv page Hwf) as (ps & Hps & Hall).
      now rewrite (extract_wf page ps Hps Hall).
    + intros props Hx. destruct (extract_properties_of page props Hx) as [ps Hps].
      exists ps. split; [exact Hps|].
      rewrite (extract_gcal_id_ok page ps props Hps Hx). split.
      * destruct (gcal_id_rule_shape ps) as [-> | [s ->]]; eauto.
      * intros Hno. now rewrite (gcal_id_rule_untyped ps Hno).
Qed.

Lemma C2_update_if_id_present_else_create_witness :
  exists r more,
    trace_of (sync_page Ref.handle Ref.stdout Ref.utcnow Sample.calendars Sample.zone
                Sample.task_synced (Sample.world [Sample.task_synced]))
    = ([Called (PagesRetrieve (JStr "d1")) (Ok (Sample.domain_page "d1" "Book"))]
       ++ Called
            (EventsUpdate "book@cal" (JStr "evt-old")
               (event_body Sample.zone (JStr "Task p2")
                  (mkDatetime 2024 5 1 0 0 0 0 None)
                  (mkDatetime 2024 5 3 23 59 59 0 None) (JStr "p2")))
            r :: more)%list
    /\ existsb is_calendar_call more = false
    /\ (true = true -> existsb is_write_back more = false).
Proof.
  apply (proj1 C2_update_if_id_present_else_create Ref.world Ref.handle Ref.stdout Ref.utcnow
           Sample.calendars Sample.zone Sample.task_synced
           (JDict [("name", JStr "Task p2");
                   ("due", date_range (JStr "2024-05-01") (JStr "2024-05-03"));
                   ("status", JStr "In progress");
                   ("domain_id", JStr "d1");
                   ("gcal_id", JStr "evt-old")])
           (Sample.world [Sample.task_synced]) (JStr "Book")
           (Sample.world [Sample.task_synced])
           [Called (PagesRetrieve (JStr "d1")) (Ok (Sample.domain_page "d1" "Book"))]
           "book@cal" (mkDatetime 2024 5 1 0 0 0 0 None)
           (mkDatetime 2024 5 3 23 59 59 0 None) (JStr "p2"));
    try reflexivity.
  discriminate.
Defined.

(* ===================================================================== *)
(** ** Properties of the Sync Driver *)
(* ===================================================================== *)

(** C3.  In any world, a write-back happens only on the create path, after
    a create that succeeded: it follows that create in the trace, is
    addressed to the record being processed, and carries the event id the
    create returned and a timestamp.  An iteration for a task that has an
    event id makes no write-back and no create.  Against the reference
    collaborators, two consecutive runs that complete both issue an update
    addressed to the event id of such a task, neither run writes to the
    task, and after the second run its record, event id included, is what
    it was before the first. *)
Theorem C3_write_back_only_on_create :
  (forall (W : Type) (handle : call -> W -> result json * W)
          (stdout : string -> W -> result unit * W)
          (utcnow : W -> datetime) (calendar_map : gmap string string)
          (tz : string) (page : json) (w : W),
      (forall ev,
         In ev (trace_of (sync_page handle stdout utcnow calendar_map tz page w)) ->
         is_write_back ev = true ->
         exists props pre cid body created more gcal_id_new page_id stamp r,
           _get_task_properties page = Ok props /\
           Py.truthy (field props "gcal_id" JNull) = false /\
           trace_of (sync_page handle stdout utcnow calendar_map tz page w)
           = (pre ++ Called (EventsInsert cid body) (Ok created) :: more)%list /\
           In ev more /\
           Py.get created "id" = Ok gcal_id_new /\
           Py.getitem page "id" = Ok page_id /\
           ev = Called (PagesUpdate page_id
                          (write_back_properties gcal_id_new stamp)) r)
      /\ (forall props,
           _get_task_properties page = Ok props ->
           Py.truthy (field props "gcal_id" JNull) = true ->
           existsb is_write_back
             (trace_of (sync_page handle stdout utcnow calendar_map tz page w)) = false /\
           existsb is_create
             (trace_of (sync_page handle stdout utcnow calendar_map tz page w)) = false))
  /\ (forall (calendar_map : gmap string string) (tz db : string)
             (w0 : Ref.world) (p props : json) (pid g : string) (dn : json)
             (cid : string) (sd ed : datetime),
      In p (Ref.tasks w0) ->
      Py.getitem p "id" = Ok (JStr pid) ->
      (forall q, In q (Ref.tasks w0) -> Ref.has_id pid q = true -> q = p) ->
      _get_task_properties p = Ok props ->
      Py.get props "gcal_id" = Ok (JStr g) -> g <> "" ->
      Py.eq_str (field props "status" JNull) "Completed"
        || Py.is_none (field props "due" JNull) = false ->
      outcome_of (resolve_domain_name Ref.handle
                    (field props "domain_id" JNull) w0) = Ok dn ->
      lookup_calendar calendar_map dn = Ok (Some cid) -> cid <> "" ->
      _parse_notion_date (field props "due" JNull) tz = Ok (sd, ed) ->
      outcome_of (Ref.run calendar_map tz db w0) = Ok tt ->
      outcome_of (Ref.run calendar_map tz db
                    (world_of (Ref.run calendar_map tz db w0))) = Ok tt ->
      (exists r,
         In (Called (EventsUpdate cid (JStr g)
                       (event_body tz (field props "name" JNull) sd ed (JStr pid)))
                    r)
            (trace_of (Ref.run calendar_map tz db w0)))
      /\ (exists r,
            In (Called (EventsUpdate cid (JStr g)
                          (event_body tz (field props "name" JNull) sd ed
                             (JStr pid))) r)
               (trace_of (Ref.run calendar_map tz db
                            (world_of (Ref.run calendar_map tz db w0)))))
      /\ (forall properties r,
            ~ In (Called (PagesUpdate (JStr pid) properties) r)
                 (trace_of (Ref.run calendar_map tz db w0))
            /\ ~ In (Called (PagesUpdate (JStr pid) properties) r)
                    (trace_of (Ref.run calendar_map tz db
                                 (world_of (Ref.run calendar_map tz db w0)))))
      /\ In p (Ref.tasks (world_of (Ref.run calendar_map tz db
                                      (world_of (Ref.run calendar_map tz db w0)))))
      /\ (forall q,
            In q (Ref.tasks (world_of (Ref.run calendar_map tz db
                                         (world_of (Ref.run calendar_map tz db w0))))) ->
            Ref.has_id pid q = true -> q = p)).
Proof.
  split.
  - intros. apply write_back_only_after_create.
  - intros calendar_map tz db w0 p props pid g dn cid sd ed.
    exact (two_runs_update_and_keep calendar_map tz db w0 p props pid g dn cid sd ed).
Qed.

Lemma C3_write_back_only_on_create_witness :
  (exists r,
     In (Called (EventsUpdate "book@cal" (JStr "evt-old")
                   (event_body Sample.zone (JStr "Task p2")
                      (mkDatetime 2024 5 1 0 0 0 0 None)
                      (mkDatetime 2024 5 3 23 59 59 0 None) (JStr "p2"))) r)
        (trace_of (Ref.run Sample.calendars Sample.zone "db"
                     (Sample.world [Sample.task_new; Sample.task_synced]))))
  /\ (exists r,
        In (Called (EventsUpdate "book@cal" (JStr "evt-old")
                      (event_body Sample.zone (JStr "Task p2")
                         (mkDatetime 2024 5 1 0 0 0 0 None)
                         (mkDatetime 2024 5 3 23 59 59 0 None) (JStr "p2"))) r)
           (trace_of
              (Ref.run Sample.calendars Sample.zone "db"
                 (world_of (Ref.run Sample.calendars Sample.zone "db"
                              (Sample.world [Sample.task_new; Sample.task_synced]))))))
  /\ (forall properties r,
        ~ In (Called (PagesUpdate (JStr "p2") properties) r)
             (trace_of (Ref.run Sample.calendars Sample.zone "db"
                          (Sample.world [Sample.task_new; Sample.task_synced])))
        /\ ~ In (Called (PagesUpdate (JStr "p2") properties) r)
                (trace_of
                   (Ref.run Sample.calendars Sample.zone "db"
                      (world_of (Ref.run Sample.calendars Sample.zone "db"
                                   (Sample.world
                                      [Sample.task_new; Sample.task_synced]))))))
  /\ In Sample.task_synced
        (Ref.tasks
           (world_of
              (Ref.run Sample.calendars Sample.zone "db"
                 (world_of (Ref.run Sample.calendars Sample.zone "db"
                              (Sample.world [Sample.task_new; Sample.task_synced]))))))
  /\ (forall q,
        In q (Ref.tasks
                (world_of
                   (Ref.run Sample.calendars Sample.zone "db"
                      (world_of (Ref.run Sample.calendars Sample.zone "db"
                                   (Sample.world
                                      [Sample.task_new; Sample.task_synced])))))) ->
        Ref.has_id "p2" q = true -> q = Sample.task_synced).
Proof.
  apply (proj2 C3_write_back_only_on_create Sample.calendars Sample.zone "db"
           (Sample.world [Sample.task_new; Sample.task_synced])
           Sample.task_synced
           (JDict [("name", JStr "Task p2");
                   ("due", date_range (JStr "2024-05-01") (JStr "2024-05-03"));
                   ("status", JStr "In progress");
                   ("domain_id", JStr "d1");
                   ("gcal_id", JStr "evt-old")])
           "p2" "evt-old" (JStr "Book") "book@cal"
           (mkDatetime 2024 5 1 0 0 0 0 None)
           (mkDatetime 2024 5 3 23 59 59 0 None)).
  - right. left. reflexivity.
  - reflexivity.
  - intros q [<- | [<- | []]]; [discriminate | reflexivity].
  - reflexivity.
  - reflexivity.
  - discriminate.
  - reflexivity.
  - reflexivity.
  - reflexivity.
  - discriminate.
  - reflexivity.
  - vm_compute. reflexivity.
  - vm_compute. reflexivity.
Defined.

Lemma C6_completed_or_undated_is_filtered_witness :
  sync_page Ref.handle Ref.stdout Ref.utcnow Sample.calendars Sample.zone
    Sample.task_completed (Sample.world [Sample.task_completed])
  = (Ok tt, Sample.world [Sample.task_completed], [])
  /\ existsb is_calendar_call
       (trace_of (sync_page Ref.handle Ref.stdout Ref.utcnow Sample.calendars Sample.zone
                    Sample.task_completed (Sample.world [Sample.task_completed])))
     = false.
Proof.
  apply (C6_completed_or_undated_is_filtered Ref.handle Ref.stdout Ref.utcnow
           Sample.calendars Sample.zone Sample.task_completed
           (JDict [("name", JStr "Task p3");
                   ("due", date_range (JStr "2024-05-01") JNull);
                   ("status", JStr "Completed");
                   ("domain_id", JStr "d1");
                   ("gcal_id", JStr "")])
           (Sample.world [Sample.task_completed])).
  - reflexivity.
  - left. reflexivity.
Defined.

Lemma C1_upsert_only_when_normalized_and_mapped_witness :
  (exists props dn w1 t1 cid start_dt end_dt page_id,
     _get_task_properties Sample.task_new = Ok props /\
     _parse_notion_date (field props "due" JNull) Sample.zone
     = Ok (start_dt, end_dt) /\
     resolve_domain_name Ref.handle (field props "domain_id" JNull)
       (Sample.world [Sample.task_new]) = (Ok dn, w1, t1) /\
     (dn = JNull \/ exists s, dn = JStr s) /\
     Sample.calendars !! (match dn with JStr s => s | _ => "" end) = Some cid /\
     lookup_calendar Sample.calendars dn = Ok (Some cid) /\ cid <> "" /\
     Py.getitem Sample.task_new "id" = Ok page_id /\
     sync_page Ref.handle Ref.stdout Ref.utcnow Sample.calendars Sample.zone
       Sample.task_new (Sample.world [Sample.task_new]) =
       let '(r, w2, t2) :=
         upsert Ref.handle Ref.stdout Ref.utcnow Sample.task_new (field props "name" JNull)
           (field props "gcal_id" JNull) cid
           (event_body Sample.zone (field props "name" JNull)
              start_dt end_dt page_id) w1 in
       (r, w2, (t1 ++ t2)%list))
  /\ (outcome_of (sync_page Ref.handle Ref.stdout Ref.utcnow Sample.calendars Sample.zone
                    Sample.task_bad_date (Sample.world [Sample.task_bad_date]))
      = Ok tt /\
      existsb is_calendar_call
        (trace_of (sync_page Ref.handle Ref.stdout Ref.utcnow Sample.calendars Sample.zone
                     Sample.task_bad_date (Sample.world [Sample.task_bad_date])))
      = false /\
      existsb is_write_back
        (trace_of (sync_page Ref.handle Ref.stdout Ref.utcnow Sample.calendars Sample.zone
                     Sample.task_bad_date (Sample.world [Sample.task_bad_date])))
      = false).
Proof.
  split.
  - apply (proj1 (C1_upsert_only_when_normalized_and_mapped Ref.handle Ref.stdout Ref.utcnow
                    Sample.calendars Sample.zone Sample.task_new
                    (Sample.world [Sample.task_new]))).
    left. vm_compute. reflexivity.
  - apply (proj2 (C1_upsert_only_when_normalized_and_mapped Ref.handle Ref.stdout Ref.utcnow
                    Sample.calendars Sample.zone Sample.task_bad_date
                    (Sample.world [Sample.task_bad_date]))
             (JDict [("name", JStr "Task p8");
                     ("due", date_range (JStr "next week") JNull);
                     ("status", JStr "In progress");
                     ("domain_id", JStr "d1");
                     ("gcal_id", JStr "")])
             (JStr "Book") (Sample.world [Sample.task_bad_date])
             [Called (PagesRetrieve (JStr "d1"))
                (Ok (Sample.domain_page "d1" "Book"))]).
    + reflexivity.
    + reflexivity.
    + right. right. reflexivity.
Defined.

(** The specification's sentence, read as worded, fails when the mapping
    has an entry for the empty name: the domain of this task does not
    resolve (the lookup of its domain page fails and the domain name stays
    null), yet the task is looked up under the empty name, its event is
    created and the new id is written back. *)
Lemma C1_counterexample :
  rbind (_get_task_properties Sample.task_lost_domain)
        (fun props => Py.get props "domain_id") = Ok (JStr "d9")
  /\ is_ok (fst (Ref.handle (PagesRetrieve (JStr "d9"))
                   (Sample.world [Sample.task_lost_domain]))) = false
  /\ outcome_of (resolve_domain_name Ref.handle (JStr "d9")
                   (Sample.world [Sample.task_lost_domain])) = Ok JNull
  /\ Sample.calendars_with_fallback !! "" = Some "inbox@cal"
  /\ existsb is_calendar_call
       (trace_of (sync_page Ref.handle Ref.stdout Ref.utcnow
                    Sample.calendars_with_fallback Sample.zone
                    Sample.task_lost_domain
                    (Sample.world [Sample.task_lost_domain]))) = true
  /\ existsb is_write_back
       (trace_of (sync_page Ref.handle Ref.stdout Ref.utcnow
                    Sample.calendars_with_fallback Sample.zone
                    Sample.task_lost_domain
                    (Sample.world [Sample.task_lost_domain]))) = true.
Proof. repeat split; vm_compute; reflexivity. Qed.

Lemma C7_unmapped_name_no_calendar_call_witness :
  exists dn w1 t1,
    resolve_domain_name Ref.handle (JStr "d9")
      (Sample.world [Sample.task_lost_domain]) = (Ok dn, w1, t1) /\
    (Py.truthy (JStr "d9") = false -> dn = JNull) /\
    (is_ok (fst (Ref.handle (PagesRetrieve (JStr "d9"))
                   (Sample.world [Sample.task_lost_domain]))) = false ->
     dn = JNull) /\
    (let looked_up := match dn with JStr s => s | _ => "" end in
     Sample.calendars !! looked_up = None
     \/ Sample.calendars !! looked_up = Some "" ->
     existsb is_calendar_call
       (trace_of (sync_page Ref.handle Ref.stdout Ref.utcnow Sample.calendars Sample.zone
                    Sample.task_lost_domain
                    (Sample.world [Sample.task_lost_domain]))) = false /\
     existsb is_write_back
       (trace_of (sync_page Ref.handle Ref.stdout Ref.utcnow Sample.calendars Sample.zone
                    Sample.task_lost_domain
                    (Sample.world [Sample.task_lost_domain]))) = false).
Proof.
  apply (C7_unmapped_name_no_calendar_call Ref.handle Ref.stdout Ref.utcnow
           Sample.calendars Sample.zone Sample.task_lost_domain
           (JDict [("name", JStr "Task p7");
                   ("due", date_range (JStr "2024-05-01") JNull);
                   ("status", JStr "In progress");
                   ("domain_id", JStr "d9");
                   ("gcal_id", JStr "")])
           (JStr "d9") (Sample.world [Sample.task_lost_domain]));
    reflexivity.
Defined.

(** The specification's sentence, read as worded, fails when the mapping
    has an entry for the empty name: a task with a null domain reference,
    whose domain name therefore does not resolve, is looked up under the
    empty name and an event is created for it. *)
Lemma C7_counterexample :
  rbind (_get_task_properties Sample.task_orphan)
        (fun props => Py.get props "domain_id") = Ok JNull
  /\ outcome_of (resolve_domain_name Ref.handle JNull
                   (Sample.world [Sample.task_orphan])) = Ok JNull
  /\ Sample.calendars_with_fallback !! "" = Some "inbox@cal"
  /\ existsb is_calendar_call
       (trace_of (sync_page Ref.handle Ref.stdout Ref.utcnow Sample.calendars_with_fallback
                    Sample.zone Sample.task_orphan
                    (Sample.world [Sample.task_orphan]))) = true.
Proof. repeat split; vm_compute; reflexivity. Qed.

Lemma C8_upsert_failure_is_isolated_witness :
  (exists pre name w',
      trace_of (sync_page Ref.handle Ref.stdout Ref.utcnow Sample.calendars
                  Sample.zone Sample.task_stale
                  (Sample.world [Sample.task_stale; Sample.task_new]))
      = (pre ++ [Called
                   (EventsUpdate "book@cal" (JStr "evt-gone")
                      (event_body Sample.zone (JStr "Task p6")
                         (mkDatetime 2024 5 1 0 0 0 0 None)
                         (mkDatetime 2024 5 2 0 0 0 0 None) (JStr "p6")))
                   (Raise (Exn RemoteError "404 Not Found"));
                 Printed (error_line name (Exn RemoteError "404 Not Found"))])%list
      /\ outcome_of (sync_page Ref.handle Ref.stdout Ref.utcnow Sample.calendars
                       Sample.zone Sample.task_stale
                       (Sample.world [Sample.task_stale; Sample.task_new]))
         = fst (Ref.stdout (error_line name (Exn RemoteError "404 Not Found")) w'))
  /\ (outcome_of (sync_page Ref.handle Ref.stdout Ref.utcnow Sample.calendars
                    Sample.zone Sample.task_stale
                    (Sample.world [Sample.task_stale; Sample.task_new])) = Ok tt ->
      exists t',
        trace_of (for_each [Sample.task_stale; Sample.task_new]
                    (sync_page Ref.handle Ref.stdout Ref.utcnow Sample.calendars
                       Sample.zone)
                    (Sample.world [Sample.task_stale; Sample.task_new]))
        = (trace_of (sync_page Ref.handle Ref.stdout Ref.utcnow Sample.calendars
                       Sample.zone Sample.task_stale
                       (Sample.world [Sample.task_stale; Sample.task_new]))
           ++ trace_of (sync_page Ref.handle Ref.stdout Ref.utcnow
                          Sample.calendars Sample.zone Sample.task_new
                          (world_of
                             (sync_page Ref.handle Ref.stdout Ref.utcnow
                                Sample.calendars Sample.zone Sample.task_stale
                                (Sample.world
                                   [Sample.task_stale; Sample.task_new]))))
           ++ t')%list)
  /\ ((forall msg w0, is_ok (fst (Ref.stdout msg w0)) = true) ->
      outcome_of (sync_page Ref.handle Ref.stdout Ref.utcnow Sample.calendars
                    Sample.zone Sample.task_stale
                    (Sample.world [Sample.task_stale; Sample.task_new])) = Ok tt)
  /\ (forall e',
        outcome_of (sync_page Ref.handle Ref.stdout Ref.utcnow Sample.calendars
                      Sample.zone Sample.task_stale
                      (Sample.world [Sample.task_stale; Sample.task_new]))
        = Raise e' ->
        for_each [Sample.task_stale; Sample.task_new]
          (sync_page Ref.handle Ref.stdout Ref.utcnow Sample.calendars Sample.zone)
          (Sample.world [Sample.task_stale; Sample.task_new])
        = sync_page Ref.handle Ref.stdout Ref.utcnow Sample.calendars Sample.zone
            Sample.task_stale
            (Sample.world [Sample.task_stale; Sample.task_new]))
  /\ (forall name gcal_id cid body w',
        outcome_of (upsert Ref.handle Ref.stdout Ref.utcnow Sample.task_stale
                      name gcal_id cid body w') = Ok tt
        \/ exists pre msg w'',
             trace_of (upsert Ref.handle Ref.stdout Ref.utcnow Sample.task_stale
                         name gcal_id cid body w')
             = (pre ++ [Printed msg])%list
             /\ outcome_of (upsert Ref.handle Ref.stdout Ref.utcnow
                              Sample.task_stale name gcal_id cid body w')
                = fst (Ref.stdout msg w'')).
Proof.
  apply (C8_upsert_failure_is_isolated Ref.handle Ref.stdout Ref.utcnow
           Sample.calendars Sample.zone Sample.task_stale Sample.task_new []
           (Sample.world [Sample.task_stale; Sample.task_new])).
  - vm_compute. right. left. reflexivity.
  - left. reflexivity.
Defined.

(** The specification's sentence, read as worded, fails when the report
    cannot be printed.  The output stream here encodes in ASCII and the
    name of the first task has a character outside it: the update of its
    event fails, the report of that failure makes [print] raise, the
    exception leaves the loop, and the second task, whose event would have
    been created, is not processed; the run ends with that exception. *)
Lemma C8_counterexample :
  In (Called (EventsUpdate "book@cal" (JStr "evt-gone")
                (event_body Sample.zone
                   (JStr ("Caf" ++ String (ascii_of_nat 233) ""))
                   (mkDatetime 2024 5 1 0 0 0 0 None)
                   (mkDatetime 2024 5 2 0 0 0 0 None) (JStr "p12")))
             (Raise (Exn RemoteError "404 Not Found")))
     (trace_of (sync_page Ref.handle Ref.stdout_ascii Ref.utcnow Sample.calendars
                  Sample.zone Sample.task_accent
                  (Sample.world [Sample.task_accent; Sample.task_new])))
  /\ outcome_of (for_each [Sample.task_accent; Sample.task_new]
                   (sync_page Ref.handle Ref.stdout_ascii Ref.utcnow
                      Sample.calendars Sample.zone)
                   (Sample.world [Sample.task_accent; Sample.task_new]))
     = Raise (Exn UnicodeEncodeError
                "'ascii' codec can't encode character: ordinal not in range(128)")
  /\ for_each [Sample.task_accent; Sample.task_new]
       (sync_page Ref.handle Ref.stdout_ascii Ref.utcnow Sample.calendars
          Sample.zone)
       (Sample.world [Sample.task_accent; Sample.task_new])
     = sync_page Ref.handle Ref.stdout_ascii Ref.utcnow Sample.calendars
         Sample.zone Sample.task_accent
         (Sample.world [Sample.task_accent; Sample.task_new])
  /\ existsb is_create
       (trace_of (for_each [Sample.task_accent; Sample.task_new]
                    (sync_page Ref.handle Ref.stdout_ascii Ref.utcnow
                       Sample.calendars Sample.zone)
                    (Sample.world [Sample.task_accent; Sample.task_new])))
     = false
  /\ existsb is_create
       (trace_of (sync_page Ref.handle Ref.stdout_ascii Ref.utcnow
                    Sample.calendars Sample.zone Sample.task_new
                    (Sample.world [Sample.task_accent; Sample.task_new])))
     = true
  /\ outcome_of (sync_notion_to_calendar Ref.handle Ref.stdout_ascii Ref.utcnow
                   Sample.calendars Sample.zone "db"
                   (Sample.world [Sample.task_accent; Sample.task_new]))
     = Raise (Exn UnicodeEncodeError
                "'ascii' codec can't encode character: ordinal not in range(128)").
Proof.
  split; [vm_compute; right; left; reflexivity|].
  repeat split; vm_compute; reflexivity.
Qed.

(* ===================================================================== *)
(** ** Start-up *)
(* ===================================================================== *)

Section StartupFacts.

Lemma assoc_not_in k (kv : list (string * json)) :
  ~ In k (map fst kv) -> Py.assoc k kv = None.
Proof.
  induction kv as [|[k' v'] kv IH]; [reflexivity|].
  cbn [map fst In Py.assoc]. intros Hn.
  destruct (String.eqb_spec k k') as [->|_]; [exfalso; auto|]. apply IH. auto.
Qed.

Lemma assoc_in k v (kv : list (string * json)) :
  Py.assoc k kv = Some v -> In k (map fst kv).
Proof.
  induction kv as [|[k' v'] kv IH]; [discriminate|].
  cbn [map fst In Py.assoc].
  destruct (String.eqb_spec k k') as [->|_]; [now left|]. intros H. right. auto.
Qed.

(** The comprehension, item by item. *)
Lemma str_items_from (kv : list (string * json)) : forall (m : gmap string string) k,
  List.NoDup (map fst kv) ->
  fold_left (fun m p => <[fst p := py_str (snd p)]> m) kv m !! k
  = match Py.assoc k kv with
    | Some v => Some (py_str v)
    | None => m !! k
    end.
Proof.
  induction kv as [|[k' v'] kv IH]; intros m k Hnd; [reflexivity|].
  inversion Hnd as [|? ? Hnotin Hnd']; subst.
  cbn [fold_left fst snd Py.assoc]. rewrite IH by assumption.
  destruct (String.eqb_spec k k') as [->|Hne].
  - rewrite (assoc_not_in _ _ Hnotin). apply lookup_insert_eq.
  - destruct (Py.assoc k kv); [reflexivity|].
    apply lookup_insert_ne. congruence.
Qed.

Lemma str_items_lookup (kv : list (string * json)) k :
  List.NoDup (map fst kv) ->
  str_items kv !! k = py_str <$> Py.assoc k kv.
Proof.
  intros Hnd. unfold str_items. rewrite str_items_from by assumption.
  destruct (Py.assoc k kv); reflexivity.
Qed.

Lemma get_env_required (env : gmap string string) name :
  _get_env env name true =
  if falsy (env !! name)
  then Failed (RuntimeError ("Missing required environment variable: " ++ name))
  else Done (env !! name).
Proof. reflexivity. Qed.

Lemma falsy_false (o : option string) :
  falsy o = false -> exists s, o = Some s /\ s <> "".
Proof.
  destruct o as [s|]; [|discriminate]. cbn.
  destruct (String.eqb_spec s ""); [discriminate|]. eauto.
Qed.

Context {W : Type}.
Variable json_loads : option string -> attempt json.
Variables (Notion Credentials Service : Type).
Variable NotionClient : option string -> attempt Notion.
Variable from_service_account_info : json -> list string -> attempt Credentials.
Variable build : string -> string -> Credentials -> attempt Service.
Variable answer : Notion -> Service -> call -> W -> result json * W.
Variable stdout : string -> W -> result unit * W.
Variable utcnow : W -> datetime.

(** [main] once the four required variables are set. *)
Lemma main_configured (env : gmap string string) (w : W) :
  find (fun n => falsy (env !! n)) required_variables = None ->
  main json_loads Notion Credentials Service NotionClient
    from_service_account_info build answer stdout utcnow env w =
  match _parse_calendar_mapping json_loads (env !! "DOMAIN_CALENDAR_MAPPING") with
  | Failed e => (Failed e, w, [])
  | Done calendar_map =>
    match NotionClient (env !! "NOTION_API_TOKEN") with
    | Failed e => (Failed e, w, [])
    | Done notion =>
      match _get_google_service json_loads Credentials Service
              from_service_account_info build
              (env !! "GOOGLE_SERVICE_ACCOUNT_JSON") with
      | Failed e => (Failed e, w, [])
      | Done gcal_service =>
        let '(r, w', t) :=
          sync_notion_to_calendar (answer notion gcal_service) stdout utcnow
            calendar_map (getenv_default env "TIMEZONE" "America/New_York")
            (default "" (env !! "NOTION_TASKS_DB_ID")) w in
        (of_result r, w', t)
      end
    end
  end.
Proof.
  unfold required_variables. cbn [find].
  destruct (falsy (env !! "NOTION_API_TOKEN")) eqn:H1; [discriminate|].
  destruct (falsy (env !! "NOTION_TASKS_DB_ID")) eqn:H2; [discriminate|].
  destruct (falsy (env !! "DOMAIN_CALENDAR_MAPPING")) eqn:H3; [discriminate|].
  destruct (falsy (env !! "GOOGLE_SERVICE_ACCOUNT_JSON")) eqn:H4; [discriminate|].
  intros _. unfold main, starting. rewrite !get_env_required, H1, H2, H3, H4.
  destruct (_parse_calendar_mapping _ _); [|reflexivity].
  destruct (NotionClient _); [|reflexivity].
  destruct (_get_google_service _ _ _ _ _ _); [|reflexivity].
  destruct (falsy_false _ H2) as (db & -> & _). reflexivity.
Qed.

(** Unless the whole configuration is in place, [main] ends with an
    exception where it started. *)
Lemma main_not_configured (env : gmap string string) (w : W) name :
  find (fun n => falsy (env !! n)) required_variables = Some name ->
  main json_loads Notion Credentials Service NotionClient
    from_service_account_info build answer stdout utcnow env w
  = (Failed (RuntimeError ("Missing required environment variable: " ++ name)),
     w, []).
Proof.
  unfold required_variables. cbn [find]. unfold main, starting.
  rewrite !get_env_required.
  repeat match goal with
         | |- context [falsy ?o] => destruct (falsy o)
         end; intros [= <-]; reflexivity.
Qed.

End StartupFacts.

Section StartupProperties.

Context {W : Type}.
Variable json_loads : option string -> attempt json.
Variables (Notion Credentials Service : Type).
Variable NotionClient : option string -> attempt Notion.
Variable from_service_account_info : json -> list string -> attempt Credentials.
Variable build : string -> string -> Credentials -> attempt Service.
Variable answer : Notion -> Service -> call -> W -> result json * W.
Variable stdout : string -> W -> result unit * W.
Variable utcnow : W -> datetime.

(** X1.  When one of the four required variables is unset or set to the
    empty string, [main] raises [RuntimeError] naming the first such
    variable in the order NOTION_API_TOKEN, NOTION_TASKS_DB_ID,
    DOMAIN_CALENDAR_MAPPING, GOOGLE_SERVICE_ACCOUNT_JSON; nothing is parsed,
    no client is made and no remote call is sent. *)
Theorem X1_main_names_first_missing_variable
  (env : gmap string string) (w : W) (name : string) :
  find (fun n => falsy (getenv env n)) required_variables = Some name ->
  main json_loads Notion Credentials Service NotionClient
    from_service_account_info build answer stdout utcnow env w
  = (Failed (RuntimeError ("Missing required environment variable: " ++ name)),
     w, []).
Proof. apply main_not_configured. Qed.

(** X2.  With the four required variables set, a mapping text that is not
    valid JSON makes [main] raise [ValueError] "DOMAIN_CALENDAR_MAPPING must
    be valid JSON", and one that is valid JSON but not an object makes it
    raise [ValueError] "Mapping must be a JSON object"; either way before
    any client is made and with no remote call sent. *)
Theorem X2_main_rejects_bad_mapping (env : gmap string string) (w : W) :
  find (fun n => falsy (getenv env n)) required_variables = None ->
  (forall msg,
      json_loads (getenv env "DOMAIN_CALENDAR_MAPPING")
      = Failed (JSONDecodeError msg) ->
      main json_loads Notion Credentials Service NotionClient
    from_service_account_info build answer stdout utcnow env w
      = (Failed (OfClass (Exn ValueError
                            "DOMAIN_CALENDAR_MAPPING must be valid JSON")),
         w, []))
  /\ (forall v,
      json_loads (getenv env "DOMAIN_CALENDAR_MAPPING") = Done v ->
      is_dict v = false ->
      main json_loads Notion Credentials Service NotionClient
    from_service_account_info build answer stdout utcnow env w
      = (Failed (OfClass (Exn ValueError "Mapping must be a JSON object")),
         w, [])).
Proof.
  intros Hc. split.
  - intros msg Hl. rewrite main_configured by exact Hc.
    unfold _parse_calendar_mapping. unfold getenv in Hl. now rewrite Hl.
  - intros v Hl Hv. rewrite main_configured by exact Hc.
    unfold _parse_calendar_mapping. unfold getenv in Hl. rewrite Hl.
    destruct v; try reflexivity. discriminate.
Qed.

(** X3.  With the four required variables set to non-empty texts, the
    mapping text a JSON object, and both clients made, [main] is one run of
    the sync: on the database NOTION_TASKS_DB_ID, with the parsed mapping,
    and with the timezone TIMEZONE, which is "America/New_York" when the
    variable is unset and the variable's value, even empty, when it is
    set. *)
Theorem X3_main_runs_the_sync
  (env : gmap string string) (w : W) (token db mapping creds : string)
  (kv : list (string * json)) (notion : Notion) (gcal_service : Service) :
  getenv env "NOTION_API_TOKEN" = Some token -> token <> "" ->
  getenv env "NOTION_TASKS_DB_ID" = Some db -> db <> "" ->
  getenv env "DOMAIN_CALENDAR_MAPPING" = Some mapping -> mapping <> "" ->
  getenv env "GOOGLE_SERVICE_ACCOUNT_JSON" = Some creds -> creds <> "" ->
  json_loads (Some mapping) = Done (JDict kv) ->
  NotionClient (Some token) = Done notion ->
  _get_google_service json_loads Credentials Service
    from_service_account_info build (Some creds) = Done gcal_service ->
  let timezone :=
    match getenv env "TIMEZONE" with
    | Some tz => tz
    | None => "America/New_York"
    end in
  main json_loads Notion Credentials Service NotionClient
    from_service_account_info build answer stdout utcnow env w
  = let '(r, w', t) :=
      sync_notion_to_calendar (answer notion gcal_service) stdout utcnow
        (str_items kv) timezone db w in
    (of_result r, w', t).
Proof.
  unfold getenv. intros Ht Ht' Hd Hd' Hm Hm' Hc Hc' Hl Hn Hs. cbn zeta.
  rewrite main_configured.
  2:{ unfold required_variables. cbn [find]. rewrite Ht, Hd, Hm, Hc. cbn [falsy].
      apply String.eqb_neq in Ht', Hd', Hm', Hc'.
      now rewrite Ht', Hd', Hm', Hc'. }
  unfold _parse_calendar_mapping. rewrite Hm, Hl, Ht, Hn, Hc, Hs, Hd.
  unfold getenv_default. cbn [default].
  destruct (env !! "TIMEZONE"); reflexivity.
Qed.

(** X4.  When the mapping text is a JSON object, the parsed mapping has
    exactly the keys of the object, and every key whose value is a string
    is mapped to that string unchanged. *)
Theorem X4_mapping_keeps_string_entries
  (mapping_str : option string) (kv : list (string * json)) :
  json_loads mapping_str = Done (JDict kv) ->
  List.NoDup (map fst kv) ->
  exists m,
    _parse_calendar_mapping json_loads mapping_str = Done m
    /\ (forall k, m !! k = None <-> Py.assoc k kv = None)
    /\ (forall k s, Py.assoc k kv = Some (JStr s) -> m !! k = Some s).
Proof.
  intros Hl Hnd. exists (str_items kv). unfold _parse_calendar_mapping.
  rewrite Hl. split; [reflexivity|]. split.
  - intros k. rewrite str_items_lookup by assumption.
    destruct (Py.assoc k kv); cbn; split; congruence.
  - intros k s Hk. rewrite str_items_lookup by assumption. now rewrite Hk.
Qed.

(** X5.  A calendar id given as [null] in the mapping becomes the text
    "None", which is a calendar id like any other: a task of that domain
    that is due, not completed and has a readable date is not skipped, and
    its calendar call is addressed to the calendar "None". *)
Theorem X5_null_calendar_id_becomes_text
  (mapping_str : option string) (kv : list (string * json)) (k : string)
  (handle : call -> W -> result json * W) (tz : string)
  (page props pid : json) (w w1 : W) (t1 : list event) (sd ed : datetime) :
  json_loads mapping_str = Done (JDict kv) ->
  List.NoDup (map fst kv) ->
  Py.assoc k kv = Some JNull ->
  _get_task_properties page = Ok props ->
  Py.eq_str (field props "status" JNull) "Completed"
    || Py.is_none (field props "due" JNull) = false ->
  resolve_domain_name handle (field props "domain_id" JNull) w
  = (Ok (JStr k), w1, t1) ->
  _parse_notion_date (field props "due" JNull) tz = Ok (sd, ed) ->
  Py.getitem page "id" = Ok pid ->
  exists m,
    _parse_calendar_mapping json_loads mapping_str = Done m
    /\ m !! k = Some "None"
    /\ exists ev,
         In ev (trace_of (sync_page handle stdout utcnow m tz page w))
         /\ calendar_of ev = Some "None".
Proof.
  intros Hl Hnd Hk Hx Hf Hr Hp Hi. exists (str_items kv).
  unfold _parse_calendar_mapping. rewrite Hl. split; [reflexivity|].
  assert (Hm : str_items kv !! k = Some "None").
  { rewrite str_items_lookup by assumption. now rewrite Hk. }
  split; [exact Hm|].
  assert (Hlk : lookup_calendar (str_items kv) (JStr k) = Ok (Some "None")).
  { unfold lookup_calendar. cbn [Py.truthy].
    destruct (String.eqb_spec k "") as [->|_]; cbn [negb]; now rewrite Hm. }
  rewrite (sync_page_upsert handle stdout utcnow (str_items kv) tz page w
             props (JStr k) w1 t1 "None" sd ed pid)
    by (try assumption; discriminate).
  pose proof (upsert_trace handle stdout utcnow page (field props "name" JNull)
                (field props "gcal_id" JNull) "None"
                (event_body tz (field props "name" JNull) sd ed pid) w1) as Hu.
  cbn zeta in Hu.
  destruct (upsert handle stdout utcnow _ _ _ _ _ w1) as [[r w2] t2].
  cbn [trace_of snd] in Hu |- *.
  destruct (Py.truthy (field props "gcal_id" JNull)).
  - destruct Hu as (r' & more & -> & _). eexists. split.
    + apply in_or_app. right. left. reflexivity.
    + reflexivity.
  - destruct Hu as (r' & more & -> & _). eexists. split.
    + apply in_or_app. right. left. reflexivity.
    + reflexivity.
Qed.

(** X6.  [main] sends nothing before the configuration is complete: when
    a run of [main] leaves any event, the four required variables were
    set, the mapping was parsed, and both clients were made. *)
Theorem X6_no_call_before_configuration (env : gmap string string) (w : W) :
  snd (main json_loads Notion Credentials Service NotionClient
    from_service_account_info build answer stdout utcnow env w) <> [] ->
  find (fun n => falsy (getenv env n)) required_variables = None
  /\ is_done (_parse_calendar_mapping json_loads
                (getenv env "DOMAIN_CALENDAR_MAPPING")) = true
  /\ is_done (NotionClient (getenv env "NOTION_API_TOKEN")) = true
  /\ is_done (_get_google_service json_loads Credentials Service
                from_service_account_info build
                (getenv env "GOOGLE_SERVICE_ACCOUNT_JSON")) = true.
Proof.
  intros Ht. unfold getenv.
  destruct (find (fun n => falsy (env !! n)) required_variables) as [name|] eqn:Hc.
  { rewrite (main_not_configured _ _ _ _ _ _ _ _ _ _ _ _ name Hc) in Ht.
    now contradiction Ht. }
  split; [reflexivity|].
  rewrite main_configured in Ht by exact Hc.
  destruct (_parse_calendar_mapping _ _); [|now contradiction Ht].
  destruct (NotionClient _); [|now contradiction Ht].
  destruct (_get_google_service _ _ _ _ _ _); [|now contradiction Ht].
  now repeat split.
Qed.

End StartupProperties.

(* ===================================================================== *)
(** ** The loop, call by call *)
(* ===================================================================== *)

Section LoopFacts.

Context {W : Type}.
Variable handle : call -> W -> result json * W.
Variable stdout : string -> W -> result unit * W.
Variable utcnow : W -> datetime.
Variable calendar_map : gmap string string.
Variable tz : string.


(** The name given to the mapping is a string or [None], so the lookup
    does not raise. *)
Lemma lookup_after_resolve domain_id w dn w1 t1 :
  resolve_domain_name handle domain_id w = (Ok dn, w1, t1) ->
  exists o, lookup_calendar calendar_map dn = Ok o.
Proof.
  intros Hr.
  destruct (resolve_domain_name_spec handle domain_id w)
    as (dn' & w1' & t1' & Hr' & Hshape & _).
  rewrite Hr in Hr'. inversion Hr'; subst.
  unfold lookup_calendar.
  destruct Hshape as [-> | [s ->]]; [eauto|].
  destruct (Py.truthy (JStr s)); eauto.
Qed.

(** The events of the domain lookup and of the upsert step, by stage. *)
Lemma resolve_stages domain_id w :
  let t := trace_of (resolve_domain_name handle domain_id w) in
  t = [] \/ exists r, t = [Called (PagesRetrieve domain_id) r].
Proof.
  cbn zeta. rewrite resolve_domain_name_eq.
  destruct (Py.truthy domain_id); [|now left]. cbn zeta.
  destruct (handle _ w) as [[p|e] w1]; right; eauto.
Qed.

Lemma upsert_stages page name gcal_id cid body w :
  let t := trace_of (upsert handle stdout utcnow page name gcal_id cid body w) in
  ascending (map stage t) = true /\ Forall (fun ev => (2 <= stage ev)%nat) t.
Proof.
  cbn zeta. destruct (Py.truthy gcal_id) eqn:Hg.
  - rewrite upsert_update by assumption. cbn zeta.
    destruct (handle _ w) as [[r|e] w1]; [|destruct (stdout _ w1)];
      cbn; split; try reflexivity; repeat constructor.
  - rewrite upsert_create by assumption. cbn zeta.
    destruct (handle _ w) as [[created|e] w1];
      [|destruct (stdout _ w1); cbn; split; [reflexivity|repeat constructor]].
    destruct (Py.get created "id") as [gid|e];
      [|destruct (stdout _ w1); cbn; split; [reflexivity|repeat constructor]].
    destruct (Py.getitem page "id") as [pid|e];
      [|destruct (stdout _ w1); cbn; split; [reflexivity|repeat constructor]].
    destruct (handle _ w1) as [[r|e] w2]; [|destruct (stdout _ w2)];
      cbn; split; try reflexivity; repeat constructor.
Qed.

Lemma ascending_after_lookup ev t :
  stage ev = 1%nat ->
  ascending (map stage t) = true -> Forall (fun ev => (2 <= stage ev)%nat) t ->
  ascending (map stage (ev :: t)) = true.
Proof.
  intros He Ha Hf. destruct t as [|ev' t]; [reflexivity|].
  cbn [map ascending] in *. rewrite Ha, He. inversion Hf; subst.
  rewrite andb_true_r. apply Nat.ltb_lt. lia.
Qed.

(** One iteration: at most a domain lookup, then the events of the upsert
    step in the order calendar call, write-back, report. *)
Lemma sync_page_stages page w :
  let t := trace_of ((sync_page handle stdout utcnow calendar_map tz) page w) in
  ascending (map stage t) = true /\ Forall (fun ev => (1 <= stage ev)%nat) t.
Proof.
  cbn zeta. rewrite sync_page_eq.
  destruct (_get_task_properties page) as [props|e]; [|now split].
  cbn zeta.
  destruct (Py.eq_str _ "Completed" || Py.is_none _); [now split|].
  pose proof (resolve_stages (field props "domain_id" JNull) w) as Hs.
  cbn zeta in Hs.
  destruct (resolve_domain_name handle _ w) as [[[dn|e] w1] t1] eqn:Hr.
  2:{ cbn [trace_of snd] in *. destruct Hs as [-> | [r ->]]; split;
        repeat constructor. }
  cbn [rbind trace_of snd] in *.
  assert (Ht1 : ascending (map stage t1) = true
                /\ Forall (fun ev => (1 <= stage ev)%nat) t1).
  { destruct Hs as [-> | [r ->]]; split; repeat constructor. }
  destruct (lookup_calendar calendar_map dn) as [[cid|]|e]; try exact Ht1.
  destruct (String.eqb cid ""); [exact Ht1|].
  destruct (_parse_notion_date _ tz) as [[sd ed]|e]; [|exact Ht1].
  destruct (Py.getitem page "id") as [pid|e]; [|exact Ht1].
  pose proof (upsert_stages page (field props "name" JNull)
                (field props "gcal_id" JNull) cid
                (event_body tz (field props "name" JNull) sd ed pid) w1) as Hu.
  cbn zeta in Hu.
  destruct (upsert handle stdout utcnow _ _ _ _ _ w1) as [[r w2] t2].
  cbn [trace_of snd] in *. destruct Hu as [Hu1 Hu2].
  destruct Hs as [-> | [r' ->]]; cbn [app].
  - split; [exact Hu1|]. eapply Forall_impl; [exact Hu2|]. cbn. intros; lia.
  - split; [now apply ascending_after_lookup|].
    constructor; [cbn; lia|]. eapply Forall_impl; [exact Hu2|]. cbn. intros; lia.
Qed.


Lemma ascending_length : forall l a,
  ascending (a :: l) = true -> Forall (fun n => (n <= 4)%nat) (a :: l) ->
  (length (a :: l) + a <= 5)%nat.
Proof.
  induction l as [|b l IH]; intros a Ha Hf.
  - inversion Hf; subst. cbn. lia.
  - cbn [ascending] in Ha. apply andb_true_iff in Ha as [Hab Ha].
    apply Nat.ltb_lt in Hab. inversion Hf; subst.
    specialize (IH b Ha ltac:(assumption)). cbn [length] in *. lia.
Qed.

Lemma stage_le_4 ev : (stage ev <= 4)%nat.
Proof. destruct ev as [[]|]; cbn; lia. Qed.

Lemma stage_query ev : is_query ev = true <-> stage ev = 0%nat.
Proof. destruct ev as [[]|]; cbn; split; congruence. Qed.

Lemma no_query_of_stages t :
  Forall (fun ev => (1 <= stage ev)%nat) t -> existsb is_query t = false.
Proof.
  induction 1 as [|ev t Hev _ IH]; [reflexivity|]. cbn [existsb].
  rewrite IH, orb_false_r. destruct (is_query ev) eqn:Hq; [|reflexivity].
  apply stage_query in Hq. lia.
Qed.

(** An exception leaves the upsert step only from [print], on the report
    of a failure, after the calendar call. *)
Lemma upsert_raise page name gcal_id cid body w e :
  outcome_of (upsert handle stdout utcnow page name gcal_id cid body w) = Raise e ->
  exists pre e0 w',
    trace_of (upsert handle stdout utcnow page name gcal_id cid body w)
    = (pre ++ [Printed (error_line name e0)])%list
    /\ existsb is_calendar_call pre = true
    /\ fst (stdout (error_line name e0) w') = Raise e.
Proof.
  destruct (Py.truthy gcal_id) eqn:Hg.
  - rewrite upsert_update by assumption. cbn zeta.
    destruct (handle _ w) as [[r|e0] w1]; [discriminate|].
    destruct (stdout _ w1) as [r w2] eqn:Hs. cbn. intros ->.
    exists [Called (EventsUpdate cid gcal_id body) (Raise e0)], e0, w1.
    now rewrite Hs.
  - rewrite upsert_create by assumption. cbn zeta.
    destruct (handle _ w) as [[created|e0] w1].
    2:{ destruct (stdout _ w1) as [r w2] eqn:Hs. cbn. intros ->.
        exists [Called (EventsInsert cid body) (Raise e0)], e0, w1.
        now rewrite Hs. }
    destruct (Py.get created "id") as [gid|e0].
    2:{ destruct (stdout _ w1) as [r w2] eqn:Hs. cbn. intros ->.
        exists [Called (EventsInsert cid body) (Ok created)], e0, w1.
        now rewrite Hs. }
    destruct (Py.getitem page "id") as [pid|e0].
    2:{ destruct (stdout _ w1) as [r w2] eqn:Hs. cbn. intros ->.
        exists [Called (EventsInsert cid body) (Ok created)], e0, w1.
        now rewrite Hs. }
    destruct (handle _ w1) as [[r|e0] w2]; [discriminate|].
    destruct (stdout _ w2) as [r w3] eqn:Hs. cbn. intros ->.
    eexists [Called (EventsInsert cid body) (Ok created); _], e0, w2.
    now rewrite Hs.
Qed.

(** An exception leaves an iteration only from the extractor or from
    [page['id']], and then nothing was sent to the calendar, or from
    [print] on the report of a failed upsert step. *)
Lemma sync_page_raise page w e :
  outcome_of ((sync_page handle stdout utcnow calendar_map tz) page w) = Raise e ->
  ((_get_task_properties page = Raise e
    \/ (is_ok (_get_task_properties page) = true
        /\ Py.getitem page "id" = Raise e))
   /\ quiet (trace_of ((sync_page handle stdout utcnow calendar_map tz) page w)))
  \/ (exists pre name e0 w',
        trace_of ((sync_page handle stdout utcnow calendar_map tz) page w)
        = (pre ++ [Printed (error_line name e0)])%list
        /\ existsb is_calendar_call pre = true
        /\ fst (stdout (error_line name e0) w') = Raise e).
Proof.
  rewrite sync_page_eq.
  destruct (_get_task_properties page) as [props|e0] eqn:Hx.
  2:{ cbn. intros [= ->]. left. split; [now left|now split]. }
  cbn zeta.
  destruct (Py.eq_str _ "Completed" || Py.is_none _); [discriminate|].
  pose proof (resolve_quiet handle (field props "domain_id" JNull) w) as Hq.
  destruct (resolve_domain_name_spec handle (field props "domain_id" JNull) w)
    as (dn & w1 & t1 & Hr & _ & _).
  destruct (lookup_after_resolve _ _ _ _ _ Hr) as [o Hl].
  rewrite Hr in Hq |- *. cbn [rbind trace_of snd] in Hq |- *. rewrite Hl.
  destruct o as [cid|]; [|discriminate].
  destruct (String.eqb cid ""); [discriminate|].
  destruct (_parse_notion_date _ tz) as [[sd ed]|e1]; [|discriminate].
  destruct (Py.getitem page "id") as [pid|e1] eqn:Hi.
  - pose proof (upsert_raise page (field props "name" JNull)
                  (field props "gcal_id" JNull) cid
                  (event_body tz (field props "name" JNull) sd ed pid) w1 e) as Hu.
    destruct (upsert handle stdout utcnow _ _ _ _ _ w1) as [[r w2] t2].
    cbn [outcome_of trace_of fst snd] in Hu |- *. intros Hr'.
    destruct (Hu Hr') as (pre & e0 & w' & -> & Hpre & Hs).
    right. exists (t1 ++ pre)%list, (field props "name" JNull), e0, w'.
    split; [now rewrite app_assoc|]. split; [|exact Hs].
    rewrite existsb_app, Hpre. apply orb_true_r.
  - cbn. intros [= ->]. left. split; [right; now split|exact Hq].
Qed.

(** The loop over a list in two parts. *)
Lemma for_each_app pre rest (body : json -> M W unit) : forall w,
  for_each (pre ++ rest) body w =
  match for_each pre body w with
  | (Ok _, w1, t1) =>
      let '(r, w2, t2) := for_each rest body w1 in (r, w2, (t1 ++ t2)%list)
  | (Raise e, w1, t1) => (Raise e, w1, t1)
  end.
Proof.
  induction pre as [|x pre IH]; intros w.
  - cbn [app for_each]. unfold ret.
    now destruct (for_each rest body w) as [[r w2] t2].
  - cbn [app]. rewrite !for_each_cons.
    destruct (body x w) as [[[u|e] w1] t1]; [|reflexivity].
    rewrite IH. destruct (for_each pre body w1) as [[[u'|e] w2] t2];
      [|reflexivity].
    destruct (for_each rest body w2) as [[r w3] t3].
    now rewrite app_assoc.
Qed.

Lemma for_each_in l (body : json -> M W unit) ev : forall w,
  In ev (trace_of (for_each l body w)) ->
  exists x w', In x l /\ In ev (trace_of (body x w')).
Proof.
  induction l as [|x l IH]; intros w Hin; [contradiction|].
  rewrite for_each_cons in Hin.
  destruct (body x w) as [[[u|e] w1] t1] eqn:Hb.
  - destruct (for_each l body w1) as [[r w2] t2] eqn:Hf.
    cbn [trace_of snd] in Hin. apply in_app_or in Hin as [Hin|Hin].
    + exists x, w. split; [now left|]. now rewrite Hb.
    + destruct (IH w1) as (y & w' & Hy & Hev); [now rewrite Hf|].
      exists y, w'. split; [now right|assumption].
  - exists x, w. split; [now left|]. now rewrite Hb.
Qed.

Lemma existsb_false_in {A} (f : A -> bool) l x :
  existsb f l = false -> In x l -> f x = false.
Proof.
  intros He Hin. destruct (f x) eqn:Hf; [|reflexivity].
  rewrite <- He. symmetry. apply existsb_exists. eauto.
Qed.

Lemma lookup_calendar_key dn cid :
  lookup_calendar calendar_map dn = Ok (Some cid) ->
  exists k, calendar_map !! k = Some cid.
Proof.
  unfold lookup_calendar.
  destruct (if Py.truthy dn then dn else JStr "") as [| | |k| |];
    try discriminate.
  intros [= H]. eauto.
Qed.

(** A calendar call of an iteration: where it goes and what it carries. *)
Lemma sync_page_calendar_call page w ev :
  In ev (trace_of ((sync_page handle stdout utcnow calendar_map tz) page w)) -> is_calendar_call ev = true ->
  exists props sd ed pid cid k,
    _get_task_properties page = Ok props /\
    _parse_notion_date (field props "due" JNull) tz = Ok (sd, ed) /\
    Py.getitem page "id" = Ok pid /\
    calendar_map !! k = Some cid /\ cid <> "" /\
    calendar_of ev = Some cid /\
    body_of ev = Some (event_body tz (field props "name" JNull) sd ed pid).
Proof.
  intros Hin Hc.
  destruct (sync_page_inv handle stdout utcnow calendar_map tz page w)
    as [[Hq _] | (props & dn & w1 & t1 & cid & sd & ed & pid &
                  Hx & Hf & Hr & Hl & Hne & Hp & Hi)].
  { rewrite (existsb_false_in _ _ _ Hq Hin) in Hc. discriminate. }
  rewrite (sync_page_upsert handle stdout utcnow calendar_map tz page w
             props dn w1 t1 cid sd ed pid) in Hin by assumption.
  pose proof (upsert_trace handle stdout utcnow page (field props "name" JNull)
                (field props "gcal_id" JNull) cid
                (event_body tz (field props "name" JNull) sd ed pid) w1) as Hu.
  cbn zeta in Hu.
  destruct (upsert handle stdout utcnow _ _ _ _ _ w1) as [[r w2] t2].
  cbn [trace_of snd] in Hin, Hu.
  destruct (lookup_calendar_key _ _ Hl) as [k Hk].
  apply in_app_or in Hin as [Hin|Hin].
  { pose proof (resolve_quiet handle (field props "domain_id" JNull) w) as [Hq _].
    rewrite Hr in Hq. cbn [trace_of snd] in Hq.
    rewrite (existsb_false_in _ _ _ Hq Hin) in Hc. discriminate. }
  exists props, sd, ed, pid, cid, k.
  do 5 (split; [assumption|]).
  destruct (Py.truthy (field props "gcal_id" JNull)).
  - destruct Hu as (r' & more & -> & Hmore).
    destruct Hin as [<-|Hin]; [now split|].
    rewrite Forall_forall in Hmore. apply list_elem_of_In in Hin.
    destruct (Hmore _ Hin) as [msg ->]. discriminate.
  - destruct Hu as (r' & more & -> & Hmore & _).
    destruct Hin as [<-|Hin]; [now split|].
    rewrite (existsb_false_in _ _ _ Hmore Hin) in Hc. discriminate.
Qed.

(** The events of an iteration that is not filtered out: those of the
    domain lookup, then those of the upsert step. *)
Lemma sync_page_trace page props w :
  _get_task_properties page = Ok props ->
  Py.eq_str (field props "status" JNull) "Completed"
    || Py.is_none (field props "due" JNull) = false ->
  exists t2,
    trace_of ((sync_page handle stdout utcnow calendar_map tz) page w)
    = (trace_of (resolve_domain_name handle (field props "domain_id" JNull) w)
       ++ t2)%list
    /\ Forall (fun ev => (2 <= stage ev)%nat) t2.
Proof.
  intros Hx Hf. rewrite sync_page_eq, Hx. cbn zeta. rewrite Hf.
  destruct (resolve_domain_name handle _ w) as [[[dn|e] w1] t1].
  2:{ exists []. now rewrite app_nil_r. }
  cbn [rbind trace_of snd].
  destruct (lookup_calendar calendar_map dn) as [[cid|]|e];
    try (exists []; now rewrite app_nil_r).
  destruct (String.eqb cid ""); [exists []; now rewrite app_nil_r|].
  destruct (_parse_notion_date _ tz) as [[sd ed]|e];
    [|exists []; now rewrite app_nil_r].
  destruct (Py.getitem page "id") as [pid|e];
    [|exists []; now rewrite app_nil_r].
  pose proof (upsert_stages page (field props "name" JNull)
                (field props "gcal_id" JNull) cid
                (event_body tz (field props "name" JNull) sd ed pid) w1)
    as [_ Hu].
  destruct (upsert handle stdout utcnow _ _ _ _ _ w1) as [[r w2] t2].
  exists t2. now split.
Qed.

Lemma no_lookup_of_stages (t : list event) :
  Forall (fun ev => (2 <= stage ev)%nat) t -> existsb is_lookup t = false.
Proof.
  induction 1 as [|ev t Hev _ IH]; [reflexivity|]. cbn [existsb].
  rewrite IH, orb_false_r. destruct ev as [[]|]; cbn in *; try reflexivity; lia.
Qed.


(** The run after the query. *)
Lemma sync_run_eq db w :
  sync_notion_to_calendar handle stdout utcnow calendar_map tz db w =
  let c := DatabasesQuery db in
  match handle c w with
  | (Raise e, w1) => (Raise e, w1, [Called c (Raise e)])
  | (Ok tasks, w1) =>
      match rbind (Py.get_default tasks "results" (JList [])) Py.iter with
      | Raise e => (Raise e, w1, [Called c (Ok tasks)])
      | Ok pages =>
          let '(r, w2, t2) := for_each pages (sync_page handle stdout utcnow calendar_map tz) w1 in
          (r, w2, Called c (Ok tasks) :: t2)
      end
  end.
Proof.
  unfold sync_notion_to_calendar. unfold bind at 1. unfold remote. cbn zeta.
  destruct (handle (DatabasesQuery db) w) as [[tasks|e] w1]; [|reflexivity].
  rewrite bind_lift.
  destruct (Py.get_default tasks "results" (JList [])) as [results|e];
    [|reflexivity].
  cbn [rbind]. rewrite bind_lift.
  destruct (Py.iter results) as [pages|e]; [|reflexivity].
  now destruct (for_each pages _ w1) as [[r w2] t2].
Qed.

End LoopFacts.

Section LoopProperties.

Context {W : Type}.
Variable handle : call -> W -> result json * W.
Variable stdout : string -> W -> result unit * W.
Variable utcnow : W -> datetime.
Variable calendar_map : gmap string string.
Variable tz : string.


(** X7.  One iteration of the loop leaves at most four events, in this
    order: at most one domain lookup, at most one calendar call, at most
    one write-back, at most one printed report; it never queries the
    database. *)
Theorem X7_iteration_call_order (page : json) (w : W) :
  let t := trace_of ((sync_page handle stdout utcnow calendar_map tz) page w) in
  ascending (map stage t) = true
  /\ existsb is_query t = false
  /\ (length t <= 4)%nat.
Proof.
  cbn zeta. destruct (sync_page_stages handle stdout utcnow calendar_map tz page w)
    as [Ha Hf]. cbn zeta in Ha, Hf.
  split; [exact Ha|]. split; [now apply no_query_of_stages|].
  destruct (trace_of ((sync_page handle stdout utcnow calendar_map tz) page w)) as [|ev t]; [cbn; lia|].
  cbn [map] in Ha.
  pose proof (ascending_length (map stage t) (stage ev) Ha) as Hlen.
  inversion Hf; subst. cbn [length] in *. rewrite length_map in Hlen.
  assert (Hall : Forall (fun n => (n <= 4)%nat) (stage ev :: map stage t)).
  { change (stage ev :: map stage t) with (map stage (ev :: t)).
    apply Forall_map, Forall_forall. intros; apply stage_le_4. }
  specialize (Hlen Hall). lia.
Qed.

(** X8.  An exception leaves an iteration of the loop only in one of
    three ways: the extractor raised it; reading [page['id']] raised it
    after the extractor returned; or [print] raised it on the report of a
    failure of the upsert step.  In the first two cases the iteration has
    made no calendar call and no write-back; in the third a calendar call
    was made, and the report handed to [print] is the last event of the
    iteration. *)
Theorem X8_escaping_exception_origin (page : json) (w : W) (e : exn) :
  outcome_of ((sync_page handle stdout utcnow calendar_map tz) page w) = Raise e ->
  ((_get_task_properties page = Raise e
    \/ (is_ok (_get_task_properties page) = true
        /\ Py.getitem page "id" = Raise e))
   /\ existsb is_calendar_call (trace_of ((sync_page handle stdout utcnow calendar_map tz) page w)) = false
   /\ existsb is_write_back (trace_of ((sync_page handle stdout utcnow calendar_map tz) page w)) = false)
  \/ (exists pre name e0 w',
        trace_of ((sync_page handle stdout utcnow calendar_map tz) page w)
        = (pre ++ [Printed (error_line name e0)])%list
        /\ existsb is_calendar_call pre = true
        /\ fst (stdout (error_line name e0) w') = Raise e).
Proof.
  intros H. destruct (sync_page_raise handle stdout utcnow calendar_map tz page w e H)
    as [[Ho [Hc Hw]] | Hp]; [left; auto|right; exact Hp].
Qed.

(** X9.  A record on which the extractor raises ends the loop: the
    exception leaves the loop, and the records after it are never
    processed, so the run is the same as if the list ended with that
    record. *)
Theorem X9_extractor_failure_ends_the_loop
  (pre rest : list json) (page : json) (w : W) (e : exn) :
  _get_task_properties page = Raise e ->
  for_each (pre ++ page :: rest) (sync_page handle stdout utcnow calendar_map tz) w
  = for_each (pre ++ [page]) (sync_page handle stdout utcnow calendar_map tz) w
  /\ is_ok (outcome_of (for_each (pre ++ page :: rest) (sync_page handle stdout utcnow calendar_map tz) w)) = false.
Proof.
  intros Hx.
  assert (Hp : forall l w1, for_each (page :: l) (sync_page handle stdout utcnow calendar_map tz) w1 = (Raise e, w1, [])).
  { intros l w1. rewrite for_each_cons, sync_page_eq, Hx. reflexivity. }
  rewrite !for_each_app.
  destruct (for_each pre (sync_page handle stdout utcnow calendar_map tz) w) as [[[u|e'] w1] t1]; [|now split].
  rewrite !Hp. now split.
Qed.

(** X10.  A run queries the database exactly once, first, and never again:
    only the one page of results is read.  When the answer holds no
    results (the key is missing or the list is empty) the run ends normally
    after the query. *)
Theorem X10_single_query (db : string) (w : W) :
  (exists r t,
      trace_of ((sync_notion_to_calendar handle stdout utcnow calendar_map tz) db w) = Called (DatabasesQuery db) r :: t
      /\ existsb is_query t = false)
  /\ (forall tasks w1,
        handle (DatabasesQuery db) w = (Ok tasks, w1) ->
        Py.get_default tasks "results" (JList []) = Ok (JList []) ->
        (sync_notion_to_calendar handle stdout utcnow calendar_map tz) db w = (Ok tt, w1, [Called (DatabasesQuery db) (Ok tasks)])).
Proof.
  split.
  - rewrite sync_run_eq. cbn zeta.
    destruct (handle (DatabasesQuery db) w) as [[tasks|e] w1];
      [|now eexists _, _].
    destruct (rbind _ Py.iter) as [pages|e]; [|now eexists _, _].
    destruct (for_each pages (sync_page handle stdout utcnow calendar_map tz) w1) as [[r w2] t2] eqn:Hf.
    eexists _, _. split; [reflexivity|].
    destruct (existsb is_query t2) eqn:Hq; [|reflexivity].
    apply existsb_exists in Hq as (ev & Hin & Hev).
    destruct (for_each_in pages (sync_page handle stdout utcnow calendar_map tz) ev w1) as (x & w' & _ & Hin');
      [now rewrite Hf|].
    destruct (sync_page_stages handle stdout utcnow calendar_map tz x w') as [_ Hs].
    cbn zeta in Hs. apply no_query_of_stages in Hs.
    rewrite (existsb_false_in _ _ _ Hs Hin') in Hev. discriminate.
  - intros tasks w1 Hh Hr. rewrite sync_run_eq. cbn zeta. rewrite Hh, Hr.
    reflexivity.
Qed.

(** X11.  Every calendar call of a run belongs to a record of the query's
    results: it is addressed to a non-empty calendar id that is a value of
    the mapping, and its body carries the record's extracted name as
    summary, the record's normalized due range printed in ISO form with the
    configured timezone at both ends, and a link ending in the record's
    id. *)
Theorem X11_calendar_call_payload (db : string) (w : W) (ev : event) :
  In ev (trace_of ((sync_notion_to_calendar handle stdout utcnow calendar_map tz) db w)) -> is_calendar_call ev = true ->
  exists tasks w1 pages page props start_dt end_dt page_id cid k,
    handle (DatabasesQuery db) w = (Ok tasks, w1)
    /\ rbind (Py.get_default tasks "results" (JList [])) Py.iter = Ok pages
    /\ In page pages
    /\ _get_task_properties page = Ok props
    /\ _parse_notion_date (field props "due" JNull) tz = Ok (start_dt, end_dt)
    /\ Py.getitem page "id" = Ok page_id
    /\ calendar_map !! k = Some cid /\ cid <> ""
    /\ calendar_of ev = Some cid
    /\ body_of ev
       = Some (JDict [("summary", field props "name" JNull);
                      ("start", JDict [("dateTime", JStr (isoformat start_dt));
                                       ("timeZone", JStr tz)]);
                      ("end", JDict [("dateTime", JStr (isoformat end_dt));
                                     ("timeZone", JStr tz)]);
                      ("description",
                       JStr ("View in Notion: https://www.notion.so/"
                             ++ py_str page_id))]).
Proof.
  intros Hin Hc. rewrite sync_run_eq in Hin. cbn zeta in Hin.
  destruct (handle (DatabasesQuery db) w) as [[tasks|e] w1].
  2:{ destruct Hin as [<-|[]]. discriminate. }
  destruct (rbind _ Py.iter) as [pages|e] eqn:Hp.
  2:{ destruct Hin as [<-|[]]. discriminate. }
  destruct (for_each pages (sync_page handle stdout utcnow calendar_map tz) w1) as [[r w2] t2] eqn:Hf.
  destruct Hin as [<-|Hin]; [discriminate|].
  destruct (for_each_in pages (sync_page handle stdout utcnow calendar_map tz) ev w1) as (page & w' & Hpage & Hin');
    [now rewrite Hf|].
  destruct (sync_page_calendar_call handle stdout utcnow calendar_map tz page w' ev
              Hin' Hc)
    as (props & sd & ed & pid & cid & k & H1 & H2 & H3 & H4 & H5 & H6 & H7).
  exists tasks, w1, pages, page, props, sd, ed, pid, cid, k.
  repeat (split; [assumption || reflexivity|]). exact H7.
Qed.

(** X12.  In an iteration on a record the extractor reads, the domain
    lookup is made exactly when the task is due, not completed and has a
    domain reference; it is then the first event of the iteration, whether
    or not the task is skipped afterwards, and it is made once. *)
Theorem X12_domain_lookup_first (page props : json) (w : W) :
  _get_task_properties page = Ok props ->
  let t := trace_of ((sync_page handle stdout utcnow calendar_map tz) page w) in
  let domain_id := field props "domain_id" JNull in
  if negb (Py.eq_str (field props "status" JNull) "Completed"
           || Py.is_none (field props "due" JNull))
     && Py.truthy domain_id
  then exists r more,
         t = Called (PagesRetrieve domain_id) r :: more
         /\ existsb is_lookup more = false
  else existsb is_lookup t = false.
Proof.
  intros Hx. cbn zeta.
  destruct (Py.eq_str _ "Completed" || Py.is_none _) eqn:Hf.
  { cbn [negb andb]. rewrite sync_page_eq, Hx. cbn zeta. now rewrite Hf. }
  cbn [negb andb].
  destruct (sync_page_trace handle stdout utcnow calendar_map tz page props w Hx Hf)
    as (t2 & -> & Ht2).
  apply no_lookup_of_stages in Ht2.
  rewrite resolve_domain_name_eq.
  destruct (Py.truthy (field props "domain_id" JNull)); [|exact Ht2].
  cbn zeta. destruct (handle (PagesRetrieve _) w) as [[domain_page|e] w1];
    eexists _, _; (split; [reflexivity|exact Ht2]).
Qed.

(** X13.  Once the query has answered with a list of records that the
    extractor reads and that carry an id, no failure of a domain lookup, of
    a calendar call or of a write-back ends the run.  The run returns
    normally, or it ends with an exception that [print] raised on the report
    of a failed upsert step, that report being the last event of the run;
    with an output stream that takes every line it returns normally
    whatever the two services answer. *)
Theorem X13_run_survives_service_failures
  (db : string) (w w1 : W) (tasks : json) (pages : list json) :
  handle (DatabasesQuery db) w = (Ok tasks, w1) ->
  rbind (Py.get_default tasks "results" (JList [])) Py.iter = Ok pages ->
  Forall (fun page => is_ok (_get_task_properties page) = true
                      /\ is_ok (Py.getitem page "id") = true) pages ->
  (outcome_of ((sync_notion_to_calendar handle stdout utcnow calendar_map tz) db w) = Ok tt
   \/ exists e pre name e0 w',
        outcome_of ((sync_notion_to_calendar handle stdout utcnow calendar_map tz) db w) = Raise e
        /\ trace_of ((sync_notion_to_calendar handle stdout utcnow calendar_map tz) db w)
           = (pre ++ [Printed (error_line name e0)])%list
        /\ fst (stdout (error_line name e0) w') = Raise e)
  /\ ((forall msg w0, is_ok (fst (stdout msg w0)) = true) ->
      outcome_of ((sync_notion_to_calendar handle stdout utcnow calendar_map tz) db w) = Ok tt).
Proof.
  intros Hh Hp Hall.
  assert (Hloop : forall w0,
            outcome_of (for_each pages (sync_page handle stdout utcnow calendar_map tz) w0)
            = Ok tt
            \/ exists e pre name e0 w',
                 outcome_of (for_each pages (sync_page handle stdout utcnow calendar_map tz) w0)
                 = Raise e
                 /\ trace_of (for_each pages (sync_page handle stdout utcnow calendar_map tz) w0)
                    = (pre ++ [Printed (error_line name e0)])%list
                 /\ fst (stdout (error_line name e0) w') = Raise e).
  { clear Hp Hh.
    induction Hall as [|page rest [Hx Hi] _ IH]; intros w0; [now left|].
    rewrite for_each_cons.
    destruct ((sync_page handle stdout utcnow calendar_map tz) page w0)
      as [[[u|e] w2] t2] eqn:Hs.
    - specialize (IH w2).
      destruct (for_each rest _ w2) as [[r w3] t3].
      cbn [outcome_of trace_of fst snd] in IH |- *.
      destruct IH as [IH | (e & pre & name & e0 & w' & Ho & Ht & Hs')];
        [now left|].
      right. exists e, (t2 ++ pre)%list, name, e0, w'.
      split; [exact Ho|]. split; [|exact Hs']. rewrite Ht. apply app_assoc.
    - right.
      destruct (sync_page_raise handle stdout utcnow calendar_map tz page w0 e)
        as [[[Hr | [_ Hr]] _] | (pre & name & e0 & w' & Ht & _ & Hs')];
        [now rewrite Hs|..].
      + rewrite Hr in Hx. discriminate.
      + rewrite Hr in Hi. discriminate.
      + rewrite Hs in Ht. cbn [trace_of snd] in Ht.
        exists e, pre, name, e0, w'. now repeat split. }
  assert (Hrun :
    outcome_of ((sync_notion_to_calendar handle stdout utcnow calendar_map tz) db w) = Ok tt
    \/ exists e pre name e0 w',
         outcome_of ((sync_notion_to_calendar handle stdout utcnow calendar_map tz) db w) = Raise e
         /\ trace_of ((sync_notion_to_calendar handle stdout utcnow calendar_map tz) db w)
            = (pre ++ [Printed (error_line name e0)])%list
         /\ fst (stdout (error_line name e0) w') = Raise e).
  { rewrite sync_run_eq. cbn zeta. rewrite Hh, Hp.
    specialize (Hloop w1).
    destruct (for_each pages _ w1) as [[r w2] t2].
    cbn [outcome_of trace_of fst snd] in Hloop |- *.
    destruct Hloop as [H | (e & pre & name & e0 & w' & Ho & Ht & Hs')];
      [now left|].
    right. exists e, (Called (DatabasesQuery db) (Ok tasks) :: pre), name, e0, w'.
    split; [exact Ho|]. split; [|exact Hs']. now rewrite Ht. }
  split; [exact Hrun|].
  intros Hout. destruct Hrun as [H | (e & pre & name & e0 & w' & _ & _ & Hs')];
    [exact H|].
  specialize (Hout (error_line name e0) w'). rewrite Hs' in Hout. discriminate.
Qed.

End LoopProperties.

(* ===================================================================== *)
(** ** The extractor, field by field *)
(* ===================================================================== *)

Section ExtractorProperties.

Local Open Scope result_scope.

Lemma status_entry_keys ps k :
  k <> "status" -> Py.assoc k (status_entry ps) = None.
Proof.
  intros Hk. unfold status_entry.
  destruct (field (prop_at ps "Status") "type" JNull); try reflexivity.
  destruct (_ && _); [|reflexivity]. cbn [Py.assoc].
  apply String.eqb_neq in Hk. now rewrite Hk.
Qed.

Lemma domain_entry_keys ps k :
  k <> "domain_id" -> Py.assoc k (domain_entry ps) = None.
Proof.
  intros Hk. unfold domain_entry.
  destruct (is_typed _ _); [|reflexivity].
  destruct (field _ "relation" _) as [| | | |[|first l]|]; try reflexivity.
  cbn [Py.assoc]. apply String.eqb_neq in Hk. now rewrite Hk.
Qed.

Lemma assoc_app k (a b : list (string * json)) :
  Py.assoc k (a ++ b) = match Py.assoc k a with
                        | Some v => Some v
                        | None => Py.assoc k b
                        end.
Proof.
  induction a as [|[k' v'] a IH]; [reflexivity|].
  cbn [app Py.assoc]. now destruct (String.eqb k k').
Qed.

(** X14.  On a record that follows the property schema the extractor
    returns, and the due value of its result is decided by the first
    populated property among "Due Date", "Due date", "Due": it is that
    property's date value when the property is "date"-typed and the value
    is non-empty, and null otherwise; so it is null or a non-empty value. *)
Theorem X14_due_from_first_populated_key (page : json) :
  wf_page page = true ->
  exists ps props,
    properties_of page = Some ps
    /\ _get_task_properties page = Ok props
    /\ Py.get props "due" = Ok (due_rule ps)
    /\ (due_rule ps = JNull \/ Py.truthy (due_rule ps) = true).
Proof.
  intros Hwf. destruct (wf_page_inv page Hwf) as (ps & Hps & Hall).
  exists ps, (extracted ps). split; [exact Hps|].
  split; [now apply extract_wf|]. split; [reflexivity|].
  unfold due_rule. destruct (first_populated ps due_keys) as [p|]; [|now left].
  destruct (is_typed p "date"); [|now left]. cbn [andb].
  destruct (Py.truthy (field p "date" JNull)) eqn:Ht; [now right|now left].
Qed.

(** X15.  On a record that follows the property schema, the result has a
    "status" entry exactly when the property under "Status" is populated
    and of type "select" or "status"; the entry is then the name held by
    the value stored under the key the type names, and null when that
    value has no name. *)
Theorem X15_status_entry_only_for_select_or_status (page : json) :
  wf_page page = true ->
  exists ps kv,
    properties_of page = Some ps
    /\ _get_task_properties page = Ok (JDict kv)
    /\ Py.assoc "status" kv
       = match field (prop_at ps "Status") "type" JNull with
         | JStr ty =>
             if Py.truthy (prop_at ps "Status")
                && (String.eqb ty "select" || String.eqb ty "status")
             then Some (field (field (prop_at ps "Status") ty (JDict []))
                          "name" JNull)
             else None
         | _ => None
         end.
Proof.
  intros Hwf. destruct (wf_page_inv page Hwf) as (ps & Hps & Hall).
  eexists ps, _. split; [exact Hps|].
  split; [rewrite (extract_wf _ _ Hps Hall); unfold extracted; reflexivity|].
  cbn [app Py.assoc String.eqb Ascii.eqb Bool.eqb]. rewrite assoc_app.
  unfold status_entry.
  destruct (field (prop_at ps "Status") "type" JNull) as [| | |ty| |];
    try (rewrite assoc_app, domain_entry_keys by discriminate; reflexivity).
  destruct (_ && _); [reflexivity|].
  rewrite assoc_app, domain_entry_keys by discriminate. reflexivity.
Qed.

(** X16.  On a record that follows the property schema, the result has a
    "domain_id" entry exactly when the property under "Domain" is populated,
    "relation"-typed and has at least one related record; the entry is the
    id of the first related record (null when it has none) and the other
    related records are not read. *)
Theorem X16_domain_id_is_first_relation (page : json) :
  wf_page page = true ->
  exists ps kv,
    properties_of page = Some ps
    /\ _get_task_properties page = Ok (JDict kv)
    /\ Py.assoc "domain_id" kv
       = if is_typed (prop_at ps "Domain") "relation" then
           match field (prop_at ps "Domain") "relation" (JList []) with
           | JList (first :: _) => Some (field first "id" JNull)
           | _ => None
           end
         else None.
Proof.
  intros Hwf. destruct (wf_page_inv page Hwf) as (ps & Hps & Hall).
  eexists ps, _. split; [exact Hps|].
  split; [rewrite (extract_wf _ _ Hps Hall); unfold extracted; reflexivity|].
  cbn [app Py.assoc String.eqb Ascii.eqb Bool.eqb].
  rewrite assoc_app, status_entry_keys by discriminate.
  rewrite assoc_app. unfold domain_entry.
  destruct (is_typed _ _); [|reflexivity].
  destruct (field _ "relation" _) as [| | | |[|first l]|]; reflexivity.
Qed.

(** X17.  When the property under "Status" is of type "select" or "status"
    and the value stored under the key the type names is there but is not
    an object (an empty select is stored as null), the extractor raises
    [AttributeError] instead of returning. *)
Theorem X17_empty_status_value_raises
  (page : json) (ps sp : list (string * json)) (ty : string) (v : json) :
  properties_of page = Some ps ->
  Forall (fun k => wf_property (prop_at ps k) = true) (name_keys ++ due_keys) ->
  prop_at ps "Status" = JDict sp ->
  Py.assoc "type" sp = Some (JStr ty) -> ty = "select" \/ ty = "status" ->
  Py.assoc ty sp = Some v -> is_dict v = false ->
  _get_task_properties page
  = raise AttributeError
      ("'" ++ Py.type_name v ++ "' object has no attribute 'get'").
Proof.
  intros Hps Hwf Hsp Hty Hsel Hv Hnd.
  repeat match type of Hwf with
         | Forall _ (_ :: _) => apply Forall_cons_1 in Hwf as [? Hwf]
         | Forall _ ?l => let l' := eval hnf in l in change l with l' in Hwf
         end.
  unfold _get_task_properties.
  rewrite (properties_of_get _ _ Hps). cbn [rbind].
  rewrite !get_prop, !py_or_ok. cbn [rbind].
  rewrite (text_block _ "title" (fun n => Py.assoc_set "name" n []))
    by (auto using wf_pick).
  rewrite due_block by (auto using wf_pick).
  rewrite Hsp.
  assert (Htr : Py.truthy (JDict sp) = true) by (destruct sp; [discriminate|reflexivity]).
  rewrite Htr. cbn [Py.get Py.get_default Py.getitem]. rewrite Hty.
  cbn [default from_option id rbind Py.in_str_set Py.get_default_j].
  assert (Hin : existsb (String.eqb ty) ["select"; "status"] = true)
    by (destruct Hsel as [-> | ->]; reflexivity).
  rewrite Hin, Hv. cbn [default from_option id rbind].
  destruct v; try discriminate; reflexivity.
Qed.

End ExtractorProperties.

(* ===================================================================== *)
(** ** The normalizer: what it returns and when it raises *)
(* ===================================================================== *)

Section NormalizerProperties.

Local Open Scope result_scope.

Lemma read_end_valid end_str ed :
  (let* has_t := Py.str_in "T" end_str in
   if has_t then fromisoformat end_str
   else let* s' := Py.add_str end_str "T23:59:59" in fromisoformat s') = Ok ed ->
  valid ed = true.
Proof.
  destruct (Py.str_in "T" end_str) as [[|]|]; cbn [rbind]; try discriminate.
  - apply fromisoformat_valid.
  - destruct (Py.add_str end_str "T23:59:59"); cbn [rbind]; [|discriminate].
    apply fromisoformat_valid.
Qed.

(** X18.  Whenever the normalizer returns, the start of the range is a
    non-empty string and both datetimes it returns are valid calendar
    datetimes (year 1 to 9999, a day that exists in its month, a time of
    day within range). *)
Theorem X18_normalizer_returns_valid_datetimes
  (date_dict : json) (tz : string) (start_dt end_dt : datetime) :
  _parse_notion_date date_dict tz = Ok (start_dt, end_dt) ->
  valid start_dt = true /\ valid end_dt = true
  /\ exists s, Py.get date_dict "start" = Ok (JStr s) /\ s <> "".
Proof.
  intros H.
  destruct (normalizer_inv _ _ _ _ H) as (ss & es & Hs & He & Hv & Hend).
  split; [exact Hv|]. split.
  - destruct (Py.truthy es).
    + eapply read_end_valid, Hend.
    + now apply (add_one_day_next start_dt end_dt Hv) in Hend.
  - unfold _parse_notion_date in H. rewrite Hs, He in H. cbn [rbind] in H.
    destruct ss as [| | |s| |]; try discriminate H.
    + exists s. split; [exact Hs|]. intros ->. cbn in H. discriminate H.
    + cbn [Py.is_none Py.str_in rbind] in H.
      destruct (existsb _ l); discriminate H.
    + cbn [Py.is_none Py.str_in rbind] in H.
      destruct (existsb _ kv); discriminate H.
Qed.

(** X19.  The normalizer raises on every range whose start is not a
    non-empty string: [ValueError] "start date is missing" when the start
    is null or missing, whatever the end; [ValueError] for the empty
    string; [TypeError] for any other value. *)
Theorem X19_normalizer_rejects_other_starts
  (date_dict : json) (tz : string) (start_str : json) :
  Py.get date_dict "start" = Ok start_str ->
  (start_str = JNull ->
   _parse_notion_date date_dict tz = raise ValueError "start date is missing")
  /\ (start_str = JStr "" ->
      _parse_notion_date date_dict tz
      = raise ValueError "Invalid isoformat string: 'T00:00:00'")
  /\ ((forall s, start_str <> JStr s) -> start_str <> JNull ->
      exists msg, _parse_notion_date date_dict tz = raise TypeError msg).
Proof.
  intros Hs.
  assert (He : exists end_str, Py.get date_dict "end" = Ok end_str).
  { destruct date_dict; try discriminate Hs. cbn. eauto. }
  destruct He as [end_str He].
  unfold _parse_notion_date. rewrite Hs, He. cbn [rbind].
  split; [|split].
  - intros ->. reflexivity.
  - intros ->. reflexivity.
  - intros Hns Hnn.
    destruct start_str as [|b|n|s|l|kv]; try congruence.
    + eexists. reflexivity.
    + eexists. reflexivity.
    + cbn [Py.is_none Py.str_in rbind]. destruct (existsb _ l);
        eexists; reflexivity.
    + cbn [Py.is_none Py.str_in rbind]. destruct (existsb _ kv);
        eexists; reflexivity.
Qed.

End NormalizerProperties.

(* ===================================================================== *)
(** ** Reading a date and printing it again *)
(* ===================================================================== *)

Section DateText.

Local Open Scope result_scope.

Lemma digit_char_digit c v acc :
  digit c = Some v -> digit_char (acc * 10 + v) = c.
Proof.
  unfold digit, digit_char.
  destruct ((48 <=? _) && (_ <=? 57)) eqn:Hr; [|discriminate].
  intros [= <-]. apply andb_true_iff in Hr as [H1 H2].
  apply Z.leb_le in H1, H2.
  replace ((acc * 10 + (Z.of_N (N_of_ascii c) - 48)) mod 10)
    with (Z.of_N (N_of_ascii c) - 48)
    by (rewrite Z.add_comm, Z.mod_add by lia; symmetry; apply Z.mod_small; lia).
  replace (48 + (Z.of_N (N_of_ascii c) - 48)) with (Z.of_N (N_of_ascii c)) by lia.
  rewrite N2Z.id. apply ascii_N_embedding.
Qed.

Lemma digit_range c v : digit c = Some v -> 0 <= v <= 9.
Proof.
  unfold digit. destruct ((48 <=? _) && (_ <=? 57)) eqn:Hr; [|discriminate].
  intros [= <-]. apply andb_true_iff in Hr as [H1 H2].
  apply Z.leb_le in H1, H2. lia.
Qed.

Lemma str_app_cons c (a b : string) : String c a ++ b = String c (a ++ b).
Proof. reflexivity. Qed.

Lemma str_app_nil_l (b : string) : "" ++ b = b.
Proof. reflexivity. Qed.

Lemma str_app_nil_r (s : string) : s ++ "" = s.
Proof. induction s as [|c s IH]; [reflexivity|]. now rewrite str_app_cons, IH. Qed.

Lemma str_app_assoc (a b c : string) : (a ++ b) ++ c = a ++ (b ++ c).
Proof.
  induction a as [|x a IH]; [reflexivity|]. now rewrite !str_app_cons, IH.
Qed.

(** The leading digit of a padded number. *)
Lemma zpad_front (n : nat) : forall v,
  zpad (S n) v = String (digit_char (v / 10 ^ Z.of_nat n)) (zpad n v).
Proof.
  induction n as [|n IH]; intros v.
  - cbn [zpad]. now rewrite Z.pow_0_r, Z.div_1_r.
  - change (zpad (S (S n)) v)
      with (zpad (S n) (v / 10) ++ String (digit_char v) "").
    rewrite IH, str_app_cons. f_equal.
    f_equal. rewrite Nat2Z.inj_succ, Z.pow_succ_r by lia.
    rewrite Z.div_div by lia. reflexivity.
Qed.

(** Digits that were read print back as they were. *)
Lemma parse_digits_zpad (n : nat) : forall acc cs v r,
  parse_digits n acc cs = Some (v, r) ->
  v / 10 ^ Z.of_nat n = acc
  /\ exists ds, cs = (ds ++ r)%list /\ string_of_list_ascii ds = zpad n v.
Proof.
  induction n as [|n IH]; intros acc cs v r H.
  - cbn in H. injection H as <- <-. split; [now rewrite Z.div_1_r|].
    now exists [].
  - cbn [parse_digits] in H. destruct cs as [|c cs]; [discriminate|].
    destruct (digit c) as [d|] eqn:Hd; [|discriminate].
    destruct (IH _ _ _ _ H) as [Hacc (ds & -> & Hds)].
    pose proof (digit_range _ _ Hd) as Hr.
    split.
    + rewrite Nat2Z.inj_succ, Z.pow_succ_r by lia.
      rewrite Z.mul_comm, <- Z.div_div by lia. rewrite Hacc.
      rewrite Z.add_comm, Z.div_add by lia. rewrite Z.div_small by lia. lia.
    + exists (c :: ds). split; [reflexivity|].
      rewrite zpad_front, Hacc, (digit_char_digit _ _ _ Hd).
      cbn [string_of_list_ascii]. now rewrite Hds.
Qed.


Lemma string_of_app (a b : list ascii) :
  string_of_list_ascii (a ++ b) = string_of_list_ascii a ++ string_of_list_ascii b.
Proof. induction a as [|c a IH]; cbn; [reflexivity|now rewrite IH]. Qed.

(** A date that was read prints back as it was. *)
Lemma parse_isoformat_date_text s y m d :
  parse_isoformat_date (list_ascii_of_string s) = Some (y, m, d, []) ->
  s = zpad 4 y ++ "-" ++ zpad 2 m ++ "-" ++ zpad 2 d.
Proof.
  unfold parse_isoformat_date. intros H.
  destruct (parse_digits 4 0 _) as [[y' r1]|] eqn:Hy; [|discriminate].
  destruct (expect "-" r1) as [r2|] eqn:He1; [|discriminate].
  destruct (parse_digits 2 0 r2) as [[m' r3]|] eqn:Hm; [|discriminate].
  destruct (expect "-" r3) as [r4|] eqn:He2; [|discriminate].
  destruct (parse_digits 2 0 r4) as [[d' r5]|] eqn:Hdd; [|discriminate].
  injection H as -> -> -> ->.
  apply expect_prefix in He1, He2. subst r1 r3.
  destruct (parse_digits_zpad _ _ _ _ _ Hy) as [_ (dy & Ey & Hy')].
  destruct (parse_digits_zpad _ _ _ _ _ Hm) as [_ (dm & Em & Hm')].
  destruct (parse_digits_zpad _ _ _ _ _ Hdd) as [_ (dd & Ed & Hd')].
  subst r4 r2. rewrite <- (string_of_list_ascii_of_string s), Ey.
  rewrite string_of_app. cbn [string_of_list_ascii].
  rewrite string_of_app. cbn [string_of_list_ascii].
  rewrite string_of_app. cbn [string_of_list_ascii].
  rewrite Hy', Hm', Hd'. rewrite !str_app_cons, !str_app_nil_l.
  now rewrite str_app_nil_r.
Qed.

Lemma isoformat_date_only y m d (t : string) h mi sec :
  zpad 2 h ++ ":" ++ zpad 2 mi ++ ":" ++ zpad 2 sec = t ->
  isoformat (mkDatetime y m d h mi sec 0 None)
  = (zpad 4 y ++ "-" ++ zpad 2 m ++ "-" ++ zpad 2 d) ++ "T" ++ t.
Proof.
  intros <-. unfold isoformat. cbn [year month day hour minute second microsecond tzinfo].
  cbn [Z.eqb]. rewrite !str_app_nil_r.
  rewrite !str_app_assoc. reflexivity.
Qed.

(** X20.  A due range given by two dates with no time component reaches
    the calendar as the same two texts, completed with "T00:00:00" for the
    start and "T23:59:59" for the end; and whatever the end is, whenever
    the normalizer returns, a date-only start is printed as its own text
    followed by "T00:00:00". *)
Theorem X20_date_only_range_as_text (s : string) (y m d : Z) (tz : string) :
  classify s = Some (DateOnly y m d) ->
  (forall e y' m' d',
      classify e = Some (DateOnly y' m' d') ->
      iso_interval (_parse_notion_date (date_range (JStr s) (JStr e)) tz)
      = Ok (s ++ "T00:00:00", e ++ "T23:59:59"))
  /\ (forall end_str start_dt end_dt,
      _parse_notion_date (date_range (JStr s) end_str) tz = Ok (start_dt, end_dt) ->
      isoformat start_dt = s ++ "T00:00:00").
Proof.
  intros Hs. destruct (classify_date_only _ _ _ _ Hs) as [Hps _].
  pose proof (parse_isoformat_date_text _ _ _ _ Hps) as Es.
  assert (Hstart : isoformat (mkDatetime y m d 0 0 0 0 None) = s ++ "T00:00:00").
  { rewrite (isoformat_date_only y m d "00:00:00") by reflexivity.
    now rewrite <- Es. }
  split.
  - intros e y' m' d' He. destruct (classify_date_only _ _ _ _ He) as [Hpe _].
    pose proof (parse_isoformat_date_text _ _ _ _ Hpe) as Ee.
    unfold _parse_notion_date, date_range.
    cbn [Py.get Py.get_default Py.assoc String.eqb Ascii.eqb Bool.eqb
         default from_option id rbind Py.is_none].
    rewrite (read_start_then s _ _ Hs).
    rewrite (classify_nonempty e _ He), (read_end_date e y' m' d' He).
    cbn [rbind iso_interval fst snd start_of]. rewrite Hstart.
    rewrite (isoformat_date_only y' m' d' "23:59:59") by reflexivity.
    now rewrite <- Ee.
  - intros end_str start_dt end_dt H.
    unfold _parse_notion_date, date_range in H.
    cbn [Py.get Py.get_default Py.assoc String.eqb Ascii.eqb Bool.eqb
         default from_option id rbind Py.is_none] in H.
    rewrite (read_start_then s _ _ Hs) in H.
    match type of H with
    | rbind ?rd _ = _ => destruct rd as [ed'|]; [|discriminate H]
    end.
    cbn [rbind start_of] in H. injection H as <- _. exact Hstart.
Qed.

End DateText.

(* ===================================================================== *)
(** ** Printing a datetime and reading it again *)
(* ===================================================================== *)

Section TimestampText.

Local Open Scope result_scope.

Lemma digit_char_cases x :
  exists k, 0 <= k <= 9 /\ x mod 10 = k
            /\ digit_char x = ascii_of_N (Z.to_N (48 + k)).
Proof.
  exists (x mod 10). pose proof (Z.mod_pos_bound x 10 ltac:(lia)).
  repeat split; lia || reflexivity.
Qed.

Lemma digit_digit_char x : digit (digit_char x) = Some (x mod 10).
Proof.
  destruct (digit_char_cases x) as (k & Hk & -> & ->).
  assert (k = 0 \/ k = 1 \/ k = 2 \/ k = 3 \/ k = 4 \/ k = 5 \/ k = 6 \/ k = 7
          \/ k = 8 \/ k = 9) as Hc by lia.
  repeat destruct Hc as [-> | Hc]; try subst k; reflexivity.
Qed.

Lemma digit_char_no_sign x :
  Ascii.eqb (digit_char x) "-" = false /\ Ascii.eqb (digit_char x) "+" = false
  /\ Ascii.eqb "T" (digit_char x) = false.
Proof.
  destruct (digit_char_cases x) as (k & Hk & _ & ->).
  assert (k = 0 \/ k = 1 \/ k = 2 \/ k = 3 \/ k = 4 \/ k = 5 \/ k = 6 \/ k = 7
          \/ k = 8 \/ k = 9) as Hc by lia.
  repeat destruct Hc as [-> | Hc]; try subst k; repeat split; reflexivity.
Qed.

(** Padded digits read back as the number they print. *)
Lemma parse_zpad (n : nat) : forall v acc r,
  parse_digits n acc (list_ascii_of_string (zpad n v) ++ r)%list
  = Some (acc * 10 ^ Z.of_nat n + v mod 10 ^ Z.of_nat n, r).
Proof.
  induction n as [|n IH]; intros v acc r.
  - cbn. f_equal. f_equal. rewrite Z.mod_1_r. lia.
  - rewrite zpad_front. cbn [list_ascii_of_string app parse_digits].
    rewrite digit_digit_char, IH. f_equal. f_equal.
    rewrite Nat2Z.inj_succ, Z.pow_succ_r by lia.
    rewrite (Z.mul_comm 10 (10 ^ Z.of_nat n)).
    rewrite (Z.rem_mul_r v (10 ^ Z.of_nat n) 10) by lia. lia.
Qed.

Lemma parse_zpad_small (n : nat) v r :
  0 <= v < 10 ^ Z.of_nat n ->
  parse_digits n 0 (list_ascii_of_string (zpad n v) ++ r)%list = Some (v, r).
Proof.
  intros Hv. rewrite parse_zpad. f_equal. f_equal.
  rewrite Z.mod_small by assumption. lia.
Qed.

Lemma zpad_length (n : nat) : forall v,
  length (list_ascii_of_string (zpad n v)) = n.
Proof.
  induction n as [|n IH]; intros v; [reflexivity|].
  rewrite zpad_front. cbn [list_ascii_of_string length]. now rewrite IH.
Qed.

(** No sign character among padded digits. *)
Lemma split_tz_zpad (n : nat) : forall v r,
  split_tz (list_ascii_of_string (zpad n v) ++ r)%list
  = (let '(t, z) := split_tz r in
     ((list_ascii_of_string (zpad n v) ++ t)%list, z)).
Proof.
  induction n as [|n IH]; intros v r.
  - cbn [zpad list_ascii_of_string app]. now destruct (split_tz r).
  - rewrite zpad_front. cbn [list_ascii_of_string app split_tz].
    destruct (digit_char_no_sign (v / 10 ^ Z.of_nat n)) as (H1 & H2 & _).
    rewrite H1, H2, IH. now destruct (split_tz r).
Qed.

Lemma existsb_T_zpad (n : nat) : forall v,
  existsb (Ascii.eqb "T") (list_ascii_of_string (zpad n v)) = false.
Proof.
  induction n as [|n IH]; intros v; [reflexivity|].
  rewrite zpad_front. cbn [list_ascii_of_string existsb].
  destruct (digit_char_no_sign (v / 10 ^ Z.of_nat n)) as (_ & _ & H3).
  now rewrite H3, IH.
Qed.

Lemma isoformat_chars (d : datetime) :
  list_ascii_of_string (isoformat d)
  = (list_ascii_of_string (zpad 4 (year d)) ++ "-"%char ::
     list_ascii_of_string (zpad 2 (month d)) ++ "-"%char ::
     list_ascii_of_string (zpad 2 (day d)) ++ "T"%char ::
     list_ascii_of_string (zpad 2 (hour d)) ++ ":"%char ::
     list_ascii_of_string (zpad 2 (minute d)) ++ ":"%char ::
     list_ascii_of_string (zpad 2 (second d)) ++
     list_ascii_of_string
       ((if microsecond d =? 0 then "" else "." ++ zpad 6 (microsecond d))
        ++ match tzinfo d with Some off => format_offset off | None => "" end))%list.
Proof.
  unfold isoformat. rewrite !chars_app. reflexivity.
Qed.

(** The time of day of a naive value reads back. *)
Lemma time_reads_back (h mi s us : Z) :
  valid_time h mi s us = true ->
  parse_isoformat_time
    (list_ascii_of_string (zpad 2 h) ++ ":"%char ::
     list_ascii_of_string (zpad 2 mi) ++ ":"%char ::
     list_ascii_of_string (zpad 2 s) ++
     list_ascii_of_string
       ((if us =? 0 then "" else "." ++ zpad 6 us) ++ ""))%list
  = Some (h, mi, s, us, None).
Proof.
  unfold valid_time. intros Hv.
  repeat (apply andb_true_iff in Hv as [Hv ?]).
  repeat match goal with
         | H : (_ <=? _) = true |- _ => apply Z.leb_le in H
         end.
  unfold parse_isoformat_time.
  assert (Hsplit : forall frac : list ascii,
            split_tz frac = (frac, None) ->
            split_tz (list_ascii_of_string (zpad 2 h) ++ ":"%char ::
                      list_ascii_of_string (zpad 2 mi) ++ ":"%char ::
                      list_ascii_of_string (zpad 2 s) ++ frac)%list
            = ((list_ascii_of_string (zpad 2 h) ++ ":"%char ::
                list_ascii_of_string (zpad 2 mi) ++ ":"%char ::
                list_ascii_of_string (zpad 2 s) ++ frac)%list, None)).
  { intros frac Hfrac.
    rewrite split_tz_zpad. cbn [split_tz Ascii.eqb Bool.eqb].
    rewrite split_tz_zpad. cbn [split_tz Ascii.eqb Bool.eqb].
    rewrite split_tz_zpad, Hfrac. reflexivity. }
  destruct (us =? 0) eqn:Hus.
  - apply Z.eqb_eq in Hus. subst us.
    cbn [append list_ascii_of_string]. rewrite Hsplit by reflexivity.
    unfold parse_hh_mm_ss_ff.
    rewrite (parse_zpad_small 2 h) by (cbn; lia).
    cbn [negb Ascii.eqb Bool.eqb].
    rewrite (parse_zpad_small 2 mi) by (cbn; lia).
    cbn [negb Ascii.eqb Bool.eqb].
    rewrite <- (app_nil_r (list_ascii_of_string (zpad 2 s))) at 1.
    rewrite (parse_zpad_small 2 s) by (cbn; lia). reflexivity.
  - apply Z.eqb_neq in Hus.
    rewrite str_app_nil_r, str_app_cons, str_app_nil_l.
    cbn [list_ascii_of_string].
    rewrite Hsplit.
    2:{ cbn [split_tz Ascii.eqb Bool.eqb].
        rewrite <- (app_nil_r (list_ascii_of_string (zpad 6 us))).
        rewrite split_tz_zpad. reflexivity. }
    unfold parse_hh_mm_ss_ff.
    rewrite (parse_zpad_small 2 h) by (cbn; lia).
    cbn [negb Ascii.eqb Bool.eqb].
    rewrite (parse_zpad_small 2 mi) by (cbn; lia).
    cbn [negb Ascii.eqb Bool.eqb].
    rewrite (parse_zpad_small 2 s) by (cbn; lia).
    cbn [negb Ascii.eqb Bool.eqb].
    unfold parse_fraction. rewrite zpad_length.
    rewrite <- (app_nil_r (list_ascii_of_string (zpad 6 us))).
    rewrite (parse_zpad_small 6 us) by (cbn; lia). reflexivity.
Qed.

(** A valid naive datetime reads back from its own text. *)
Lemma fromisoformat_isoformat (d : datetime) :
  valid d = true -> tzinfo d = None ->
  fromisoformat_str (isoformat d) = Ok d
  /\ Py.contains "T" (isoformat d) = true
  /\ Py.truthy (JStr (isoformat d)) = true.
Proof.
  intros Hv Htz. split; [|split].
  - unfold fromisoformat_str. rewrite isoformat_chars, Htz.
    unfold valid in Hv. apply andb_true_iff in Hv as [Hd Ht].
    assert (Hd' := Hd). unfold valid_date in Hd'.
    repeat (apply andb_true_iff in Hd' as [Hd' ?]).
    repeat match goal with
           | H : (_ <=? _) = true |- _ => apply Z.leb_le in H
           end.
    assert (day d <= 31).
    { unfold days_in_month in *.
      repeat match goal with
             | H : context [if ?c then _ else _] |- _ => destruct c
             end; lia. }
    unfold parse_isoformat_date.
    rewrite (parse_zpad_small 4 (year d)) by (cbn; lia).
    cbn [expect Ascii.eqb Bool.eqb].
    rewrite (parse_zpad_small 2 (month d)) by (cbn; lia).
    cbn [expect Ascii.eqb Bool.eqb].
    rewrite (parse_zpad_small 2 (day d)) by (cbn; lia).
    rewrite (time_reads_back _ _ _ _ Ht).
    unfold make. rewrite Hd, Ht. cbn [negb].
    destruct d; cbn in *. now subst.
  - rewrite contains_T_chars, isoformat_chars.
    rewrite existsb_app, existsb_T_zpad. cbn [existsb orb Ascii.eqb Bool.eqb].
    rewrite existsb_app, existsb_T_zpad. cbn [existsb orb Ascii.eqb Bool.eqb].
    rewrite existsb_app, existsb_T_zpad. cbn [existsb orb Ascii.eqb Bool.eqb].
    reflexivity.
  - unfold isoformat. change 4%nat with (S 3). rewrite zpad_front.
    reflexivity.
Qed.

(** X21.  A valid datetime with no UTC offset reads back from the text the
    script prints for it: [fromisoformat] of its [isoformat] is the same
    datetime, and a due range made of two such texts is normalized to the
    two datetimes they were printed from. *)
Theorem X21_printed_timestamp_reads_back (d d' : datetime) (tz : string) :
  valid d = true -> tzinfo d = None ->
  valid d' = true -> tzinfo d' = None ->
  fromisoformat (JStr (isoformat d)) = Ok d
  /\ _parse_notion_date
       (date_range (JStr (isoformat d)) (JStr (isoformat d'))) tz
     = Ok (d, d').
Proof.
  intros Hv Hz Hv' Hz'.
  destruct (fromisoformat_isoformat d Hv Hz) as (Hr & Hc & _).
  destruct (fromisoformat_isoformat d' Hv' Hz') as (Hr' & Hc' & Ht').
  split; [exact Hr|].
  unfold _parse_notion_date, date_range.
  cbn [Py.get Py.get_default Py.assoc String.eqb Ascii.eqb Bool.eqb
       default from_option id rbind Py.is_none Py.str_in].
  rewrite Hc. cbn [rbind fromisoformat]. rewrite Hr. cbn [rbind].
  rewrite Ht'. cbn [Py.str_in rbind]. rewrite Hc'. cbn [fromisoformat].
  rewrite Hr'. reflexivity.
Qed.

End TimestampText.

(* ===================================================================== *)
(** ** The domain resolver *)
(* ===================================================================== *)

Section ResolverProperties.

Context {W : Type}.
Variable handle : call -> W -> result json * W.

Local Open Scope result_scope.

Lemma domain_name_rule_pick ps :
  let p := if Py.truthy (prop_at ps "Name") then prop_at ps "Name"
           else prop_at ps "Title" in
  domain_name_rule ps = if is_typed p "title"
                        then JStr (plain_text (field p "title" (JList [])))
                        else JNull.
Proof.
  cbn zeta. unfold domain_name_rule, name_keys.
  destruct (or_first_populated ps "Name" "Title" "title") as [-> Hp].
  destruct (first_populated ps ["Name"; "Title"]) as [p|]; [|reflexivity].
  now rewrite <- (Hp p eq_refl).
Qed.

(** Whenever the title of a domain page is read without an exception, it
    is what the rule says. *)
Lemma domain_title_ok domain_page x :
  domain_title domain_page = Ok x ->
  exists ps, properties_of domain_page = Some ps /\ x = domain_name_rule ps.
Proof.
  unfold domain_title. intros H.
  destruct domain_page as [| | | | |kv]; try discriminate H.
  cbn [Py.get_default rbind] in H. unfold properties_of.
  destruct (default (JDict []) (Py.assoc "properties" kv)) as [| | | | |ps];
    try discriminate H.
  exists ps. split; [reflexivity|].
  rewrite !get_prop, !py_or_ok in H. cbn [rbind] in H.
  rewrite domain_name_rule_pick. cbn zeta.
  set (tp := if Py.truthy (prop_at ps "Name") then _ else _) in *.
  destruct (has_type tp "title") as [b|] eqn:Hb; [|discriminate].
  cbn [rbind] in H. apply has_type_ok in Hb. subst b.
  destruct (is_typed tp "title") eqn:Ht; [|now injection H as <-].
  destruct (Py.get_default tp "title" (JList [])) as [parts|] eqn:Hp;
    [|discriminate]. cbn [rbind] in H.
  apply join_plain_text_ok in H. subst x.
  destruct tp as [| | | | |tkv]; try discriminate.
  injection Hp as <-. reflexivity.
Qed.

(** On a page whose name properties follow the schema the title is read
    without an exception. *)
Lemma domain_title_wf domain_page ps :
  properties_of domain_page = Some ps ->
  wf_property (prop_at ps "Name") = true ->
  wf_property (prop_at ps "Title") = true ->
  domain_title domain_page = Ok (domain_name_rule ps).
Proof.
  intros Hps Hn Ht. unfold domain_title.
  rewrite (properties_of_get _ _ Hps). cbn [rbind].
  rewrite !get_prop, !py_or_ok. cbn [rbind].
  rewrite domain_name_rule_pick. cbn zeta.
  set (tp := if Py.truthy (prop_at ps "Name") then _ else _) in *.
  assert (Hw : wf_property tp = true) by (subst tp; now apply wf_pick).
  rewrite (has_type_wf _ _ Hw). cbn [rbind].
  destruct (is_typed tp "title") eqn:Hty; [|reflexivity].
  destruct (text_value tp "title" (or_introl eq_refl) Hw Hty) as [E1 E2].
  rewrite E1. cbn [rbind]. exact E2.
Qed.

(** X22.  When the domain page is retrieved, the domain name is read from
    it by the rule of the task name with None in place of "Untitled": the
    joined text of the first populated property among "Name", "Title" when
    that property is "title"-typed, and None otherwise.  An exception
    raised while reading the page is swallowed and gives None; on a page
    whose two name properties follow the schema there is none. *)
Theorem X22_domain_name_rule (domain_id domain_page : json) (w w1 : W) :
  Py.truthy domain_id = true ->
  handle (PagesRetrieve domain_id) w = (Ok domain_page, w1) ->
  exists dn,
    resolve_domain_name handle domain_id w
    = (Ok dn, w1, [Called (PagesRetrieve domain_id) (Ok domain_page)])
    /\ (dn = JNull
        \/ exists ps, properties_of domain_page = Some ps
                      /\ dn = domain_name_rule ps)
    /\ (forall ps,
          properties_of domain_page = Some ps ->
          wf_property (prop_at ps "Name") = true ->
          wf_property (prop_at ps "Title") = true ->
          dn = domain_name_rule ps).
Proof.
  intros Ht Hh. rewrite resolve_domain_name_eq, Ht. cbn zeta. rewrite Hh.
  eexists. split; [reflexivity|]. split.
  - destruct (domain_title domain_page) as [x|e] eqn:Hd; [|now left].
    right. now apply domain_title_ok.
  - intros ps Hps Hn Hti. now rewrite (domain_title_wf _ _ Hps Hn Hti).
Qed.

End ResolverProperties.

(* ===================================================================== *)
(** ** The properties above on the sample data *)
(* ===================================================================== *)

Lemma X1_main_names_first_missing_variable_witness :
  Deployment.run Deployment.environment_incomplete (Sample.world [Sample.task_new])
  = (Failed (RuntimeError
               "Missing required environment variable: NOTION_TASKS_DB_ID"),
     Sample.world [Sample.task_new], []).
Proof.
  apply (X1_main_names_first_missing_variable Deployment.loads unit json unit
           Deployment.client Deployment.credentials Deployment.service
           Deployment.answer Ref.stdout Ref.utcnow Deployment.environment_incomplete
           (Sample.world [Sample.task_new]) "NOTION_TASKS_DB_ID").
  vm_compute. reflexivity.
Defined.

Lemma X2_main_rejects_bad_mapping_witness :
  Deployment.run Deployment.environment_broken_mapping
    (Sample.world [Sample.task_new])
  = (Failed (OfClass (Exn ValueError
                        "DOMAIN_CALENDAR_MAPPING must be valid JSON")),
     Sample.world [Sample.task_new], [])
  /\ Deployment.run Deployment.environment_list_mapping
       (Sample.world [Sample.task_new])
     = (Failed (OfClass (Exn ValueError "Mapping must be a JSON object")),
        Sample.world [Sample.task_new], []).
Proof.
  split.
  - refine (proj1 (X2_main_rejects_bad_mapping Deployment.loads unit json unit
                     Deployment.client Deployment.credentials Deployment.service
                     Deployment.answer Ref.stdout Ref.utcnow
                     Deployment.environment_broken_mapping
                     (Sample.world [Sample.task_new]) _)
              "Expecting value: line 1 column 1 (char 0)" _);
      vm_compute; reflexivity.
  - refine (proj2 (X2_main_rejects_bad_mapping Deployment.loads unit json unit
                     Deployment.client Deployment.credentials Deployment.service
                     Deployment.answer Ref.stdout Ref.utcnow
                     Deployment.environment_list_mapping
                     (Sample.world [Sample.task_new]) _)
              (JList []) _ _);
      vm_compute; reflexivity.
Defined.

Lemma X3_main_runs_the_sync_witness :
  Deployment.run Deployment.environment_paris (Sample.world [Sample.task_new])
  = (let '(r, w', t) :=
       Ref.run (str_items [("Book", JStr "book@cal"); ("Home", JStr "home@cal")])
         "Europe/Paris" "db" (Sample.world [Sample.task_new]) in
     (of_result r, w', t))
  /\ Deployment.run Deployment.environment (Sample.world [Sample.task_new])
     = (let '(r, w', t) :=
          Ref.run (str_items [("Book", JStr "book@cal"); ("Home", JStr "home@cal")])
            "America/New_York" "db" (Sample.world [Sample.task_new]) in
        (of_result r, w', t)).
Proof.
  split.
  - refine (X3_main_runs_the_sync Deployment.loads unit json unit
              Deployment.client Deployment.credentials Deployment.service
              Deployment.answer Ref.stdout Ref.utcnow Deployment.environment_paris
              (Sample.world [Sample.task_new]) "secret_token" "db"
              Deployment.mapping_text Deployment.credentials_text
              [("Book", JStr "book@cal"); ("Home", JStr "home@cal")] tt tt
              _ _ _ _ _ _ _ _ _ _ _);
      try discriminate; vm_compute; reflexivity.
  - refine (X3_main_runs_the_sync Deployment.loads unit json unit
              Deployment.client Deployment.credentials Deployment.service
              Deployment.answer Ref.stdout Ref.utcnow Deployment.environment
              (Sample.world [Sample.task_new]) "secret_token" "db"
              Deployment.mapping_text Deployment.credentials_text
              [("Book", JStr "book@cal"); ("Home", JStr "home@cal")] tt tt
              _ _ _ _ _ _ _ _ _ _ _);
      try discriminate; vm_compute; reflexivity.
Defined.

Lemma X4_mapping_keeps_string_entries_witness :
  exists m,
    _parse_calendar_mapping Deployment.loads (Some Deployment.mapping_text)
    = Done m
    /\ (forall k, m !! k = None
                  <-> Py.assoc k [("Book", JStr "book@cal");
                                  ("Home", JStr "home@cal")] = None)
    /\ (forall k s,
          Py.assoc k [("Book", JStr "book@cal"); ("Home", JStr "home@cal")]
          = Some (JStr s) -> m !! k = Some s).
Proof.
  apply (X4_mapping_keeps_string_entries Deployment.loads
           (Some Deployment.mapping_text)
           [("Book", JStr "book@cal"); ("Home", JStr "home@cal")]).
  - vm_compute. reflexivity.
  - constructor; [intros [H|[]]; discriminate H|].
    constructor; [intros []|constructor].
Defined.

Lemma X5_null_calendar_id_becomes_text_witness :
  exists m,
    _parse_calendar_mapping Deployment.loads (Some Deployment.mapping_text_null)
    = Done m
    /\ m !! "Book" = Some "None"
    /\ exists ev,
         In ev (trace_of (sync_page Ref.handle Ref.stdout Ref.utcnow m Sample.zone
                            Sample.task_new (Sample.world [Sample.task_new])))
         /\ calendar_of ev = Some "None".
Proof.
  apply (X5_null_calendar_id_becomes_text Deployment.loads Ref.stdout Ref.utcnow
           (Some Deployment.mapping_text_null) [("Book", JNull)] "Book"
           Ref.handle Sample.zone Sample.task_new
           (JDict [("name", JStr "Task p1");
                   ("due", date_range (JStr "2024-05-01") JNull);
                   ("status", JStr "In progress");
                   ("domain_id", JStr "d1");
                   ("gcal_id", JStr "")])
           (JStr "p1") (Sample.world [Sample.task_new])
           (Sample.world [Sample.task_new])
           [Called (PagesRetrieve (JStr "d1"))
              (Ok (Sample.domain_page "d1" "Book"))]
           (mkDatetime 2024 5 1 0 0 0 0 None)
           (mkDatetime 2024 5 2 0 0 0 0 None)).
  - vm_compute. reflexivity.
  - constructor; [intros []|constructor].
  - reflexivity.
  - reflexivity.
  - reflexivity.
  - reflexivity.
  - reflexivity.
  - reflexivity.
Defined.

Lemma X6_no_call_before_configuration_witness :
  find (fun n => falsy (getenv Deployment.environment n)) required_variables
  = None
  /\ is_done (_parse_calendar_mapping Deployment.loads
                (getenv Deployment.environment "DOMAIN_CALENDAR_MAPPING")) = true
  /\ is_done (Deployment.client (getenv Deployment.environment "NOTION_API_TOKEN"))
     = true
  /\ is_done (_get_google_service Deployment.loads json unit
                Deployment.credentials Deployment.service
                (getenv Deployment.environment "GOOGLE_SERVICE_ACCOUNT_JSON"))
     = true.
Proof.
  apply (X6_no_call_before_configuration Deployment.loads unit json unit
           Deployment.client Deployment.credentials Deployment.service
           Deployment.answer Ref.stdout Ref.utcnow Deployment.environment
           (Sample.world [Sample.task_new])).
  vm_compute. discriminate.
Defined.

Lemma X8_escaping_exception_origin_witness :
  ((_get_task_properties Sample.task_accent
    = Raise (Exn UnicodeEncodeError
               "'ascii' codec can't encode character: ordinal not in range(128)")
    \/ (is_ok (_get_task_properties Sample.task_accent) = true
        /\ Py.getitem Sample.task_accent "id"
           = Raise (Exn UnicodeEncodeError
                      "'ascii' codec can't encode character: ordinal not in range(128)")))
   /\ existsb is_calendar_call
        (trace_of (sync_page Ref.handle Ref.stdout_ascii Ref.utcnow
                     Sample.calendars Sample.zone Sample.task_accent
                     (Sample.world [Sample.task_accent]))) = false
   /\ existsb is_write_back
        (trace_of (sync_page Ref.handle Ref.stdout_ascii Ref.utcnow
                     Sample.calendars Sample.zone Sample.task_accent
                     (Sample.world [Sample.task_accent]))) = false)
  \/ (exists pre name e0 w',
        trace_of (sync_page Ref.handle Ref.stdout_ascii Ref.utcnow
                    Sample.calendars Sample.zone Sample.task_accent
                    (Sample.world [Sample.task_accent]))
        = (pre ++ [Printed (error_line name e0)])%list
        /\ existsb is_calendar_call pre = true
        /\ fst (Ref.stdout_ascii (error_line name e0) w')
           = Raise (Exn UnicodeEncodeError
                      "'ascii' codec can't encode character: ordinal not in range(128)")).
Proof.
  apply (X8_escaping_exception_origin Ref.handle Ref.stdout_ascii Ref.utcnow
           Sample.calendars Sample.zone Sample.task_accent
           (Sample.world [Sample.task_accent])).
  vm_compute. reflexivity.
Defined.

Lemma X9_extractor_failure_ends_the_loop_witness :
  for_each ([Sample.task_new] ++ Deployment.task_empty_select :: [Sample.task_synced])
    (sync_page Ref.handle Ref.stdout Ref.utcnow Sample.calendars Sample.zone)
    (Sample.world [Sample.task_new; Deployment.task_empty_select;
                   Sample.task_synced])
  = for_each ([Sample.task_new] ++ [Deployment.task_empty_select])
      (sync_page Ref.handle Ref.stdout Ref.utcnow Sample.calendars Sample.zone)
      (Sample.world [Sample.task_new; Deployment.task_empty_select;
                     Sample.task_synced])
  /\ is_ok (outcome_of
              (for_each ([Sample.task_new] ++ Deployment.task_empty_select
                                              :: [Sample.task_synced])
                 (sync_page Ref.handle Ref.stdout Ref.utcnow Sample.calendars Sample.zone)
                 (Sample.world [Sample.task_new; Deployment.task_empty_select;
                                Sample.task_synced]))) = false.
Proof.
  apply (X9_extractor_failure_ends_the_loop Ref.handle Ref.stdout Ref.utcnow
           Sample.calendars Sample.zone [Sample.task_new] [Sample.task_synced]
           Deployment.task_empty_select
           (Sample.world [Sample.task_new; Deployment.task_empty_select;
                          Sample.task_synced])
           (Exn AttributeError "'NoneType' object has no attribute 'get'")).
  reflexivity.
Defined.

Lemma X11_calendar_call_payload_witness :
  exists tasks w1 pages page props start_dt end_dt page_id cid k,
    Ref.handle (DatabasesQuery "db") (Sample.world [Sample.task_new])
    = (Ok tasks, w1)
    /\ rbind (Py.get_default tasks "results" (JList [])) Py.iter = Ok pages
    /\ In page pages
    /\ _get_task_properties page = Ok props
    /\ _parse_notion_date (field props "due" JNull) Sample.zone
       = Ok (start_dt, end_dt)
    /\ Py.getitem page "id" = Ok page_id
    /\ Sample.calendars !! k = Some cid /\ cid <> ""
    /\ calendar_of
         (Called (EventsInsert "book@cal"
                    (event_body Sample.zone (JStr "Task p1")
                       (mkDatetime 2024 5 1 0 0 0 0 None)
                       (mkDatetime 2024 5 2 0 0 0 0 None) (JStr "p1")))
                 (Ok (JDict [("id", JStr "evt1")])))
       = Some cid
    /\ body_of
         (Called (EventsInsert "book@cal"
                    (event_body Sample.zone (JStr "Task p1")
                       (mkDatetime 2024 5 1 0 0 0 0 None)
                       (mkDatetime 2024 5 2 0 0 0 0 None) (JStr "p1")))
                 (Ok (JDict [("id", JStr "evt1")])))
       = Some (JDict [("summary", field props "name" JNull);
                      ("start", JDict [("dateTime", JStr (isoformat start_dt));
                                       ("timeZone", JStr Sample.zone)]);
                      ("end", JDict [("dateTime", JStr (isoformat end_dt));
                                     ("timeZone", JStr Sample.zone)]);
                      ("description",
                       JStr ("View in Notion: https://www.notion.so/"
                             ++ py_str page_id))]).
Proof.
  apply (X11_calendar_call_payload Ref.handle Ref.stdout Ref.utcnow Sample.calendars
           Sample.zone "db" (Sample.world [Sample.task_new])).
  - vm_compute. right. right. left. reflexivity.
  - reflexivity.
Defined.

Lemma X12_domain_lookup_first_witness :
  exists r more,
    trace_of (sync_page Ref.handle Ref.stdout Ref.utcnow Sample.calendars Sample.zone
                Sample.task_unmapped (Sample.world [Sample.task_unmapped]))
    = Called (PagesRetrieve (JStr "d2")) r :: more
    /\ existsb is_lookup more = false.
Proof.
  exact (X12_domain_lookup_first Ref.handle Ref.stdout Ref.utcnow Sample.calendars
           Sample.zone Sample.task_unmapped
           (JDict [("name", JStr "Task p4");
                   ("due", date_range (JStr "2024-05-01") JNull);
                   ("status", JStr "In progress");
                   ("domain_id", JStr "d2");
                   ("gcal_id", JStr "")])
           (Sample.world [Sample.task_unmapped]) eq_refl).
Defined.

Lemma X13_run_survives_service_failures_witness :
  (outcome_of (sync_notion_to_calendar Ref.handle Ref.stdout Ref.utcnow
                 Sample.calendars Sample.zone "db"
                 (Sample.world [Sample.task_stale; Sample.task_lost_domain;
                                Sample.task_new]))
   = Ok tt
   \/ exists e pre name e0 w',
        outcome_of (sync_notion_to_calendar Ref.handle Ref.stdout Ref.utcnow
                      Sample.calendars Sample.zone "db"
                      (Sample.world [Sample.task_stale; Sample.task_lost_domain;
                                     Sample.task_new]))
        = Raise e
        /\ trace_of (sync_notion_to_calendar Ref.handle Ref.stdout Ref.utcnow
                       Sample.calendars Sample.zone "db"
                       (Sample.world [Sample.task_stale; Sample.task_lost_domain;
                                      Sample.task_new]))
           = (pre ++ [Printed (error_line name e0)])%list
        /\ fst (Ref.stdout (error_line name e0) w') = Raise e)
  /\ ((forall msg w0, is_ok (fst (Ref.stdout msg w0)) = true) ->
      outcome_of (sync_notion_to_calendar Ref.handle Ref.stdout Ref.utcnow
                    Sample.calendars Sample.zone "db"
                    (Sample.world [Sample.task_stale; Sample.task_lost_domain;
                                   Sample.task_new]))
      = Ok tt).
Proof.
  apply (X13_run_survives_service_failures Ref.handle Ref.stdout Ref.utcnow
           Sample.calendars Sample.zone "db"
           (Sample.world [Sample.task_stale; Sample.task_lost_domain;
                          Sample.task_new])
           (Sample.world [Sample.task_stale; Sample.task_lost_domain;
                          Sample.task_new])
           (JDict [("results",
                    JList [Sample.task_stale; Sample.task_lost_domain;
                           Sample.task_new])])
           [Sample.task_stale; Sample.task_lost_domain; Sample.task_new]).
  - reflexivity.
  - reflexivity.
  - repeat constructor.
Defined.

Lemma X14_due_from_first_populated_key_witness :
  exists ps props,
    properties_of Sample.task_synced = Some ps
    /\ _get_task_properties Sample.task_synced = Ok props
    /\ Py.get props "due" = Ok (due_rule ps)
    /\ (due_rule ps = JNull \/ Py.truthy (due_rule ps) = true).
Proof.
  apply (X14_due_from_first_populated_key Sample.task_synced). reflexivity.
Defined.

Lemma X15_status_entry_only_for_select_or_status_witness :
  exists ps kv,
    properties_of Sample.task_new = Some ps
    /\ field (prop_at ps "Status") "type" JNull = JStr "status"
    /\ _get_task_properties Sample.task_new = Ok (JDict kv)
    /\ Py.assoc "status" kv
       = match field (prop_at ps "Status") "type" JNull with
         | JStr ty =>
             if Py.truthy (prop_at ps "Status")
                && (String.eqb ty "select" || String.eqb ty "status")
             then Some (field (field (prop_at ps "Status") ty (JDict []))
                          "name" JNull)
             else None
         | _ => None
         end
    /\ Py.assoc "status" kv = Some (JStr "In progress").
Proof.
  destruct (X15_status_entry_only_for_select_or_status Sample.task_new eq_refl)
    as (ps & kv & Hps & Hx & Hs).
  exists ps, kv. split; [exact Hps|].
  assert (Hty : field (prop_at ps "Status") "type" JNull = JStr "status").
  { vm_compute in Hps. injection Hps as <-. reflexivity. }
  split; [exact Hty|]. split; [exact Hx|]. split; [exact Hs|].
  rewrite Hs. vm_compute in Hps. injection Hps as <-. reflexivity.
Defined.

Lemma X16_domain_id_is_first_relation_witness :
  exists ps kv,
    properties_of Deployment.task_two_domains = Some ps
    /\ _get_task_properties Deployment.task_two_domains = Ok (JDict kv)
    /\ Py.assoc "domain_id" kv
       = if is_typed (prop_at ps "Domain") "relation" then
           match field (prop_at ps "Domain") "relation" (JList []) with
           | JList (first :: _) => Some (field first "id" JNull)
           | _ => None
           end
         else None.
Proof.
  apply (X16_domain_id_is_first_relation Deployment.task_two_domains).
  reflexivity.
Defined.

Lemma X17_empty_status_value_raises_witness :
  _get_task_properties Deployment.task_empty_select
  = raise AttributeError "'NoneType' object has no attribute 'get'".
Proof.
  apply (X17_empty_status_value_raises Deployment.task_empty_select
           [("Name", title_property ["Task p10"]);
            ("Due Date", date_property (JStr "2024-05-01") JNull);
            ("Status", JDict [("type", JStr "select"); ("select", JNull)])]
           [("type", JStr "select"); ("select", JNull)] "select" JNull).
  - reflexivity.
  - repeat constructor.
  - reflexivity.
  - reflexivity.
  - left. reflexivity.
  - reflexivity.
  - reflexivity.
Defined.

Lemma X18_normalizer_returns_valid_datetimes_witness :
  valid (mkDatetime 2024 2 28 0 0 0 0 None) = true
  /\ valid (mkDatetime 2024 2 29 0 0 0 0 None) = true
  /\ exists s,
       Py.get (date_range (JStr "2024-02-28") JNull) "start" = Ok (JStr s)
       /\ s <> "".
Proof.
  apply (X18_normalizer_returns_valid_datetimes
           (date_range (JStr "2024-02-28") JNull) Sample.zone).
  reflexivity.
Defined.

Lemma X19_normalizer_rejects_other_starts_witness :
  _parse_notion_date (date_range JNull (JStr "2024-05-01")) Sample.zone
  = raise ValueError "start date is missing"
  /\ _parse_notion_date (date_range (JStr "") JNull) Sample.zone
     = raise ValueError "Invalid isoformat string: 'T00:00:00'"
  /\ exists msg,
       _parse_notion_date (date_range (JNum 20240501) JNull) Sample.zone
       = raise TypeError msg.
Proof.
  split; [|split].
  - apply (proj1 (X19_normalizer_rejects_other_starts
                    (date_range JNull (JStr "2024-05-01")) Sample.zone JNull
                    eq_refl)).
    reflexivity.
  - apply (proj1 (proj2 (X19_normalizer_rejects_other_starts
                           (date_range (JStr "") JNull) Sample.zone (JStr "")
                           eq_refl))).
    reflexivity.
  - apply (proj2 (proj2 (X19_normalizer_rejects_other_starts
                           (date_range (JNum 20240501) JNull) Sample.zone
                           (JNum 20240501) eq_refl))).
    + intros s. discriminate.
    + discriminate.
Defined.

Lemma X20_date_only_range_as_text_witness :
  iso_interval (_parse_notion_date
                  (date_range (JStr "2024-12-31") (JStr "2025-01-02"))
                  Sample.zone)
  = Ok ("2024-12-31T00:00:00", "2025-01-02T23:59:59")
  /\ (forall end_str start_dt end_dt,
      _parse_notion_date (date_range (JStr "2024-12-31") end_str) Sample.zone
      = Ok (start_dt, end_dt) ->
      isoformat start_dt = "2024-12-31T00:00:00").
Proof.
  split.
  - apply (proj1 (X20_date_only_range_as_text "2024-12-31" 2024 12 31
                    Sample.zone eq_refl) "2025-01-02" 2025 1 2).
    reflexivity.
  - apply (proj2 (X20_date_only_range_as_text "2024-12-31" 2024 12 31
                    Sample.zone eq_refl)).
Defined.

Lemma X21_printed_timestamp_reads_back_witness :
  fromisoformat (JStr (isoformat (mkDatetime 2024 4 30 12 0 0 123456 None)))
  = Ok (mkDatetime 2024 4 30 12 0 0 123456 None)
  /\ _parse_notion_date
       (date_range (JStr (isoformat (mkDatetime 2024 4 30 12 0 0 123456 None)))
                   (JStr (isoformat (mkDatetime 2024 5 1 0 0 0 0 None))))
       Sample.zone
     = Ok (mkDatetime 2024 4 30 12 0 0 123456 None,
           mkDatetime 2024 5 1 0 0 0 0 None).
Proof.
  apply (X21_printed_timestamp_reads_back
           (mkDatetime 2024 4 30 12 0 0 123456 None)
           (mkDatetime 2024 5 1 0 0 0 0 None) Sample.zone);
    reflexivity.
Defined.

Lemma X22_domain_name_rule_witness :
  exists dn,
    resolve_domain_name Ref.handle (JStr "d1") (Sample.world [Sample.task_new])
    = (Ok dn, Sample.world [Sample.task_new],
       [Called (PagesRetrieve (JStr "d1")) (Ok (Sample.domain_page "d1" "Book"))])
    /\ (dn = JNull
        \/ exists ps, properties_of (Sample.domain_page "d1" "Book") = Some ps
                      /\ dn = domain_name_rule ps)
    /\ (forall ps,
          properties_of (Sample.domain_page "d1" "Book") = Some ps ->
          wf_property (prop_at ps "Name") = true ->
          wf_property (prop_at ps "Title") = true ->
          dn = domain_name_rule ps).
Proof.
  apply (X22_domain_name_rule Ref.handle (JStr "d1")
           (Sample.domain_page "d1" "Book")
           (Sample.world [Sample.task_new]) (Sample.world [Sample.task_new]));
    reflexivity.
Defined.
